(** * JobHacker-AI: ingestion, normalisation, dedup and scoring pipeline

    A shallow embedding of the TypeScript sources [scraper.ts], [agent.ts],
    [storage.ts], [notification.ts], [config.ts] and [index.ts], followed by
    the properties that the design document states about them and by
    further properties of the code.

    Conventions of the embedding.
    - A JavaScript string is a [string]; one [ascii] stands for one code
      unit, so the model covers code units 0..255.
    - A JavaScript number is a [number]: [NaN], the two infinities, or an
      exact rational.  Arithmetic and comparisons are exact; the rounding of
      IEEE doubles is not modelled.
    - A [Date] is its time value: [None] is the Invalid Date, [Some t] is
      [t] milliseconds since the epoch.
    - [try]/[catch] and [throw] are modelled by the [completion] type.
    - Builtins whose result is fixed by the engine and not by this program
      ([JSON.parse], number/string conversion, [Date.parse],
      [toISOString]) are collected in a [Runtime] record that the
      functions take as a parameter; the clock ([Date.now()]) is an explicit
      argument [now]. *)

From Stdlib Require Import String Ascii List ZArith QArith Bool Lia.
From Stdlib Require Import Permutation Sorted.
Import ListNotations.

Set Warnings "-register-all".

Close Scope Q_scope.
Open Scope string_scope.

(** ** Completions: normal return or thrown value *)

(** What a [catch] clause can receive: an [Error] instance with its
    message, or some other thrown value, given by what [String] makes of
    it. *)
Inductive exn : Type :=
| ErrorObj (message : string)
| OtherThrown (rendering : string).

Inductive completion (A : Type) : Type :=
| Return (a : A)
| Throw (e : exn).
Arguments Return {A} a.
Arguments Throw {A} e.

Definition bind {A B : Type} (c : completion A) (k : A -> completion B)
  : completion B :=
  match c with
  | Return a => k a
  | Throw e => Throw e
  end.

Notation "x <- c ;; k" := (bind c (fun x => k))
  (at level 61, c at next level, right associativity).

(** [try { c } catch (error) { h error }] *)
Definition try_catch {A : Type} (c : completion A) (h : exn -> completion A)
  : completion A :=
  match c with
  | Return a => Return a
  | Throw e => h e
  end.

Definition returns {A : Type} (c : completion A) : bool :=
  match c with Return _ => true | Throw _ => false end.

Definition throws {A : Type} (c : completion A) : bool :=
  negb (returns c).

(** ** Strings *)

Module Str.

Definition code (c : ascii) : Z := Z.of_nat (nat_of_ascii c).

(** White space and line terminators removed by [String.prototype.trim]
    and matched by the regular-expression class [\s]: TAB, LF, VT, FF, CR,
    SPACE and NO-BREAK SPACE. *)
Definition isWhiteSpace (c : ascii) : bool :=
  let n := code c in
  ((9 <=? n) && (n <=? 13) || (n =? 32) || (n =? 160))%Z.

(** Line terminators, the characters the regular-expression [.] rejects. *)
Definition isLineTerminator (c : ascii) : bool :=
  let n := code c in ((n =? 10) || (n =? 13))%Z.

(** The class [\d]. *)
Definition isDigit (c : ascii) : bool :=
  let n := code c in ((48 <=? n) && (n <=? 57))%Z.

Fixpoint trimStart (s : string) : string :=
  match s with
  | EmptyString => EmptyString
  | String c s' => if isWhiteSpace c then trimStart s' else s
  end.

Fixpoint trimEnd (s : string) : string :=
  match s with
  | EmptyString => EmptyString
  | String c s' =>
      match trimEnd s' with
      | EmptyString => if isWhiteSpace c then EmptyString
                       else String c EmptyString
      | r => String c r
      end
  end.

(** [s.trim()] *)
Definition trim (s : string) : string := trimEnd (trimStart s).

(** [s.startsWith(p)] *)
Definition startsWith (s p : string) : bool := prefix p s.

(** [s.includes(sub)] *)
Fixpoint includes (s sub : string) : bool :=
  prefix sub s ||
  match s with
  | EmptyString => false
  | String _ s' => includes s' sub
  end.

(** [s.replace(/<pat>\n?/g, '')] for a non-empty literal [pat]: every
    occurrence of [pat], scanning from the left, is deleted together with
    one line feed that directly follows it.  [skip] counts the characters
    of the current occurrence still to be dropped; [nl] records that an
    occurrence has just ended, so that a line feed met now belongs to it. *)
Fixpoint removeFence (pat : string) (skip : nat) (nl : bool) (s : string)
  : string :=
  match s with
  | EmptyString => EmptyString
  | String c s' =>
      match skip with
      | S k => removeFence pat k nl s'
      | O =>
          if nl && Ascii.eqb c "010" then removeFence pat 0 false s'
          else if prefix pat s
               then removeFence pat (String.length pat - 1) true s'
               else String c (removeFence pat 0 false s')
      end
  end.

Definition replaceAllOptNl (pat s : string) : string :=
  removeFence pat 0 false s.

(** All characters satisfy [p]. *)
Fixpoint all (p : ascii -> bool) (s : string) : bool :=
  match s with
  | EmptyString => true
  | String c s' => p c && all p s'
  end.

(** Truthiness of a string value: every string but the empty one. *)
Definition nonEmpty (s : string) : bool :=
  match s with EmptyString => false | _ => true end.

(** The one-character string holding a double quote. *)
Definition dquote : string := String (ascii_of_nat 34) EmptyString.

End Str.

(** ** Numbers *)

Inductive number : Type :=
| NaN
| PInf
| NInf
| Fin (q : Q).

Module Num.

Definition ofZ (z : Z) : number := Fin (inject_Z z).

Definition isNaN (n : number) : bool :=
  match n with NaN => true | _ => false end.

(** [a < b]; false as soon as one side is [NaN]. *)
Definition ltb (a b : number) : bool :=
  match a, b with
  | NaN, _ | _, NaN => false
  | PInf, _ => false
  | _, NInf => false
  | NInf, _ => true
  | _, PInf => true
  | Fin x, Fin y => negb (Qle_bool y x)
  end.

(** [a <= b]; false as soon as one side is [NaN]. *)
Definition leb (a b : number) : bool :=
  match a, b with
  | NaN, _ | _, NaN => false
  | NInf, _ => true
  | _, PInf => true
  | PInf, _ => false
  | _, NInf => false
  | Fin x, Fin y => Qle_bool x y
  end.

Definition gtb (a b : number) : bool := ltb b a.
Definition geb (a b : number) : bool := leb b a.

Definition neg (a : number) : number :=
  match a with
  | NaN => NaN
  | PInf => NInf
  | NInf => PInf
  | Fin x => Fin (Qopp x)
  end.

Definition add (a b : number) : number :=
  match a, b with
  | NaN, _ | _, NaN => NaN
  | PInf, NInf | NInf, PInf => NaN
  | PInf, _ | _, PInf => PInf
  | NInf, _ | _, NInf => NInf
  | Fin x, Fin y => Fin (Qplus x y)
  end.

Definition sub (a b : number) : number := add a (neg b).

(** Sign of an infinity times a finite factor. *)
Definition scaleInf (positive : bool) (y : Q) : number :=
  match Qcompare y 0 with
  | Eq => NaN
  | Gt => if positive then PInf else NInf
  | Lt => if positive then NInf else PInf
  end.

Definition mul (a b : number) : number :=
  match a, b with
  | NaN, _ | _, NaN => NaN
  | PInf, PInf | NInf, NInf => PInf
  | PInf, NInf | NInf, PInf => NInf
  | PInf, Fin y => scaleInf true y
  | NInf, Fin y => scaleInf false y
  | Fin x, PInf => scaleInf true x
  | Fin x, NInf => scaleInf false x
  | Fin x, Fin y => Fin (Qmult x y)
  end.

(** Truthiness of a number: every number but zero and [NaN]. *)
Definition truthy (n : number) : bool :=
  match n with
  | NaN => false
  | Fin q => negb (Qeq_bool q 0)
  | _ => true
  end.

End Num.

(** ** Dates *)

Definition Date : Type := option Z.

Module DateOps.

(** [d.getTime()] *)
Definition getTime (d : Date) : number :=
  match d with
  | Some t => Num.ofZ t
  | None => NaN
  end.

(** Truncation towards zero. *)
Definition truncate (q : Q) : Z := Z.quot (Qnum q) (Zpos (Qden q)).

Definition maxTime : Z := 8640000000000000.

(** [new Date(n)] for a number [n]: the TimeClip of the specification. *)
Definition ofNumber (n : number) : Date :=
  match n with
  | Fin q =>
      if Qle_bool (inject_Z (- maxTime)) q && Qle_bool q (inject_Z maxTime)
      then Some (truncate q) else None
  | _ => None
  end.

End DateOps.

(** ** JavaScript values and the builtins of the engine *)

Inductive JSValue : Type :=
| JUndefined
| JNull
| JBool (b : bool)
| JNumber (n : number)
| JString (s : string)
| JArray (elements : list JSValue)
| JObject (members : list (string * JSValue)).

(** Builtins whose behaviour belongs to the engine.  [JSON_parse] throws a
    [SyntaxError] on text that is not JSON; [Date_parse] returns the
    Invalid Date on text it does not recognise, and never throws. *)
Record Runtime : Type := {
  JSON_parse : string -> completion JSValue;
  StringToNumber : string -> number;
  NumberToString : number -> string;
  Date_parse : string -> Date;
  Date_toISOString : Z -> string
}.

Module JS.

(** Truthiness, as used by [!x], [x || y] and [if (x)]. *)
Definition truthy (v : JSValue) : bool :=
  match v with
  | JUndefined | JNull => false
  | JBool b => b
  | JNumber n => Num.truthy n
  | JString s => Str.nonEmpty s
  | JArray _ | JObject _ => true
  end.

(** [a || b] *)
Definition or (a b : JSValue) : JSValue := if truthy a then a else b.

(** Own property of an object built by [JSON.parse]: the last member with
    that key wins. *)
Definition lookup (k : string) (members : list (string * JSValue))
  : JSValue :=
  fold_left (fun acc m => if String.eqb (fst m) k then snd m else acc)
            members JUndefined.

(** [v.k] for the keys this program reads ([score], [reason]), which no
    primitive wrapper and no array defines: a [TypeError] on [null] and
    [undefined], the own property on an object, [undefined] otherwise. *)
Definition Get (v : JSValue) (k : string) : completion JSValue :=
  match v with
  | JUndefined | JNull =>
      Throw (ErrorObj ("Cannot read properties of null (reading '"
                         ++ k ++ "')"))
  | JObject members => Return (lookup k members)
  | _ => Return JUndefined
  end.

Section Coercions.
Variable rt : Runtime.

(** [String(v)].  An array is joined with commas, [null] and
    [undefined] elements rendering as the empty string. *)
Fixpoint ToString (v : JSValue) : string :=
  match v with
  | JUndefined => "undefined"
  | JNull => "null"
  | JBool true => "true"
  | JBool false => "false"
  | JNumber n => NumberToString rt n
  | JString s => s
  | JArray elements =>
      (fix join (l : list JSValue) : string :=
         match l with
         | [] => EmptyString
         | x :: rest =>
             let sx := match x with
                       | JUndefined | JNull => EmptyString
                       | _ => ToString x
                       end in
             match rest with
             | [] => sx
             | _ => sx ++ "," ++ join rest
             end
         end) elements
  | JObject _ => "[object Object]"
  end.

(** [Number(v)] *)
Definition ToNumber (v : JSValue) : number :=
  match v with
  | JUndefined => NaN
  | JNull => Fin 0
  | JBool true => Fin 1
  | JBool false => Fin 0
  | JNumber n => n
  | JString s => StringToNumber rt s
  | JArray _ | JObject _ => StringToNumber rt (ToString v)
  end.

End Coercions.

End JS.

(** ** types.ts *)

Inductive Source : Type :=
| remoteok | weworkremotely | web3career | hnhiring
| jobicy | cryptojobslist | workingnomads | remotive.

(** The string literal behind each member of the [source] union. *)
Definition sourceTag (s : Source) : string :=
  match s with
  | remoteok => "remoteok"
  | weworkremotely => "weworkremotely"
  | web3career => "web3career"
  | hnhiring => "hnhiring"
  | jobicy => "jobicy"
  | cryptojobslist => "cryptojobslist"
  | workingnomads => "workingnomads"
  | remotive => "remotive"
  end.

Module Job.
Record t : Type := mk {
  id : string;
  title : string;
  company : string;
  description : string;
  url : string;
  postedAt : Date;
  source : Source
}.
End Job.

Module AnalyzedJob.
Record t : Type := mk {
  id : string;
  title : string;
  company : string;
  description : string;
  url : string;
  postedAt : Date;
  source : Source;
  score : number;
  reason : string
}.

(** [{ ...job, score, reason }] *)
Definition spread (job : Job.t) (score : number) (reason : string) : t :=
  mk (Job.id job) (Job.title job) (Job.company job) (Job.description job)
     (Job.url job) (Job.postedAt job) (Job.source job) score reason.
End AnalyzedJob.

Module UserBackground.
Record t : Type := mk {
  experience : string;
  skills : list string;
  location : string;
  remoteOnly : bool;
  industries : list string
}.
End UserBackground.

(** [l.join(sep)] on an array of strings. *)
Fixpoint join (sep : string) (l : list string) : string :=
  match l with
  | [] => EmptyString
  | [x] => x
  | x :: rest => x ++ sep ++ join sep rest
  end.

(** ** agent.ts *)

Module Agent.

Inductive AIProvider : Type :=
| deepseek | openai | groq | together | claude | custom.

Record ScoreReason : Type := { score : number; reason : string }.

(** [error instanceof Error ? error.message : String(error)] *)
Definition messageOf (error : exn) : string :=
  match error with
  | ErrorObj m => m
  | OtherThrown r => r
  end.

Definition buildPrompt (job : Job.t) (background : UserBackground.t)
  : string :=
  "你是一个招聘匹配专家。请分析以下职位描述与候选人背景的匹配度。

候选人背景：
- " ++ UserBackground.experience background ++ "
- 擅长 " ++ join "、" (UserBackground.skills background) ++ "
- 坐标" ++ UserBackground.location background ++ "，"
  ++ (if UserBackground.remoteOnly background
      then "寻找远程工作" else "可接受远程或本地工作") ++ "
- 对 " ++ join " 或 " (UserBackground.industries background)
  ++ " 初创公司感兴趣

职位信息：
- 标题：" ++ Job.title job ++ "
- 公司：" ++ Job.company job ++ "
- 描述：" ++ substring 0 2000 (Job.description job)
  ++ (if (2000 <? String.length (Job.description job))%nat
      then "..." else EmptyString) ++ "

请返回JSON格式（不要包含任何其他文字或代码块标记）：
{" ++ Str.dquote ++ "score" ++ Str.dquote ++ ": 1-10, "
  ++ Str.dquote ++ "reason" ++ Str.dquote ++ ": "
  ++ Str.dquote ++ "一句话说明匹配原因" ++ Str.dquote ++ "}

评分标准：
- 1-3: 完全不匹配
- 4-5: 部分匹配但差距较大
- 6-7: 基本匹配，有一些优势
- 8-9: 高度匹配，非常适合
- 10: 完美匹配".

(** The first lines of [parseAIResponse]: trim, then delete the fence
    markers of a Markdown code block. *)
Definition stripFences (response : string) : string :=
  let cleaned := Str.trim response in
  if Str.startsWith cleaned "```json" then
    Str.replaceAllOptNl "```" (Str.replaceAllOptNl "```json" cleaned)
  else if Str.startsWith cleaned "```" then
    Str.replaceAllOptNl "```" cleaned
  else cleaned.

Section WithRuntime.
Variable rt : Runtime.

Definition parseAIResponse (response : string)
  : completion ScoreReason :=
  let cleaned := stripFences response in
  try_catch
    (parsed <- JSON_parse rt cleaned ;;
     rawScore <- JS.Get parsed "score" ;;
     let score := JS.ToNumber rt rawScore in
     rawReason <- JS.Get parsed "reason" ;;
     let reason := JS.ToString rt (JS.or rawReason (JString EmptyString)) in
     if Num.isNaN score || Num.ltb score (Fin 1) || Num.gtb score (Fin 10)
     then Throw (ErrorObj ("无效的评分: " ++ NumberToString rt score
                             ++ "，必须在1-10之间"))
     else if negb (Str.nonEmpty reason)
             || (String.length (Str.trim reason) =? 0)%nat
     then Throw (ErrorObj "缺少匹配理由")
     else Return {| score := score; reason := Str.trim reason |})
    (fun error =>
       Throw (ErrorObj ("无法解析AI响应: " ++ messageOf error))).

(** [callClaudeAPI]; [response] is the outcome of the [axios.post]
    call, reduced to the text found at [data?.content?.[0]?.text]. *)
Definition callClaudeAPI (response : completion (option string))
  : completion string :=
  content <- response ;;
  match content with
  | Some c => if Str.nonEmpty c then Return c
              else Throw (ErrorObj "Claude API 返回空响应")
  | None => Throw (ErrorObj "Claude API 返回空响应")
  end.

(** [analyzeJob].  [config] is the outcome of [getAIConfig()], which
    throws when no API key is configured; [request] gives, for the
    system prompt and the user prompt, the outcome of the HTTP call to
    the provider, reduced to the text found at the provider's content
    path, [completion.choices[0]?.message?.content] for the chat
    providers ([None] when that path is absent). *)
Definition analyzeJob
           (config : completion AIProvider)
           (request : string -> string -> completion (option string))
           (job : Job.t) (background : UserBackground.t)
  : completion AnalyzedJob.t :=
  aiConfig <- config ;;
  let prompt := buildPrompt job background in
  let systemPrompt :=
    "你是一个专业的招聘匹配分析专家，擅长评估职位与候选人的匹配度。" in
  try_catch
    (content <-
       match aiConfig with
       | claude => callClaudeAPI (request systemPrompt prompt)
       | _ =>
           choice <- request systemPrompt prompt ;;
           let content := match choice with
                          | Some c => c
                          | None => EmptyString
                          end in
           if negb (Str.nonEmpty content)
           then Throw (ErrorObj "AI返回空响应")
           else Return content
       end ;;
     r <- parseAIResponse content ;;
     Return (AnalyzedJob.spread job (score r) (reason r)))
    (fun error => Throw error).

End WithRuntime.

End Agent.

(** ** Functions with state: a state and exception monad

    A computation runs on a state and ends in a completion; the state it
    leaves is kept when it throws, so that a [catch] handler sees the
    mutations made before the [throw]. *)

Definition M (S A : Type) : Type := S -> completion A * S.

Definition ret {S A : Type} (a : A) : M S A := fun s => (Return a, s).

Definition raise {S A : Type} (e : exn) : M S A := fun s => (Throw e, s).

Definition mbind {S A B : Type} (m : M S A) (k : A -> M S B) : M S B :=
  fun s =>
    match m s with
    | (Return a, s') => k a s'
    | (Throw e, s') => (Throw e, s')
    end.

Definition mtry {S A : Type} (m : M S A) (h : exn -> M S A) : M S A :=
  fun s =>
    match m s with
    | (Return a, s') => (Return a, s')
    | (Throw e, s') => h e s'
    end.

(** A computation without effect on the state. *)
Definition pure {S A : Type} (c : completion A) : M S A := fun s => (c, s).

Notation "x <~ m ;; k" := (mbind m (fun x => k))
  (at level 61, m at next level, right associativity).
Notation "m ;;; k" := (mbind m (fun _ => k))
  (at level 61, right associativity).

(** ** storage.ts *)

Module Storage.

(** The [ProcessedJobs] interface; [jobIds] is optional because
    [loadProcessedJobs] guards it with [|| []]. *)
Record ProcessedJobs : Type := {
  jobIds : option (list string);
  lastUpdated : string
}.

(** What the storage file holds: text on which [readFileSync] or
    [JSON.parse] throws, or the JSON text of a [ProcessedJobs] value. *)
Inductive FileContent : Type :=
| Garbage
| Json (data : ProcessedJobs).

(** The part of the file system the module touches: the data directory,
    the file at [storagePath], and whether the disk accepts writes. *)
Record FS : Type := {
  dirExists : bool;
  file : option FileContent;
  writable : bool
}.

Definition emptyFS : FS :=
  {| dirExists := false; file := None; writable := true |}.

(** [JSON.parse(readFileSync(storagePath, 'utf-8'))] *)
Definition readAndParse (c : FileContent) : completion ProcessedJobs :=
  match c with
  | Garbage => Throw (ErrorObj "Unexpected token in JSON")
  | Json data => Return data
  end.

Definition loadProcessedJobs (fs : FS) : list string :=
  match file fs with
  | None => []
  | Some content =>
      match readAndParse content with
      | Return data =>
          match jobIds data with
          | Some ids => ids
          | None => []
          end
      | Throw _ => []
      end
  end.

(** [mkdirSync(dir, { recursive: true })] *)
Definition mkdirSync : M FS unit :=
  fun fs =>
    if writable fs
    then (Return tt, {| dirExists := true; file := file fs;
                        writable := writable fs |})
    else (Throw (ErrorObj "EACCES: permission denied, mkdir"), fs).

(** [writeFileSync(storagePath, JSON.stringify(data, null, 2), 'utf-8')] *)
Definition writeFileSync (data : ProcessedJobs) : M FS unit :=
  fun fs =>
    if writable fs
    then (Return tt, {| dirExists := dirExists fs;
                        file := Some (Json data);
                        writable := writable fs |})
    else (Throw (ErrorObj "EACCES: permission denied, open"), fs).

(** [ids.includes(jobId)] *)
Definition includes (ids : list string) (jobId : string) : bool :=
  existsb (String.eqb jobId) ids.

Section WithRuntime.
Variable rt : Runtime.

(** The clock reading [now] feeds [new Date().toISOString()]. *)
Definition saveProcessedJob (now : Z) (jobId : string) : M FS unit :=
  (fun fs => (if negb (dirExists fs) then mkdirSync else ret tt) fs) ;;;
  existingIds <~ (fun fs => (Return (loadProcessedJobs fs), fs)) ;;
  if includes existingIds jobId then ret tt
  else
    let data := {| jobIds := Some (existingIds ++ [jobId])%list;
                   lastUpdated := Date_toISOString rt now |} in
    mtry (writeFileSync data) (fun error => raise error).

Definition isJobProcessed (jobId : string) (fs : FS) : bool :=
  let processedIds := loadProcessedJobs fs in
  includes processedIds jobId.

Definition clearProcessedJobs (now : Z) : M FS unit :=
  let data := {| jobIds := Some [];
                 lastUpdated := Date_toISOString rt now |} in
  (fun fs => (if negb (dirExists fs) then mkdirSync else ret tt) fs) ;;;
  mtry (writeFileSync data) (fun error => raise error).

End WithRuntime.

End Storage.

(** ** The environment

    [process.env]: a variable is unset or holds a string. *)
Definition Env : Type := string -> option string.

(** ** notification.ts *)

Module Notification.

Record TelegramConfig : Type := {
  botToken : string;
  chatId : string
}.

Definition getTelegramConfig (env : Env) : option TelegramConfig :=
  match env "TELEGRAM_BOT_TOKEN", env "TELEGRAM_CHAT_ID" with
  | Some token, Some chat =>
      if negb (Str.nonEmpty token) || negb (Str.nonEmpty chat) then None
      else Some {| botToken := token; chatId := chat |}
  | _, _ => None
  end.

(** The call of [axios.post]: the address and the fields of the body that
    vary. *)
Record Request : Type := {
  url : string;
  chat_id : string;
  text : string
}.

(** The console lines that carry data of the run. *)
Inductive LogLine : Type :=
| Found (job : AnalyzedJob.t)
| Sent (title : string)
| SendFailed (error : exn)
| NotConfigured.

(** What the module acts on: the console and the requests made to the
    Telegram API, in order. *)
Record World : Type := {
  console : list LogLine;
  outbox : list Request
}.

Definition log (l : LogLine) : M World unit :=
  fun w => (Return tt, {| console := (console w ++ [l])%list;
                          outbox := outbox w |}).

Section WithEnvironment.
Variable rt : Runtime.
Variable env : Env.

(** [post k request] is the outcome of the request made when [k] requests
    were made before. *)
Variable post : nat -> Request -> completion unit.

Definition formatJobMessage (job : AnalyzedJob.t) : string :=
  let scoreEmoji :=
    if Num.geb (AnalyzedJob.score job) (Fin 9) then "🔥"
    else if Num.geb (AnalyzedJob.score job) (Fin 8) then "⭐" else "✨" in
  scoreEmoji ++ " *" ++ NumberToString rt (AnalyzedJob.score job)
    ++ "/10* | " ++ AnalyzedJob.title job ++ "

🏢 公司: " ++ AnalyzedJob.company job ++ "
📝 理由: " ++ AnalyzedJob.reason job ++ "
🔗 链接: " ++ AnalyzedJob.url job ++ "
📍 来源: " ++ sourceTag (AnalyzedJob.source job).

(** [await axios.post(url, {...})] *)
Definition axios_post (request : Request) : M World unit :=
  fun w => (post (List.length (outbox w)) request,
            {| console := console w;
               outbox := (outbox w ++ [request])%list |}).

Definition sendTelegramMessage (config : TelegramConfig) (message : string)
  : M World bool :=
  mtry
    (let url := "https://api.telegram.org/bot" ++ botToken config
                  ++ "/sendMessage" in
     axios_post {| url := url; chat_id := chatId config; text := message |} ;;;
     ret true)
    (fun error => log (SendFailed error) ;;; ret false).

Definition sendNotification (job : AnalyzedJob.t) : M World unit :=
  log (Found job) ;;;
  match getTelegramConfig env with
  | Some telegramConfig =>
      let message := formatJobMessage job in
      success <~ sendTelegramMessage telegramConfig message ;;
      if success then log (Sent (AnalyzedJob.title job)) else ret tt
  | None => ret tt
  end.

(** [jobs.map((j, i) => `${i + 1}. ${j.title} (${j.score}/10)`)], from
    index [i]. *)
Fixpoint summaryLines (i : nat) (jobs : list AnalyzedJob.t) : list string :=
  match jobs with
  | [] => []
  | j :: rest =>
      (NumberToString rt (Num.ofZ (Z.of_nat (i + 1))) ++ ". "
         ++ AnalyzedJob.title j ++ " ("
         ++ NumberToString rt (AnalyzedJob.score j) ++ "/10)")
        :: summaryLines (S i) rest
  end.

Definition summaryMessage (jobs : list AnalyzedJob.t) : string :=
  "🎯 *Job Hunter 发现 "
    ++ NumberToString rt (Num.ofZ (Z.of_nat (List.length jobs)))
    ++ " 个高匹配职位!*

" ++ join (String "010" EmptyString) (summaryLines 0 jobs).

(** The loop of [sendNotifications]; the pause of 500 ms between two jobs
    has no effect on the state. *)
Fixpoint sendEach (jobs : list AnalyzedJob.t) : M World unit :=
  match jobs with
  | [] => ret tt
  | job :: rest => sendNotification job ;;; sendEach rest
  end.

Definition sendNotifications (jobs : list AnalyzedJob.t) : M World unit :=
  match getTelegramConfig env with
  | Some telegramConfig =>
      if (0 <? List.length jobs)%nat
      then sendTelegramMessage telegramConfig (summaryMessage jobs) ;;;
           ret tt
      else ret tt
  | None => ret tt
  end ;;;
  sendEach jobs.

(** [now] is the reading of the clock in [new Date().toISOString()]. *)
Definition sendTestNotification (now : Z) : M World bool :=
  match getTelegramConfig env with
  | None => log NotConfigured ;;; ret false
  | Some telegramConfig =>
      let testMessage := "🤖 *Job Hunter 测试消息*

✅ Telegram 通知已成功配置!
⏰ 时间: " ++ Date_toISOString rt now in
      sendTelegramMessage telegramConfig testMessage
  end.

End WithEnvironment.

End Notification.

(** ** scraper.ts *)

(** The raw shapes follow the TypeScript interfaces: a required field is a
    value, a field declared with [?] is an option. *)
Module RemoteOKJob.
Record t : Type := mk {
  id : string;
  position : string;
  company : string;
  description : string;
  url : string;
  epoch : number
}.
End RemoteOKJob.

Module WWRItem.
Record t : Type := mk {
  title : string;
  link : string;
  description : string;
  pubDate : string
}.
End WWRItem.

Module Web3CareerJob.
Record t : Type := mk {
  id : number;
  title : string;
  company : string;
  description : option string;
  location : option string;
  remote : option bool;
  url : option string;
  slug : option string;
  created_at : option string;
  published_at : option string
}.
End Web3CareerJob.

Module Scraper.

(** The two arguments of [normalizeJob], the raw record and the source
    tag that says which member of the union it is, as one tagged value. *)
Inductive RawJob : Type :=
| FromRemoteOK (job : RemoteOKJob.t)
| FromWWR (job : WWRItem.t)
| FromWeb3Career (job : Web3CareerJob.t).

Definition sourceOf (rawJob : RawJob) : Source :=
  match rawJob with
  | FromRemoteOK _ => remoteok
  | FromWWR _ => weworkremotely
  | FromWeb3Career _ => web3career
  end.

(** [s || fallback] on a string. *)
Definition orElse (s fallback : string) : string :=
  if Str.nonEmpty s then s else fallback.

(** Truthiness of an optional string: present and not empty. *)
Definition truthy (o : option string) : bool :=
  match o with
  | Some s => Str.nonEmpty s
  | None => false
  end.

(** [a || b] on optional strings. *)
Definition orOpt (a b : option string) : option string :=
  if truthy a then a else b.

(** An optional string inside a template literal. *)
Definition render (o : option string) : string :=
  match o with
  | Some s => s
  | None => "undefined"
  end.

(** [o || fallback] where [fallback] is a string. *)
Definition orDefault (o : option string) (fallback : string) : string :=
  match o with
  | Some s => orElse s fallback
  | None => fallback
  end.

(** *** hashString *)

(** Conversion to a signed 32-bit integer, as the bit operators do. *)
Definition ToInt32 (z : Z) : Z :=
  let m := (z mod 4294967296)%Z in
  if (2147483648 <=? m)%Z then (m - 4294967296)%Z else m.

(** One round of the loop: [hash = (hash << 5) - hash + char;
    hash = hash & hash]. *)
Definition hashStep (hash : Z) (c : ascii) : Z :=
  let hash' := (ToInt32 (Z.shiftl (ToInt32 hash) 5) - hash + Str.code c)%Z in
  Z.land (ToInt32 hash') (ToInt32 hash').

Fixpoint hashLoop (hash : Z) (str : string) : Z :=
  match str with
  | EmptyString => hash
  | String c rest => hashLoop (hashStep hash c) rest
  end.

Definition digit36 (d : Z) : ascii :=
  if (d <? 10)%Z then ascii_of_nat (48 + Z.to_nat d)
  else ascii_of_nat (87 + Z.to_nat d).

Fixpoint toRadix36 (fuel : nat) (n : Z) (acc : string) : string :=
  match fuel with
  | O => acc
  | S fuel' =>
      let acc' := String (digit36 (n mod 36)) acc in
      if (n / 36 =? 0)%Z then acc' else toRadix36 fuel' (n / 36) acc'
  end.

(** [n.toString(36)] for an integer [n >= 0]. *)
Definition toString36 (n : Z) : string :=
  toRadix36 (S (Z.to_nat (Z.log2 n))) n EmptyString.

Definition hashString (str : string) : string :=
  let hash := hashLoop 0 str in
  toString36 (Z.abs hash).

(** The [id] that [fetchJobicyJobs] gives the item with this link. *)
Definition jobicyId (link : string) : string :=
  "jobicy-" ++ hashString link.

(** *** Regular expressions *)

(** [\s*(.+)$] at the start of [rest], giving the capture.  The greedy
    [\s*] first tries to take one more white-space character; when the
    remainder then fails, it stops and [(.+)$] must take all of [rest],
    which it does unless a line terminator is in the way. *)
Fixpoint matchCompanyTail (rest : string) : option string :=
  match rest with
  | EmptyString => None
  | String c r =>
      match (if Str.isWhiteSpace c then matchCompanyTail r else None) with
      | Some capture => Some capture
      | None =>
          if Str.all (fun x => negb (Str.isLineTerminator x)) rest
          then Some rest else None
      end
  end.

(** [title.match(/@\s*(.+)$/)], then the capture trimmed. *)
Fixpoint extractCompanyFromTitle (title : string) : option string :=
  match title with
  | EmptyString => None
  | String c r =>
      match (if Ascii.eqb c "@" then matchCompanyTail r else None) with
      | Some capture => Some (Str.trim capture)
      | None => extractCompanyFromTitle r
      end
  end.

(** The longest run of digits at the start of [s], and what follows. *)
Fixpoint takeDigits (s : string) : string :=
  match s with
  | EmptyString => EmptyString
  | String c r => if Str.isDigit c then String c (takeDigits r)
                  else EmptyString
  end.

(** [link.match(/\/(\d+)/)], giving the capture: the digits after the
    first slash that is followed by a digit. *)
Fixpoint matchSlashDigits (link : string) : option string :=
  match link with
  | EmptyString => None
  | String c r =>
      if Ascii.eqb c "/" then
        match takeDigits r with
        | EmptyString => matchSlashDigits r
        | digits => Some digits
        end
      else matchSlashDigits r
  end.

Section WithRuntime.
Variable rt : Runtime.

(** [new Date(dateString)]: the constructor parses and never throws. *)
Definition newDate (dateString : string) : completion Date :=
  Return (Date_parse rt dateString).

(** [try { return new Date(dateString) } catch { return new Date() }] *)
Definition parseDate (now : Z) (dateString : string) : Date :=
  match newDate dateString with
  | Return d => d
  | Throw _ => Some now
  end.

(** [now] is the reading of the clock during the call. *)
Definition normalizeJob (now : Z) (rawJob : RawJob) : Job.t :=
  match rawJob with
  | FromRemoteOK job =>
      {| Job.id := "remoteok-" ++ RemoteOKJob.id job;
         Job.title := orElse (RemoteOKJob.position job) "Untitled";
         Job.company := orElse (RemoteOKJob.company job) "Unknown";
         Job.description := orElse (RemoteOKJob.description job) EmptyString;
         Job.url := orElse (RemoteOKJob.url job)
                      ("https://remoteok.com/remote-jobs/"
                         ++ RemoteOKJob.id job);
         Job.postedAt :=
           DateOps.ofNumber (Num.mul (RemoteOKJob.epoch job) (Fin 1000));
         Job.source := remoteok |}
  | FromWWR job =>
      let urlMatch := matchSlashDigits (WWRItem.link job) in
      let id := match urlMatch with
                | Some digits => "weworkremotely-" ++ digits
                | None => "weworkremotely-"
                            ++ NumberToString rt (Num.ofZ now)
                end in
      {| Job.id := id;
         Job.title := orElse (WWRItem.title job) "Untitled";
         Job.company :=
           orDefault (extractCompanyFromTitle (WWRItem.title job))
                     "Unknown";
         Job.description := orElse (WWRItem.description job) EmptyString;
         Job.url := WWRItem.link job;
         Job.postedAt := parseDate now (WWRItem.pubDate job);
         Job.source := weworkremotely |}
  | FromWeb3Career job =>
      {| Job.id := "web3career-" ++ NumberToString rt (Web3CareerJob.id job);
         Job.title := orElse (Web3CareerJob.title job) "Untitled";
         Job.company := orElse (Web3CareerJob.company job) "Unknown";
         Job.description := orDefault (Web3CareerJob.description job) EmptyString;
         Job.url :=
           if truthy (orOpt (Web3CareerJob.url job)
                            (Web3CareerJob.slug job))
           then "https://web3.career/" ++ render (Web3CareerJob.slug job)
           else "https://web3.career";
         Job.postedAt :=
           parseDate now
             (orDefault (orOpt (Web3CareerJob.published_at job)
                               (Web3CareerJob.created_at job))
                        (Date_toISOString rt now));
         Job.source := web3career |}
  end.

End WithRuntime.

(** [hoursThreshold] defaults to 24 at the call; [now] is [new Date()]. *)
Definition filterByTime (now : Z) (jobs : list Job.t)
           (hoursThreshold : number) : list Job.t :=
  let threshold :=
    Num.mul (Num.mul (Num.mul hoursThreshold (Fin 60)) (Fin 60)) (Fin 1000)
  in
  filter
    (fun job =>
       let timeDiff := Num.sub (DateOps.getTime (Some now))
                               (DateOps.getTime (Job.postedAt job)) in
       Num.geb timeDiff (Fin 0) && Num.leb timeDiff threshold)
    jobs.

(** *** fetchWWRJobs *)

(** What [parsed.rss?.channel?.item] holds after a successful parse:
    nothing (or a falsy value), one item, or an array of items, where
    [None] is a [null] entry. *)
Inductive RssItems : Type :=
| NoItems
| SingleItem (item : WWRItem.t)
| ItemArray (items : list (option WWRItem.t)).

Section Fetch.
Variable rt : Runtime.

(** [new XMLParser(...).parse], reduced to the items of the channel. *)
Variable XMLParser_parse : string -> completion RssItems.

(** The loop over the items; [clock i] is the reading of the clock
    while item [i] is normalised.  In this typed model [normalizeJob]
    does not throw, so the inner [catch] has nothing to skip. *)
Fixpoint collectWWR (clock : nat -> Z) (i : nat)
         (items : list (option WWRItem.t)) : list Job.t :=
  match items with
  | [] => []
  | None :: rest => collectWWR clock (S i) rest
  | Some item :: rest =>
      if negb (Str.nonEmpty (WWRItem.title item))
         || negb (Str.nonEmpty (WWRItem.link item))
      then collectWWR clock (S i) rest
      else normalizeJob rt (clock i) (FromWWR item)
             :: collectWWR clock (S i) rest
  end.

(** [response] is the outcome of [axios.get]: the body of the feed, or
    the error of the transport. *)
Definition fetchWWRJobs (clock : nat -> Z) (response : completion string)
  : completion (list Job.t) :=
  try_catch
    (data <- response ;;
     rawItems <- XMLParser_parse data ;;
     let items := match rawItems with
                  | NoItems => []
                  | SingleItem item => [Some item]
                  | ItemArray l => l
                  end in
     Return (collectWWR clock 0 items))
    (fun error =>
       match error with
       | ErrorObj message =>
           if Str.includes message "XML" then Return [] else Throw error
       | OtherThrown _ => Throw error
       end).

End Fetch.

(** *** fetchRemoteOKJobs *)

Section FetchRemoteOK.
Variable rt : Runtime.

(** The loop over [response.data], where [None] is a [null] entry;
    [clock i] is the reading of the clock while entry [i] is normalised.
    In this typed model [normalizeJob] does not throw, so the inner
    [catch] has nothing to skip. *)
Fixpoint collectRemoteOK (clock : nat -> Z) (i : nat)
         (items : list (option RemoteOKJob.t)) : list Job.t :=
  match items with
  | [] => []
  | None :: rest => collectRemoteOK clock (S i) rest
  | Some item :: rest =>
      if negb (Str.nonEmpty (RemoteOKJob.id item))
         || negb (Str.nonEmpty (RemoteOKJob.position item))
      then collectRemoteOK clock (S i) rest
      else normalizeJob rt (clock i) (FromRemoteOK item)
             :: collectRemoteOK clock (S i) rest
  end.

(** [response] is the outcome of [axios.get]: the array of the API, or the
    error of the transport. *)
Definition fetchRemoteOKJobs (clock : nat -> Z)
           (response : completion (list (option RemoteOKJob.t)))
  : completion (list Job.t) :=
  try_catch
    (data <- response ;;
     Return (collectRemoteOK clock 0 data))
    (fun error => Throw error).

End FetchRemoteOK.

(** *** fetchJobicyJobs *)

Module JobicyItem.
Record t : Type := mk {
  title : string;
  link : string;
  description : string;
  pubDate : string;
  dc_creator : option string
}.
End JobicyItem.

(** What [parsed.rss?.channel?.item] holds after a successful parse of
    the Jobicy feed. *)
Inductive JobicyItems : Type :=
| NoJobicyItems
| SingleJobicyItem (item : JobicyItem.t)
| JobicyItemArray (items : list (option JobicyItem.t)).

(** A [>] occurs in [s]. *)
Fixpoint hasClosing (s : string) : bool :=
  match s with
  | EmptyString => false
  | String c r => Ascii.eqb c ">" || hasClosing r
  end.

(** The scan of [s.replace(/<[^>]*>/g, '')].  A [<] opens a match when a
    [>] follows somewhere, and the match runs to the first one; [inTag]
    says that the scan is inside a match. *)
Fixpoint removeTags (inTag : bool) (s : string) : string :=
  match s with
  | EmptyString => EmptyString
  | String c r =>
      if inTag then
        if Ascii.eqb c ">" then removeTags false r else removeTags true r
      else if Ascii.eqb c "<" && hasClosing r then removeTags true r
           else String c (removeTags false r)
  end.

(** [s.replace(/<[^>]*>/g, '')] *)
Definition stripTags (s : string) : string := removeTags false s.

Section FetchJobicy.
Variable rt : Runtime.

(** [new XMLParser(...).parse], reduced to the items of the channel. *)
Variable XMLParser_parse : string -> completion JobicyItems.

(** [extractCompanyFromJobicyTitle]: its regular expressions use word
    boundaries, a lazy quantifier and dashes beyond the code units of this
    model, and are left to the engine. *)
Variable extractCompanyFromJobicyTitle : string -> option string.

(** The loop over the items; [clock i] is the reading of the clock while
    item [i] is handled. *)
Fixpoint collectJobicy (clock : nat -> Z) (i : nat)
         (items : list (option JobicyItem.t)) : list Job.t :=
  match items with
  | [] => []
  | None :: rest => collectJobicy clock (S i) rest
  | Some item :: rest =>
      if negb (Str.nonEmpty (JobicyItem.title item))
         || negb (Str.nonEmpty (JobicyItem.link item))
      then collectJobicy clock (S i) rest
      else
        let company :=
          orDefault
            (orOpt (extractCompanyFromJobicyTitle (JobicyItem.title item))
                   (JobicyItem.dc_creator item))
            "Unknown" in
        {| Job.id := "jobicy-" ++ hashString (JobicyItem.link item);
           Job.title := JobicyItem.title item;
           Job.company := company;
           Job.description :=
             substring 0 500
               (stripTags (orElse (JobicyItem.description item)
                                  EmptyString));
           Job.url := JobicyItem.link item;
           Job.postedAt := parseDate rt (clock i) (JobicyItem.pubDate item);
           Job.source := jobicy |}
          :: collectJobicy clock (S i) rest
  end.

(** [response] is the outcome of [axios.get]: the body of the feed, or
    the error of the transport. *)
Definition fetchJobicyJobs (clock : nat -> Z) (response : completion string)
  : completion (list Job.t) :=
  try_catch
    (data <- response ;;
     rawItems <- XMLParser_parse data ;;
     let items := match rawItems with
                  | NoJobicyItems => []
                  | SingleJobicyItem item => [Some item]
                  | JobicyItemArray l => l
                  end in
     Return (collectJobicy clock 0 items))
    (fun error => Return []).

End FetchJobicy.

End Scraper.

(** ** config.ts *)

Module Config.

Definition userBackground : UserBackground.t :=
  {| UserBackground.experience := "3年前端工程师经验";
     UserBackground.skills :=
       ["React"; "Next.js"; "TypeScript"; "Vue"; "Nuxt"; "Tailwind";
        "Bootstrap"; "Material UI"; "Ant Design"; "Chakra UI"; "Shadcn UI";
        "Tailwind CSS"; "Bootstrap CSS"; "Material UI CSS";
        "Ant Design CSS"; "Chakra UI CSS"; "Shadcn UI CSS"; "Node.js"];
     UserBackground.location := "中国";
     UserBackground.remoteOnly := true;
     UserBackground.industries := ["AI"; "Web3"] |}.

Definition minScore : number := Fin 8.
Definition hoursThreshold : number := Fin 24.

(** *** getAIConfig *)

(** [Partial<AIConfig>], with the fields that the presets give. *)
Record Preset : Type := {
  presetBaseURL : option string;
  presetModel : option string;
  presetTemperature : option number
}.

Module AIConfig.
Record t : Type := mk {
  provider : string;
  apiKey : string;
  baseURL : option string;
  model : string;
  temperature : number
}.
End AIConfig.

Definition preset (baseURL model : option string) : Preset :=
  {| presetBaseURL := baseURL;
     presetModel := model;
     presetTemperature := Some (Fin (7 # 10)) |}.

(** The property names that the object [aiConfigs] inherits from
    [Object.prototype]; what they hold is truthy and has none of the
    fields of a preset. *)
Definition inherited (key : string) : bool :=
  existsb (String.eqb key)
          ["constructor"; "hasOwnProperty"; "isPrototypeOf";
           "propertyIsEnumerable"; "toLocaleString"; "toString"; "valueOf";
           "__defineGetter__"; "__defineSetter__"; "__lookupGetter__";
           "__lookupSetter__"; "__proto__"].

(** [aiConfigs[provider]], when it is truthy.  The cast [as AIProvider]
    checks nothing: the key is whatever string the environment holds. *)
Definition aiConfigs (provider : string) : option Preset :=
  if String.eqb provider "deepseek" then
    Some (preset (Some "https://api.deepseek.com") (Some "deepseek-chat"))
  else if String.eqb provider "openai" then
    Some (preset (Some "https://api.openai.com/v1") (Some "gpt-4o-mini"))
  else if String.eqb provider "groq" then
    Some (preset (Some "https://api.groq.com/openai/v1")
                 (Some "llama-3.1-70b-versatile"))
  else if String.eqb provider "together" then
    Some (preset (Some "https://api.together.xyz/v1")
                 (Some "meta-llama/Llama-3-70b-chat-hf"))
  else if String.eqb provider "claude" then
    Some (preset (Some "https://api.anthropic.com")
                 (Some "claude-sonnet-4-20250514"))
  else if String.eqb provider "custom" then
    Some (preset None None)
  else if inherited provider then
    Some {| presetBaseURL := None; presetModel := None;
            presetTemperature := None |}
  else None.

(** [a || b] on numbers. *)
Definition orNumber (a b : number) : number :=
  if Num.truthy a then a else b.

Definition missingKey : exn :=
  ErrorObj "AI_API_KEY 或 DEEPSEEK_API_KEY 或 OPENAI_API_KEY 或 ANTHROPIC_API_KEY 环境变量未设置".

(** [Number(process.env.AI_TEMPERATURE)] *)
Definition temperatureSetting (rt : Runtime) (env : Env) : number :=
  JS.ToNumber rt (match env "AI_TEMPERATURE" with
                  | Some s => JString s
                  | None => JUndefined
                  end).

Definition getAIConfig (rt : Runtime) (env : Env)
  : completion AIConfig.t :=
  let provider := Scraper.orDefault (env "AI_PROVIDER") "deepseek" in
  let apiKeyEnv :=
    Scraper.orOpt
      (Scraper.orOpt
         (Scraper.orOpt (env "AI_API_KEY") (env "DEEPSEEK_API_KEY"))
         (env "OPENAI_API_KEY"))
      (env "ANTHROPIC_API_KEY") in
  match apiKeyEnv with
  | Some key =>
      if negb (Str.nonEmpty key) then Throw missingKey
      else
        let preset :=
          match aiConfigs provider with
          | Some p => p
          | None =>
              preset (Some "https://api.deepseek.com") (Some "deepseek-chat")
          end in
        Return
          {| AIConfig.provider := provider;
             AIConfig.apiKey := key;
             AIConfig.baseURL :=
               Scraper.orOpt (env "AI_BASE_URL") (presetBaseURL preset);
             AIConfig.model :=
               Scraper.orDefault
                 (Scraper.orOpt (env "AI_MODEL") (presetModel preset))
                 "deepseek-chat";
             AIConfig.temperature :=
               orNumber (temperatureSetting rt env)
                        (match presetTemperature preset with
                         | Some t => orNumber t (Fin (7 # 10))
                         | None => Fin (7 # 10)
                         end) |}
  | None => Throw missingKey
  end.

End Config.

(** ** index.ts: processJobs *)

Module Index.

(** The console lines that carry data of the run. *)
Inductive LogLine : Type :=
| SourceFetched (sourceName : string) (count : nat)
| SourceFailed (sourceName : string)
| Analyzing (i n : nat) (title : string)
| AnalysisFailed (title : string) (error : exn)
| Printed (job : AnalyzedJob.t)
| Notified (job : AnalyzedJob.t).

(** What [processJobs] mutates: the storage file behind
    [saveProcessedJob], the console, and the local array [analyzedJobs]. *)
Record World : Type := {
  fs : Storage.FS;
  console : list LogLine;
  analyzedJobs : list AnalyzedJob.t
}.

Definition log (l : LogLine) : M World unit :=
  fun w => (Return tt, {| fs := fs w;
                          console := (console w ++ [l])%list;
                          analyzedJobs := analyzedJobs w |}).

(** [analyzedJobs.push(a)] *)
Definition push (a : AnalyzedJob.t) : M World unit :=
  fun w => (Return tt, {| fs := fs w;
                          console := console w;
                          analyzedJobs := (analyzedJobs w ++ [a])%list |}).

(** [const analyzedJobs: AnalyzedJob[] = []] *)
Definition resetAnalyzed : M World unit :=
  fun w => (Return tt, {| fs := fs w;
                          console := console w;
                          analyzedJobs := [] |}).

(** A computation on the storage file, run inside [processJobs]. *)
Definition onStore {A : Type} (m : M Storage.FS A) : M World A :=
  fun w =>
    let (r, fs') := m (fs w) in
    (r, {| fs := fs'; console := console w;
           analyzedJobs := analyzedJobs w |}).

(** [results.forEach(...)] on the outcomes of [Promise.allSettled]: the
    jobs of the sources that were fulfilled, in the order of the sources. *)
Fixpoint mergeResults (results : list (string * completion (list Job.t)))
  : M World (list Job.t) :=
  match results with
  | [] => ret []
  | (sourceName, Return value) :: rest =>
      log (SourceFetched sourceName (List.length value)) ;;;
      more <~ mergeResults rest ;;
      ret (value ++ more)%list
  | (sourceName, Throw _) :: rest =>
      log (SourceFailed sourceName) ;;;
      mergeResults rest
  end.

(** One step of the stable sort with the comparator
    [(a, b) => b.score - a.score]: [job] goes before the first element
    whose score is not greater than its own. *)
Fixpoint insertByScore (job : AnalyzedJob.t) (sorted : list AnalyzedJob.t)
  : list AnalyzedJob.t :=
  match sorted with
  | [] => [job]
  | other :: rest =>
      if Num.gtb (AnalyzedJob.score other) (AnalyzedJob.score job)
      then other :: insertByScore job rest
      else job :: other :: rest
  end.

(** [highScoreJobs.sort((a, b) => b.score - a.score)] *)
Definition sortByScore (jobs : list AnalyzedJob.t) : list AnalyzedJob.t :=
  fold_right insertByScore [] jobs.

(** [printJob(job); await sendNotification(job)] for every job;
    [sendNotification] catches the failures of its transport. *)
Fixpoint deliver (jobs : list AnalyzedJob.t) : M World unit :=
  match jobs with
  | [] => ret tt
  | job :: rest => log (Printed job) ;;; log (Notified job) ;;; deliver rest
  end.

Section WithEnvironment.
Variable rt : Runtime.

(** The outcome of [getAIConfig()]. *)
Variable config : completion Agent.AIProvider.

(** [request i] is the answer of the provider to the call made for the
    job at index [i]; [clock i] is the reading of the clock then. *)
Variable request : nat -> string -> string -> completion (option string).
Variable clock : nat -> Z.

(** The body of the [for] loop at index [i] of [n] jobs. *)
Definition scoreJob (i n : nat) (job : Job.t) : M World unit :=
  mtry
    (log (Analyzing (i + 1) n (Job.title job)) ;;;
     analyzed <~ pure (Agent.analyzeJob rt config (request i) job
                         Config.userBackground) ;;
     push analyzed ;;;
     onStore (Storage.saveProcessedJob rt (clock i) (Job.id job)))
    (fun error =>
       log (AnalysisFailed (Job.title job) error) ;;;
       onStore (Storage.saveProcessedJob rt (clock i) (Job.id job))).

(** The [for] loop, from index [i]. *)
Fixpoint scoreLoop (i n : nat) (newJobs : list Job.t) : M World unit :=
  match newJobs with
  | [] => ret tt
  | job :: rest => scoreJob i n job ;;; scoreLoop (S i) n rest
  end.

(** [results] holds the name of each source with the outcome of its fetch,
    as [Promise.allSettled] gives them; [now] is the reading of the clock
    in [filterByTime]. *)
Definition processJobs (results : list (string * completion (list Job.t)))
           (now : Z) : M World unit :=
  mtry
    (allJobs <~ mergeResults results ;;
     let recentJobs :=
       Scraper.filterByTime now allJobs Config.hoursThreshold in
     newJobs <~ (fun w =>
                   (Return
                      (filter (fun job =>
                                 negb (Storage.isJobProcessed (Job.id job)
                                                              (fs w)))
                              recentJobs), w)) ;;
     match newJobs with
     | [] => ret tt
     | _ =>
         resetAnalyzed ;;;
         scoreLoop 0 (List.length newJobs) newJobs ;;;
         analyzed <~ (fun w => (Return (analyzedJobs w), w)) ;;
         let highScoreJobs :=
           filter (fun job =>
                     Num.geb (AnalyzedJob.score job) Config.minScore)
                  analyzed in
         match highScoreJobs with
         | [] => ret tt
         | _ => deliver (sortByScore highScoreJobs)
         end
     end)
    (fun error => raise error).

End WithEnvironment.

(** [formatTimeAgo]; [now] is the reading of the clock.  Time values are
    integers, so [Math.floor] of a quotient by a positive number is the
    quotient of [Z.div], and [%] is [Z.rem]; on the Invalid Date the
    difference is [NaN] and both comparisons fail. *)
Definition formatTimeAgo (rt : Runtime) (now : Z) (date : Date) : string :=
  match date with
  | None => "刚刚"
  | Some t =>
      let diffMs := (now - t)%Z in
      let diffHours := (diffMs / (1000 * 60 * 60))%Z in
      let diffMinutes :=
        (Z.rem diffMs (1000 * 60 * 60) / (1000 * 60))%Z in
      if (0 <? diffHours)%Z
      then NumberToString rt (Num.ofZ diffHours) ++ " 小时前"
      else if (0 <? diffMinutes)%Z
           then NumberToString rt (Num.ofZ diffMinutes) ++ " 分钟前"
           else "刚刚"
  end.

End Index.

(** ** A reference engine

    A concrete [Runtime] on which the model can be run.  It implements the
    builtins on the inputs this development feeds them: [JSON.parse] for
    the JSON grammar (with [\u] escapes below 256), decimal, hexadecimal and
    [Infinity] literals for the string-to-number conversion, fixed notation
    for the number-to-string conversion, and the ISO 8601 format
    [YYYY-MM-DDTHH:mm:ss.sssZ] for dates.  The theorems below hold for every
    [Runtime]; this one serves the examples. *)

Module Ref.

Definition isChar (c : ascii) (lit : string) : bool :=
  match lit with
  | String d EmptyString => Ascii.eqb c d
  | _ => false
  end.

Fixpoint drop (n : nat) (s : string) : string :=
  match n, s with
  | S k, String _ r => drop k r
  | _, _ => s
  end.

(** A run of digits: its value on top of [acc], its length, the rest. *)
Fixpoint readDigits (s : string) (acc : Z) (count : nat)
  : Z * nat * string :=
  match s with
  | String c r =>
      if Str.isDigit c
      then readDigits r (acc * 10 + (Str.code c - 48))%Z (S count)
      else (acc, count, s)
  | EmptyString => (acc, count, s)
  end.

Definition hexVal (c : ascii) : option Z :=
  let n := Str.code c in
  if ((48 <=? n) && (n <=? 57))%Z then Some (n - 48)%Z
  else if ((97 <=? n) && (n <=? 102))%Z then Some (n - 87)%Z
  else if ((65 <=? n) && (n <=? 70))%Z then Some (n - 55)%Z
  else None.

(** [mantissa * 10 ^ exp10], negated when [negative]. *)
Definition decimal (negative : bool) (mantissa exp10 : Z) : Q :=
  let m := if negative then (- mantissa)%Z else mantissa in
  Qred (if (0 <=? exp10)%Z then inject_Z (m * 10 ^ exp10)
        else Qmake m (Z.to_pos (10 ^ (- exp10)))).

(** An optional fraction: a dot and at least one digit. *)
Definition readFraction (s : string) : option (Z * nat * string) :=
  match s with
  | String c r =>
      if isChar c "." then
        match readDigits r 0 0 with
        | (_, O, _) => None
        | res => Some res
        end
      else Some (0%Z, O, s)
  | EmptyString => Some (0%Z, O, s)
  end.

(** [e], an optional sign and digits. *)
Definition readExponent (s : string) : option (Z * string) :=
  match s with
  | String c r =>
      if isChar c "e" || isChar c "E" then
        let '(sign, r1) :=
          match r with
          | String d r' => if isChar d "+" then (1%Z, r')
                           else if isChar d "-" then ((-1)%Z, r')
                           else (1%Z, r)
          | EmptyString => (1%Z, r)
          end in
        match readDigits r1 0 0 with
        | (_, O, _) => None
        | (e, _, r2) => Some ((sign * e)%Z, r2)
        end
      else Some (0%Z, s)
  | EmptyString => Some (0%Z, s)
  end.

(** A JSON number: an optional minus, an integer part without a leading
    zero, an optional fraction and an optional exponent. *)
Definition readJsonNumber (s : string) : option (number * string) :=
  let '(negative, s1) :=
    match s with
    | String c r => if isChar c "-" then (true, r) else (false, s)
    | EmptyString => (false, s)
    end in
  match s1 with
  | String c r =>
      if Str.isDigit c then
        let '(int, _, s2) :=
          if isChar c "0" then (0%Z, 1%nat, r) else readDigits s1 0 0 in
        match readFraction s2 with
        | Some (frac, places, s3) =>
            match readExponent s3 with
            | Some (e, s4) =>
                Some (Fin (decimal negative
                             (int * 10 ^ Z.of_nat places + frac)%Z
                             (e - Z.of_nat places)%Z), s4)
            | None => None
            end
        | None => None
        end
      else None
  | EmptyString => None
  end.

(** The characters of a JSON string after the opening quote, up to the
    closing one. *)
Fixpoint readJsonString (s : string) : option (string * string) :=
  match s with
  | EmptyString => None
  | String c r =>
      if Ascii.eqb c (ascii_of_nat 34) then Some (EmptyString, r)
      else if isChar c "\" then
        match r with
        | String e r' =>
            let plain (x : ascii) :=
              match readJsonString r' with
              | Some (str, rest) => Some (String x str, rest)
              | None => None
              end in
            if Ascii.eqb e (ascii_of_nat 34) then plain (ascii_of_nat 34)
            else if isChar e "\" then plain "\"%char
            else if isChar e "/" then plain "/"%char
            else if isChar e "b" then plain "008"%char
            else if isChar e "f" then plain "012"%char
            else if isChar e "n" then plain "010"%char
            else if isChar e "r" then plain "013"%char
            else if isChar e "t" then plain "009"%char
            else if isChar e "u" then
              match r' with
              | String h1 (String h2 (String h3 (String h4 r''))) =>
                  match hexVal h1, hexVal h2, hexVal h3, hexVal h4 with
                  | Some 0%Z, Some 0%Z, Some a, Some b =>
                      match readJsonString r'' with
                      | Some (str, rest) =>
                          Some (String (ascii_of_nat
                                          (Z.to_nat (a * 16 + b))) str,
                                rest)
                      | None => None
                      end
                  | _, _, _, _ => None
                  end
              | _ => None
              end
            else None
        | EmptyString => None
        end
      else if (Str.code c <? 32)%Z then None
      else
        match readJsonString r with
        | Some (str, rest) => Some (String c str, rest)
        | None => None
        end
  end.

Definition isJsonSpace (c : ascii) : bool :=
  let n := Str.code c in
  ((n =? 32) || (n =? 9) || (n =? 10) || (n =? 13))%Z.

Fixpoint skipSpace (s : string) : string :=
  match s with
  | String c r => if isJsonSpace c then skipSpace r else s
  | EmptyString => s
  end.

(** Recursive descent; every call spends one unit of [fuel]. *)
Fixpoint readValue (fuel : nat) (s : string) : option (JSValue * string) :=
  match fuel with
  | O => None
  | S fuel' =>
      match skipSpace s with
      | EmptyString => None
      | String c r as s0 =>
          if isChar c "{" then
            match skipSpace r with
            | String d r' =>
                if isChar d "}" then Some (JObject [], r')
                else readMembers fuel' (skipSpace r) []
            | EmptyString => None
            end
          else if isChar c "[" then
            match skipSpace r with
            | String d r' =>
                if isChar d "]" then Some (JArray [], r')
                else readElements fuel' r []
            | EmptyString => None
            end
          else if Ascii.eqb c (ascii_of_nat 34) then
            match readJsonString r with
            | Some (str, rest) => Some (JString str, rest)
            | None => None
            end
          else if prefix "true" s0 then Some (JBool true, drop 4 s0)
          else if prefix "false" s0 then Some (JBool false, drop 5 s0)
          else if prefix "null" s0 then Some (JNull, drop 4 s0)
          else
            match readJsonNumber s0 with
            | Some (n, rest) => Some (JNumber n, rest)
            | None => None
            end
      end
  end

with readElements (fuel : nat) (s : string) (acc : list JSValue)
     : option (JSValue * string) :=
  match fuel with
  | O => None
  | S fuel' =>
      match readValue fuel' s with
      | Some (v, rest) =>
          match skipSpace rest with
          | String d r' =>
              if isChar d "," then readElements fuel' r' (acc ++ [v])%list
              else if isChar d "]" then Some (JArray (acc ++ [v])%list, r')
              else None
          | EmptyString => None
          end
      | None => None
      end
  end

with readMembers (fuel : nat) (s : string) (acc : list (string * JSValue))
     : option (JSValue * string) :=
  match fuel with
  | O => None
  | S fuel' =>
      match s with
      | String q r =>
          if Ascii.eqb q (ascii_of_nat 34) then
            match readJsonString r with
            | Some (key, rest) =>
                match skipSpace rest with
                | String d r' =>
                    if isChar d ":" then
                      match readValue fuel' r' with
                      | Some (v, rest') =>
                          match skipSpace rest' with
                          | String e r'' =>
                              if isChar e "," then
                                readMembers fuel' (skipSpace r'')
                                            (acc ++ [(key, v)])%list
                              else if isChar e "}" then
                                Some (JObject (acc ++ [(key, v)])%list, r'')
                              else None
                          | EmptyString => None
                          end
                      | None => None
                      end
                    else None
                | EmptyString => None
                end
            | None => None
            end
          else None
      | EmptyString => None
      end
  end.

Definition JSON_parse (text : string) : completion JSValue :=
  match readValue (2 * String.length text + 2) text with
  | Some (v, rest) =>
      match skipSpace rest with
      | EmptyString => Return v
      | _ => Throw (ErrorObj "Unexpected non-whitespace character after JSON")
      end
  | None => Throw (ErrorObj "Unexpected token in JSON")
  end.

(** *** Numbers and strings *)

Fixpoint digitsOf (fuel : nat) (n : Z) (acc : string) : string :=
  match fuel with
  | O => acc
  | S fuel' =>
      let acc' := String (ascii_of_nat (48 + Z.to_nat (n mod 10))) acc in
      if (n / 10 =? 0)%Z then acc' else digitsOf fuel' (n / 10) acc'
  end.

(** The decimal digits of an integer [n >= 0]. *)
Definition natural (n : Z) : string :=
  digitsOf (S (Z.to_nat (Z.log2 n))) n EmptyString.

(** The digits of [r / d] after the point, for [0 <= r < d], until the
    division ends or [fuel] digits are written. *)
Fixpoint fractionDigits (fuel : nat) (r d : Z) : string :=
  match fuel with
  | O => EmptyString
  | S fuel' =>
      if (r =? 0)%Z then EmptyString
      else String (ascii_of_nat (48 + Z.to_nat (r * 10 / d)))
                  (fractionDigits fuel' ((r * 10) mod d) d)
  end.

Definition NumberToString (n : number) : string :=
  match n with
  | NaN => "NaN"
  | PInf => "Infinity"
  | NInf => "-Infinity"
  | Fin q =>
      let num := Qnum q in
      let den := Zpos (Qden q) in
      let a := Z.abs num in
      let sign := if (num <? 0)%Z then "-" else EmptyString in
      let frac := fractionDigits 20 (a mod den) den in
      match frac with
      | EmptyString => sign ++ natural (a / den)
      | _ => sign ++ natural (a / den) ++ "." ++ frac
      end
  end.

(** A run of digits in radix 16, all the way to the end of the text. *)
Fixpoint readHex (s : string) (acc : Z) : option Z :=
  match s with
  | EmptyString => Some acc
  | String c r =>
      match hexVal c with
      | Some d => readHex r (acc * 16 + d)%Z
      | None => None
      end
  end.

Definition StringToNumber (text : string) : number :=
  let s := Str.trim text in
  match s with
  | EmptyString => Fin 0
  | String c r =>
      if prefix "0x" s || prefix "0X" s then
        match drop 2 s with
        | EmptyString => NaN
        | digits => match readHex digits 0 with
                    | Some z => Num.ofZ z
                    | None => NaN
                    end
        end
      else
        let '(negative, s1) :=
          if isChar c "-" then (true, r)
          else if isChar c "+" then (false, r)
          else (false, s) in
        if String.eqb s1 "Infinity" then (if negative then NInf else PInf)
        else
          let '(int, intLen, s2) := readDigits s1 0 0 in
          let '(frac, places, s3) :=
            match s2 with
            | String d r2 => if isChar d "." then readDigits r2 0 0
                             else (0%Z, O, s2)
            | EmptyString => (0%Z, O, s2)
            end in
          match (intLen + places)%nat, readExponent s3 with
          | S _, Some (e, EmptyString) =>
              Fin (decimal negative (int * 10 ^ Z.of_nat places + frac)%Z
                           (e - Z.of_nat places)%Z)
          | _, _ => NaN
          end
  end.

(** *** Dates *)

(** Days from 1970-01-01 to the given day of the civil calendar. *)
Definition daysFromCivil (y m d : Z) : Z :=
  let y' := if (m <=? 2)%Z then (y - 1)%Z else y in
  let era := (y' / 400)%Z in
  let yoe := (y' - era * 400)%Z in
  let mp := if (2 <? m)%Z then (m - 3)%Z else (m + 9)%Z in
  let doy := ((153 * mp + 2) / 5 + d - 1)%Z in
  let doe := (yoe * 365 + yoe / 4 - yoe / 100 + doy)%Z in
  (era * 146097 + doe - 719468)%Z.

(** Year, month and day of the day that many days after 1970-01-01. *)
Definition civilFromDays (days : Z) : Z * Z * Z :=
  let z := (days + 719468)%Z in
  let era := (z / 146097)%Z in
  let doe := (z - era * 146097)%Z in
  let yoe := ((doe - doe / 1460 + doe / 36524 - doe / 146096) / 365)%Z in
  let doy := (doe - (365 * yoe + yoe / 4 - yoe / 100))%Z in
  let mp := ((5 * doy + 2) / 153)%Z in
  let d := (doy - (153 * mp + 2) / 5 + 1)%Z in
  let m := if (mp <? 10)%Z then (mp + 3)%Z else (mp - 9)%Z in
  let y := (yoe + era * 400)%Z in
  (if (m <=? 2)%Z then (y + 1)%Z else y, m, d).

(** Exactly [width] digits, then [sep] when it is not empty. *)
Definition readField (width : nat) (sep : string) (s : string)
  : option (Z * string) :=
  match readDigits (substring 0 width s) 0 0 with
  | (v, n, EmptyString) =>
      if (n =? width)%nat && prefix sep (drop width s)
      then Some (v, drop (width + String.length sep) s)
      else None
  | _ => None
  end.

(** [YYYY-MM-DDTHH:mm:ss.sssZ] *)
Definition Date_parse (text : string) : Date :=
  match readField 4 "-" text with
  | Some (y, s1) =>
  match readField 2 "-" s1 with
  | Some (mo, s2) =>
  match readField 2 "T" s2 with
  | Some (d, s3) =>
  match readField 2 ":" s3 with
  | Some (h, s4) =>
  match readField 2 ":" s4 with
  | Some (mi, s5) =>
  match readField 2 "." s5 with
  | Some (sec, s6) =>
  match readField 3 "Z" s6 with
  | Some (ms, EmptyString) =>
      if ((1 <=? mo) && (mo <=? 12) && (1 <=? d) && (d <=? 31)
          && (h <=? 23) && (mi <=? 59) && (sec <=? 59))%Z
      then Some ((((daysFromCivil y mo d * 24 + h) * 60 + mi) * 60 + sec)
                   * 1000 + ms)%Z
      else None
  | _ => None end
  | None => None end
  | None => None end
  | None => None end
  | None => None end
  | None => None end
  | None => None end.

(** [n] written with at least [width] digits. *)
Definition padded (width : nat) (n : Z) : string :=
  let ds := natural n in
  (fix zeros (k : nat) : string :=
     match k with
     | O => ds
     | S k' => String "0" (zeros k')
     end) (width - String.length ds)%nat.

(** For the years 0 to 9999. *)
Definition Date_toISOString (t : Z) : string :=
  let days := (t / 86400000)%Z in
  let ms := (t mod 86400000)%Z in
  let '(y, m, d) := civilFromDays days in
  padded 4 y ++ "-" ++ padded 2 m ++ "-" ++ padded 2 d ++ "T"
    ++ padded 2 (ms / 3600000) ++ ":" ++ padded 2 (ms / 60000 mod 60) ++ ":"
    ++ padded 2 (ms / 1000 mod 60) ++ "." ++ padded 3 (ms mod 1000) ++ "Z".

Definition engine : Runtime :=
  Build_Runtime JSON_parse StringToNumber NumberToString
                Date_parse Date_toISOString.

End Ref.

(** * Vocabulary of the properties *)

Module AgentSpec.

(** What the design document asks of a parsed oracle answer: a [score]
    that coerces to a number between 1 and 10, and a [reason] that, once
    coerced to a string and trimmed, is not empty.  [accepts rt parsed s r]
    says that [parsed] passes with score [s] and trimmed reason [r]. *)
Definition accepts (rt : Runtime) (parsed : JSValue)
           (s : number) (r : string) : Prop :=
  exists rawScore rawReason,
    JS.Get parsed "score" = Return rawScore /\
    JS.Get parsed "reason" = Return rawReason /\
    s = JS.ToNumber rt rawScore /\
    (exists q, s = Fin q /\ (1 <= q)%Q /\ (q <= 10)%Q) /\
    r = Str.trim (JS.ToString rt (JS.or rawReason (JString EmptyString))) /\
    r <> EmptyString.

(** The [Job] fields of an analysed job are those of [job]. *)
Definition extends (r : AnalyzedJob.t) (job : Job.t) : Prop :=
  AnalyzedJob.id r = Job.id job
  /\ AnalyzedJob.title r = Job.title job
  /\ AnalyzedJob.company r = Job.company job
  /\ AnalyzedJob.description r = Job.description job
  /\ AnalyzedJob.url r = Job.url job
  /\ AnalyzedJob.postedAt r = Job.postedAt job
  /\ AnalyzedJob.source r = Job.source job.

End AgentSpec.

(** A number that is the image of an integer. *)
Definition isInteger (n : number) : Prop :=
  exists (q : Q) (z : Z), n = Fin q /\ Qeq q (inject_Z z).

(** The errors that the [catch] clause of [fetchWWRJobs] turns into an
    empty list: the [Error] instances whose message mentions XML. *)
Definition mentionsXML (error : exn) : bool :=
  match error with
  | ErrorObj message => Str.includes message "XML"
  | OtherThrown _ => false
  end.

(** What follows the tag and the dash in the [id] of a normalised job. *)
Definition idKey (rt : Runtime) (now : Z) (rawJob : Scraper.RawJob) : string :=
  match rawJob with
  | Scraper.FromRemoteOK job => RemoteOKJob.id job
  | Scraper.FromWWR job =>
      match Scraper.matchSlashDigits (WWRItem.link job) with
      | Some digits => digits
      | None => NumberToString rt (Num.ofZ now)
      end
  | Scraper.FromWeb3Career job => NumberToString rt (Web3CareerJob.id job)
  end.

(** The window of the design document: the job is dated, not in the
    future, and at most [h] hours old. *)
Definition withinWindow (now : Z) (h : Q) (job : Job.t) : Prop :=
  exists t,
    Job.postedAt job = Some t
    /\ (0 <= now - t)%Z
    /\ (inject_Z (now - t) <= h * inject_Z 3600000)%Q.

(** The test that [filterByTime] applies to one job. *)
Definition keeps (now : Z) (hoursThreshold : number) (job : Job.t) : bool :=
  let threshold :=
    Num.mul (Num.mul (Num.mul hoursThreshold (Fin 60)) (Fin 60)) (Fin 1000) in
  let timeDiff := Num.sub (DateOps.getTime (Some now))
                          (DateOps.getTime (Job.postedAt job)) in
  Num.geb timeDiff (Fin 0) && Num.leb timeDiff threshold.

(** [l1] is [l2] with some elements left out, the others in their order. *)
Inductive Subsequence {A : Type} : list A -> list A -> Prop :=
| sub_nil : Subsequence [] []
| sub_keep (x : A) (l1 l2 : list A) :
    Subsequence l1 l2 -> Subsequence (x :: l1) (x :: l2)
| sub_skip (x : A) (l1 l2 : list A) :
    Subsequence l1 l2 -> Subsequence l1 (x :: l2).

Definition Source_eq_dec (a b : Source) : {a = b} + {a <> b}.
Proof. decide equality. Defined.

Definition Job_eq_dec (a b : Job.t) : {a = b} + {a <> b}.
Proof.
  decide equality; try apply string_dec; try apply Source_eq_dec.
  decide equality. apply Z.eq_dec.
Defined.

(** The file system after [mkdirSync] on a disk that accepts writes. *)
Definition withDir (fs : Storage.FS) : Storage.FS :=
  {| Storage.dirExists := true;
     Storage.file := Storage.file fs;
     Storage.writable := Storage.writable fs |}.

(** The file system after a [saveProcessedJob] that wrote the file: the
    directory exists and the file lists the old ids and the new one. *)
Definition written (rt : Runtime) (now : Z) (jobId : string)
           (fs : Storage.FS) : Storage.FS :=
  {| Storage.dirExists := true;
     Storage.file :=
       Some (Storage.Json
               {| Storage.jobIds :=
                    Some (Storage.loadProcessedJobs fs ++ [jobId])%list;
                  Storage.lastUpdated := Date_toISOString rt now |});
     Storage.writable := Storage.writable fs |}.

(** The titles of the jobs whose analysis was started, in order: one per
    [Analyzing] line of the console. *)
Fixpoint attempts (lines : list Index.LogLine) : list string :=
  match lines with
  | [] => []
  | Index.Analyzing _ _ title :: rest => title :: attempts rest
  | _ :: rest => attempts rest
  end.

(** The jobs handed to the notifier, in order: one per [Notified] line. *)
Fixpoint delivered (lines : list Index.LogLine) : list AnalyzedJob.t :=
  match lines with
  | [] => []
  | Index.Notified job :: rest => job :: delivered rest
  | _ :: rest => delivered rest
  end.

(** The jobs of the sources whose fetch was fulfilled. *)
Definition fulfilled (results : list (string * completion (list Job.t)))
  : list Job.t :=
  flat_map (fun r => match snd r with
                     | Return value => value
                     | Throw _ => []
                     end) results.

(** ** Sample data *)

Module Sample.

Definition job (id title : string) (postedAt : Z) : Job.t :=
  {| Job.id := id;
     Job.title := title;
     Job.company := "Tech Corp";
     Job.description := "React/TypeScript developer needed";
     Job.url := "https://example.com/1";
     Job.postedAt := Some postedAt;
     Job.source := remoteok |}.

Definition frontend : Job.t :=
  job "remoteok-123" "Frontend Engineer" 1700000000000.

(** The text [{"score": <score>, "reason": "<reason>"}]. *)
Definition answer (score reason : string) : string :=
  "{" ++ Str.dquote ++ "score" ++ Str.dquote ++ ": " ++ score ++ ", "
      ++ Str.dquote ++ "reason" ++ Str.dquote ++ ": "
      ++ Str.dquote ++ reason ++ Str.dquote ++ "}".

(** The same answer inside a Markdown code block. *)
Definition fenced (text : string) : string :=
  "```json" ++ String "010" text ++ String "010" "```".

(** A provider that always gives the same answer. *)
Definition replying (text : string) (systemPrompt prompt : string)
  : completion (option string) :=
  Return (Some text).

(** An XML parser that rejects the feed. *)
Definition brokenFeedParser (data : string)
  : completion Scraper.RssItems :=
  Throw (ErrorObj "Invalid XML: unexpected end of input").

Definition unreachableHost : exn :=
  ErrorObj "getaddrinfo ENOTFOUND weworkremotely.com".

Definition listing (link pubDate : string) : WWRItem.t :=
  {| WWRItem.title := "Senior Developer @ Acme";
     WWRItem.link := link;
     WWRItem.description := "TypeScript expert needed";
     WWRItem.pubDate := pubDate |}.

(** An item of the feed as WeWorkRemotely links it, without a number in
    the path, and with a date that does not parse. *)
Definition undated : WWRItem.t :=
  listing "https://weworkremotely.com/remote-jobs/acme-senior-developer"
          "not a date".

Definition numbered (link : string) : WWRItem.t :=
  listing link "2023-11-14T22:13:20.000Z".

Definition remoteOK456 : RemoteOKJob.t :=
  {| RemoteOKJob.id := "456";
     RemoteOKJob.position := "Senior Developer";
     RemoteOKJob.company := "Acme";
     RemoteOKJob.description := "TypeScript expert needed";
     RemoteOKJob.url := "https://remoteok.com/remote-jobs/456";
     RemoteOKJob.epoch := Fin 1700000000 |}.

Definition batch : list Job.t :=
  [job "remoteok-1" "Frontend Engineer" 1700000000000;
   job "remoteok-2" "Backend Engineer" 1700000000000;
   job "remoteok-3" "Designer" 1700000000000].

(** The provider answers the first call with a valid score, fails the
    second call, and answers the third with a score out of range. *)
Definition answers (i : nat) (systemPrompt prompt : string)
  : completion (option string) :=
  match i with
  | O => Return (Some (answer "9" "Great match"))
  | S O => Throw (ErrorObj "Request failed with status code 500")
  | _ => Return (Some (answer "15" "test"))
  end.

(** The provider scores the three jobs 8, 5 and 9. *)
Definition scores (i : nat) (systemPrompt prompt : string)
  : completion (option string) :=
  match i with
  | O => Return (Some (answer "8" "Good match"))
  | S O => Return (Some (answer "5" "Partly matching"))
  | _ => Return (Some (answer "9" "Great match"))
  end.

(** RemoteOK delivers the batch, WeWorkRemotely is unreachable. *)
Definition settled : list (string * completion (list Job.t)) :=
  [("RemoteOK", Return batch); ("WeWorkRemotely", Throw unreachableHost)].

Definition ticks (i : nat) : Z := (1700000000000 + Z.of_nat i)%Z.

Definition freshWorld : Index.World :=
  {| Index.fs := Storage.emptyFS;
     Index.console := [];
     Index.analyzedJobs := [] |}.

End Sample.

(** ** Vocabulary of the further properties *)

(** The polynomial with multiplier 31 over the code units of [str],
    computed without any bound on the integers. *)
Fixpoint horner31 (acc : Z) (str : string) : Z :=
  match str with
  | EmptyString => acc
  | String c rest => horner31 (31 * acc + Str.code c)%Z rest
  end.

(** The digits of radix 36: [0] to [9], then [a] to [z]. *)
Definition isRadix36Digit (c : ascii) : bool :=
  let n := Str.code c in
  ((48 <=? n) && (n <=? 57) || (97 <=? n) && (n <=? 122))%Z.

Definition digitValue36 (c : ascii) : Z :=
  let n := Str.code c in
  if (n <=? 57)%Z then (n - 48)%Z else (n - 87)%Z.

(** [parseInt(s, 36)] on a string of digits of radix 36, on top of
    [acc]. *)
Fixpoint fromRadix36 (acc : Z) (s : string) : Z :=
  match s with
  | EmptyString => acc
  | String c rest => fromRadix36 (acc * 36 + digitValue36 c)%Z rest
  end.

Definition noAt (c : ascii) : bool := negb (Ascii.eqb c "@").
Definition noLineTerminator (c : ascii) : bool :=
  negb (Str.isLineTerminator c).


Definition noBacktick (c : ascii) : bool := negb (Ascii.eqb c "`").

(** The one-character string holding a line feed. *)
Definition lineFeed : string := String "010" EmptyString.

(** The storage file after [saveProcessedJob] has been called for each id
    of [ids] in turn, the call at index [i] reading the clock at
    [clock i], and a call that throws being passed over. *)
Fixpoint saveEach (rt : Runtime) (clock : nat -> Z) (i : nat)
         (ids : list string) (fs : Storage.FS) : Storage.FS :=
  match ids with
  | [] => fs
  | jobId :: rest =>
      saveEach rt clock (S i) rest
               (snd (Storage.saveProcessedJob rt (clock i) jobId fs))
  end.

(** The job has the score [q]. *)
Definition scoreIs (q : Q) (job : AnalyzedJob.t) : bool :=
  match AnalyzedJob.score job with
  | Fin p => Qeq_bool p q
  | _ => false
  end.

(** The score of [a] is at least the score of [b]. *)
Definition scoreGe (a b : AnalyzedJob.t) : Prop :=
  Num.geb (AnalyzedJob.score a) (AnalyzedJob.score b) = true.

Definition finiteScore (job : AnalyzedJob.t) : Prop :=
  exists q, AnalyzedJob.score job = Fin q.

(** The test of [processJobs] on an analysed job:
    [job.score >= filterConfig.minScore]. *)
Definition highScore (job : AnalyzedJob.t) : bool :=
  Num.geb (AnalyzedJob.score job) Config.minScore.

(** The test of [processJobs] on a recent job:
    [!isJobProcessed(job.id)]. *)
Definition unprocessed (fs : Storage.FS) (job : Job.t) : bool :=
  negb (Storage.isJobProcessed (Job.id job) fs).

(** The analyses that return, in the order of the jobs; the job at
    position [k] of the list is analysed with the answer [request (i + k)]. *)
Fixpoint analysed (rt : Runtime) (config : completion Agent.AIProvider)
         (request : nat -> string -> string -> completion (option string))
         (i : nat) (jobs : list Job.t) : list AnalyzedJob.t :=
  match jobs with
  | [] => []
  | job :: rest =>
      (match Agent.analyzeJob rt config (request i) job
                              Config.userBackground with
       | Return a => [a]
       | Throw _ => []
       end ++ analysed rt config request (S i) rest)%list
  end.

(** The entries of a RemoteOK response that [fetchRemoteOKJobs] keeps:
    those that are not [null] and have an [id] and a [position]. *)
Definition usableRemoteOK (data : list (option RemoteOKJob.t))
  : list RemoteOKJob.t :=
  flat_map (fun entry =>
              match entry with
              | Some item =>
                  if Str.nonEmpty (RemoteOKJob.id item)
                     && Str.nonEmpty (RemoteOKJob.position item)
                  then [item] else []
              | None => []
              end) data.

(** The items of a feed that [fetchWWRJobs] keeps: those that are not
    [null] and have a [title] and a [link]. *)
Definition usableWWR (items : list (option WWRItem.t)) : list WWRItem.t :=
  flat_map (fun entry =>
              match entry with
              | Some item =>
                  if Str.nonEmpty (WWRItem.title item)
                     && Str.nonEmpty (WWRItem.link item)
                  then [item] else []
              | None => []
              end) items.

(** The variables in which [getAIConfig] looks for the API key, in the
    order in which it reads them. *)
Definition keyNames : list string :=
  ["AI_API_KEY"; "DEEPSEEK_API_KEY"; "OPENAI_API_KEY"; "ANTHROPIC_API_KEY"].

(** The value of the first variable of [names] that is set and not
    empty. *)
Fixpoint firstSet (env : Env) (names : list string) : option string :=
  match names with
  | [] => None
  | name :: rest =>
      match env name with
      | Some value =>
          if Str.nonEmpty value then Some value else firstSet env rest
      | None => firstSet env rest
      end
  end.

(** An environment in which only the variables of [bindings] are set. *)
Definition envOf (bindings : list (string * string)) : Env :=
  fun name =>
    match find (fun b => String.eqb (fst b) name) bindings with
    | Some b => Some (snd b)
    | None => None
    end.

(** The request that [sendTelegramMessage] makes. *)
Definition telegramRequest (config : Notification.TelegramConfig)
           (message : string) : Notification.Request :=
  {| Notification.url :=
       "https://api.telegram.org/bot" ++ Notification.botToken config
         ++ "/sendMessage";
     Notification.chat_id := Notification.chatId config;
     Notification.text := message |}.

(** A [<] of [s] is followed, somewhere, by a [>]: the text still holds
    something that the tag pattern matches. *)
Fixpoint hasTag (s : string) : bool :=
  match s with
  | EmptyString => false
  | String c r => Ascii.eqb c "<" && Scraper.hasClosing r || hasTag r
  end.

(** The items of a Jobicy feed that [fetchJobicyJobs] keeps. *)
Definition usableJobicy (items : list (option Scraper.JobicyItem.t))
  : list Scraper.JobicyItem.t :=
  flat_map (fun entry =>
              match entry with
              | Some item =>
                  if Str.nonEmpty (Scraper.JobicyItem.title item)
                     && Str.nonEmpty (Scraper.JobicyItem.link item)
                  then [item] else []
              | None => []
              end) items.

(** * Properties *)

(** ** Numbers and strings *)

Lemma ltb_Fin (x y : Q) : Num.ltb (Fin x) (Fin y) = false <-> (y <= x)%Q.
Proof.
  unfold Num.ltb. rewrite negb_false_iff. apply Qle_bool_iff.
Qed.

Lemma leb_Fin (x y : Q) : Num.leb (Fin x) (Fin y) = true <-> (x <= y)%Q.
Proof. unfold Num.leb. apply Qle_bool_iff. Qed.

(** The range test of [parseAIResponse] passes exactly on the finite
    numbers between 1 and 10. *)
Lemma score_test_false (s : number) :
  Num.isNaN s || Num.ltb s (Fin 1) || Num.gtb s (Fin 10) = false
  <-> exists q, s = Fin q /\ (1 <= q)%Q /\ (q <= 10)%Q.
Proof.
  unfold Num.gtb. split.
  - intros H. apply orb_false_iff in H as [H H10].
    apply orb_false_iff in H as [Hn H1].
    destruct s as [| | |q]; try discriminate.
    exists q. split; [reflexivity|].
    split; [apply ltb_Fin; exact H1 | apply ltb_Fin; exact H10].
  - intros (q & -> & H1 & H10). simpl.
    apply ltb_Fin in H1. apply ltb_Fin in H10.
    unfold Num.ltb in H1, H10. rewrite H1, H10. reflexivity.
Qed.

Lemma length_zero (s : string) :
  (String.length s =? 0)%nat = true <-> s = EmptyString.
Proof. destruct s; simpl; split; congruence. Qed.

(** The reason test of [parseAIResponse] passes exactly when the trimmed
    reason is not empty. *)
Lemma reason_test_false (r : string) :
  negb (Str.nonEmpty r) || (String.length (Str.trim r) =? 0)%nat = false
  <-> Str.trim r <> EmptyString.
Proof.
  split.
  - intros H. apply orb_false_iff in H as [_ H].
    intros E. apply length_zero in E. congruence.
  - intros H. apply orb_false_iff. split.
    + destruct r; [elim H; reflexivity | reflexivity].
    + destruct (String.length (Str.trim r) =? 0)%nat eqn:E; [|reflexivity].
      apply length_zero in E. contradiction.
Qed.

Lemma prefix_append (p s : string) : prefix p (p ++ s) = true.
Proof.
  induction p as [|c p IH]; cbn.
  - destruct s; reflexivity.
  - destruct (ascii_dec c c) as [_|N]; [exact IH | elim N; reflexivity].
Qed.

(** Appending to a common prefix is injective. *)
Lemma append_inj (p a b : string) : p ++ a = p ++ b -> a = b.
Proof.
  induction p as [|c p IH]; cbn; intros H; [exact H|].
  inversion H. apply IH. assumption.
Qed.

(** ** agent.ts *)

(** The fence markers of the design document's example are removed, and
    text without a fence is only trimmed. *)
Example stripFences_fenced :
  Agent.stripFences (Sample.fenced (Sample.answer "9" "Great match"))
  = Sample.answer "9" "Great match" ++ String "010" EmptyString.
Proof. vm_compute. reflexivity. Qed.

Example stripFences_plain :
  Agent.stripFences ("  " ++ Sample.answer "8" "x" ++ " ")
  = Sample.answer "8" "x".
Proof. vm_compute. reflexivity. Qed.

(** [parseAIResponse] returns a score and a reason exactly when the text
    left by [stripFences] parses to a value that [AgentSpec.accepts]. *)
Lemma parseAIResponse_returns_iff (rt : Runtime) (response : string)
      (s : number) (r : string) :
  Agent.parseAIResponse rt response
    = Return {| Agent.score := s; Agent.reason := r |}
  <-> exists parsed,
        JSON_parse rt (Agent.stripFences response) = Return parsed
        /\ AgentSpec.accepts rt parsed s r.
Proof.
  unfold Agent.parseAIResponse, AgentSpec.accepts.
  destruct (JSON_parse rt (Agent.stripFences response)) as [parsed|e];
    cbn [bind try_catch].
  2:{ split; [discriminate | intros (p & H & _); discriminate]. }
  destruct (JS.Get parsed "score") as [rawScore|e1] eqn:Hs;
    cbn [bind try_catch].
  2:{ split; [discriminate|].
      intros (p & Hp & rs & rr & H & _). inversion Hp; subst p. congruence. }
  destruct (JS.Get parsed "reason") as [rawReason|e2] eqn:Hr;
    cbn [bind try_catch].
  2:{ split; [discriminate|].
      intros (p & Hp & rs & rr & _ & H & _). inversion Hp; subst p.
      congruence. }
  set (sc := JS.ToNumber rt rawScore).
  set (re := JS.ToString rt (JS.or rawReason (JString EmptyString))).
  destruct (Num.isNaN sc || Num.ltb sc (Fin 1) || Num.gtb sc (Fin 10)) eqn:Ts.
  - split; [discriminate|].
    intros (p & Hp & rs & rr & H1 & H2 & H3 & H4 & _).
    inversion Hp; subst p. rewrite Hs in H1. inversion H1; subst rs.
    subst s. apply score_test_false in H4. fold sc in H4. congruence.
  - destruct (negb (Str.nonEmpty re)
              || (String.length (Str.trim re) =? 0)%nat) eqn:Tr.
    + split; [discriminate|].
      intros (p & Hp & rs & rr & H1 & H2 & H3 & H4 & H5 & H6).
      inversion Hp; subst p. rewrite Hr in H2. inversion H2; subst rr.
      fold re in H5. subst r. apply reason_test_false in H6. congruence.
    + split.
      * intros H. inversion H; subst s r. exists parsed.
        split; [reflexivity|]. exists rawScore, rawReason.
        split; [exact Hs|]. split; [exact Hr|]. split; [reflexivity|].
        split; [apply score_test_false; exact Ts|].
        split; [reflexivity | apply reason_test_false; exact Tr].
      * intros (p & Hp & rs & rr & H1 & H2 & H3 & H4 & H5 & H6).
        inversion Hp; subst p. rewrite Hs in H1. inversion H1; subst rs.
        rewrite Hr in H2. inversion H2; subst rr.
        subst s r. reflexivity.
Qed.



(** The cases that the design document lists, one by one. *)
Lemma parseAIResponse_not_json (rt : Runtime) (response : string) (e : exn) :
  JSON_parse rt (Agent.stripFences response) = Throw e ->
  throws (Agent.parseAIResponse rt response) = true.
Proof.
  intros H. unfold Agent.parseAIResponse. rewrite H. reflexivity.
Qed.

Lemma parseAIResponse_bad_score (rt : Runtime) (response : string)
      (parsed rawScore : JSValue) :
  JSON_parse rt (Agent.stripFences response) = Return parsed ->
  JS.Get parsed "score" = Return rawScore ->
  (forall q, JS.ToNumber rt rawScore = Fin q -> ~ (1 <= q /\ q <= 10)%Q) ->
  throws (Agent.parseAIResponse rt response) = true.
Proof.
  intros Hp Hs Hq.
  destruct (Agent.parseAIResponse rt response) as [[s r]|e] eqn:E;
    [|reflexivity].
  apply parseAIResponse_returns_iff in E.
  destruct E as (p & Hp' & rs & rr & H1 & _ & H3 & (q & H4 & H5) & _).
  rewrite Hp in Hp'. inversion Hp'; subst p.
  rewrite Hs in H1. inversion H1; subst rs.
  elim (Hq q); [congruence | exact H5].
Qed.

Lemma parseAIResponse_blank_reason (rt : Runtime) (response : string)
      (parsed rawReason : JSValue) :
  JSON_parse rt (Agent.stripFences response) = Return parsed ->
  JS.Get parsed "reason" = Return rawReason ->
  Str.trim (JS.ToString rt (JS.or rawReason (JString EmptyString)))
  = EmptyString ->
  throws (Agent.parseAIResponse rt response) = true.
Proof.
  intros Hp Hr Hb.
  destruct (Agent.parseAIResponse rt response) as [[s r]|e] eqn:E;
    [|reflexivity].
  apply parseAIResponse_returns_iff in E.
  destruct E as (p & Hp' & rs & rr & _ & H2 & _ & _ & H5 & H6).
  rewrite Hp in Hp'. inversion Hp'; subst p.
  rewrite Hr in H2. inversion H2; subst rr. congruence.
Qed.

(** The examples of the design document, on the reference engine. *)
Example parseAIResponse_valid :
  Agent.parseAIResponse Ref.engine (Sample.answer "8" "x")
  = Return {| Agent.score := Fin 8; Agent.reason := "x" |}.
Proof. vm_compute. reflexivity. Qed.

Example parseAIResponse_fenced :
  Agent.parseAIResponse Ref.engine
                        (Sample.fenced (Sample.answer "9" "Great match"))
  = Return {| Agent.score := Fin 9; Agent.reason := "Great match" |}.
Proof. vm_compute. reflexivity. Qed.

Example parseAIResponse_out_of_range :
  throws (Agent.parseAIResponse Ref.engine (Sample.answer "15" "test"))
  = true.
Proof. vm_compute. reflexivity. Qed.

Example parseAIResponse_invalid_json :
  throws (Agent.parseAIResponse Ref.engine "not json") = true.
Proof. vm_compute. reflexivity. Qed.

Example parseAIResponse_missing_reason :
  throws (Agent.parseAIResponse Ref.engine
            ("{" ++ Str.dquote ++ "score" ++ Str.dquote ++ ": 8}"))
  = true.
Proof. vm_compute. reflexivity. Qed.

(** What [analyzeJob] returns comes from [parseAIResponse]. *)
Lemma analyzeJob_returns (rt : Runtime) (config : completion Agent.AIProvider)
      (request : string -> string -> completion (option string))
      (job : Job.t) (background : UserBackground.t) (r : AnalyzedJob.t) :
  Agent.analyzeJob rt config request job background = Return r ->
  exists content s,
    Agent.parseAIResponse rt content = Return s
    /\ r = AnalyzedJob.spread job (Agent.score s) (Agent.reason s).
Proof.
  unfold Agent.analyzeJob. intros H.
  destruct config as [provider|e]; cbn [bind] in H; [|discriminate].
  match type of H with
  | try_catch (bind ?c _) _ = _ => destruct c as [content|e] eqn:Ec
  end; cbn [bind try_catch] in H; [|discriminate].
  destruct (Agent.parseAIResponse rt content) as [s|e] eqn:Ep;
    cbn [bind try_catch] in H; [|discriminate].
  inversion H. exists content, s. split; [exact Ep | reflexivity].
Qed.

(** C9 (amended).  Whenever [analyzeJob] succeeds, the record it returns
    has the [Job] fields of the input job unchanged, a score that is a
    number between 1 and 10 inclusive (not necessarily an integer) and a
    reason that is not empty; score and reason are always both there. *)
Theorem C9_analyzeJob_result :
  forall (rt : Runtime) (config : completion Agent.AIProvider)
         (request : string -> string -> completion (option string))
         (job : Job.t) (background : UserBackground.t) (r : AnalyzedJob.t),
    Agent.analyzeJob rt config request job background = Return r ->
    AgentSpec.extends r job
    /\ (exists q, AnalyzedJob.score r = Fin q /\ (1 <= q)%Q /\ (q <= 10)%Q)
    /\ AnalyzedJob.reason r <> EmptyString.
Proof.
  intros rt config request job background r H.
  apply analyzeJob_returns in H. destruct H as (content & [s re] & Hp & ->).
  apply parseAIResponse_returns_iff in Hp.
  destruct Hp as (parsed & _ & rs & rr & _ & _ & _ & Hq & _ & Hre).
  unfold AgentSpec.extends. cbn. repeat split; try reflexivity; assumption.
Qed.

Lemma C9_witness :
  Agent.analyzeJob Ref.engine (Return Agent.deepseek)
    (Sample.replying (Sample.answer "8" " Good match "))
    Sample.frontend Config.userBackground
  = Return (AnalyzedJob.spread Sample.frontend (Fin 8) "Good match")
  /\ AgentSpec.extends
       (AnalyzedJob.spread Sample.frontend (Fin 8) "Good match")
       Sample.frontend
  /\ (exists q,
         AnalyzedJob.score
           (AnalyzedJob.spread Sample.frontend (Fin 8) "Good match") = Fin q
         /\ (1 <= q)%Q /\ (q <= 10)%Q)
  /\ AnalyzedJob.reason
       (AnalyzedJob.spread Sample.frontend (Fin 8) "Good match")
     <> EmptyString.
Proof.
  assert (H : Agent.analyzeJob Ref.engine (Return Agent.deepseek)
                (Sample.replying (Sample.answer "8" " Good match "))
                Sample.frontend Config.userBackground
              = Return (AnalyzedJob.spread Sample.frontend (Fin 8)
                                           "Good match"))
    by (vm_compute; reflexivity).
  split; [exact H|].
  exact (C9_analyzeJob_result Ref.engine (Return Agent.deepseek)
           (Sample.replying (Sample.answer "8" " Good match "))
           Sample.frontend Config.userBackground _ H).
Defined.

(** C9 as stated fails: the provider answers with the score 7.5, the
    analysis succeeds, and the score of the record is not an integer. *)
Lemma C9_counterexample :
  Agent.analyzeJob Ref.engine (Return Agent.deepseek)
    (Sample.replying (Sample.answer "7.5" "Partly matching"))
    Sample.frontend Config.userBackground
  = Return (AnalyzedJob.spread Sample.frontend (Fin (15 # 2))
                               "Partly matching")
  /\ ~ isInteger (AnalyzedJob.score
                    (AnalyzedJob.spread Sample.frontend (Fin (15 # 2))
                                        "Partly matching")).
Proof.
  split; [vm_compute; reflexivity|].
  intros (q & z & Hq & Hz). cbn in Hq. inversion Hq; subst q.
  unfold Qeq in Hz. cbn in Hz. lia.
Qed.

(** ** scraper.ts: fetchWWRJobs *)




(** A feed that parses gives its items, normalised, in order. *)
Example fetchWWRJobs_items :
  option_map (map Job.id)
    (match Scraper.fetchWWRJobs Ref.engine
             (fun _ => Return (Scraper.ItemArray
                                 [Some (Sample.numbered "https://weworkremotely.com/jobs/123");
                                  None;
                                  Some (Sample.numbered EmptyString);
                                  Some (Sample.numbered "https://weworkremotely.com/jobs/456")]))
             Sample.ticks (Return "<rss/>") with
     | Return jobs => Some jobs
     | Throw _ => None
     end)
  = Some ["weworkremotely-123"; "weworkremotely-456"].
Proof. vm_compute. reflexivity. Qed.

(** ** scraper.ts: normalizeJob *)

(** [parseDate] never reaches its [catch] clause. *)
Lemma parseDate_is_parse (rt : Runtime) (now : Z) (dateString : string) :
  Scraper.parseDate rt now dateString = Date_parse rt dateString.
Proof. reflexivity. Qed.

(** C3.  The design document wants a record whose date does not parse to
    be normalised with [postedAt] set to the current time.  The code
    normalises the record, but leaves [postedAt] the Invalid Date: for a
    WeWorkRemotely item whose [pubDate] does not parse, for a Web3.career
    job whose [published_at] does not parse, and for a RemoteOK job whose
    [epoch] is not a number. *)
Theorem C3_unparseable_date_is_kept_invalid :
  forall (rt : Runtime) (now : Z),
    (forall job,
        Date_parse rt (WWRItem.pubDate job) = None ->
        Job.postedAt (Scraper.normalizeJob rt now (Scraper.FromWWR job))
        = None)
    /\ (forall job s,
           Web3CareerJob.published_at job = Some s ->
           s <> EmptyString ->
           Date_parse rt s = None ->
           Job.postedAt
             (Scraper.normalizeJob rt now (Scraper.FromWeb3Career job))
           = None)
    /\ (forall job,
           RemoteOKJob.epoch job = NaN ->
           Job.postedAt
             (Scraper.normalizeJob rt now (Scraper.FromRemoteOK job))
           = None).
Proof.
  intros rt now. split; [|split].
  - intros job H. cbn [Scraper.normalizeJob Job.postedAt].
    rewrite parseDate_is_parse. exact H.
  - intros job s Hs Hne H. cbn [Scraper.normalizeJob Job.postedAt].
    rewrite parseDate_is_parse, Hs.
    unfold Scraper.orOpt, Scraper.truthy, Scraper.orDefault, Scraper.orElse.
    destruct s as [|c s]; [elim Hne; reflexivity|]. exact H.
  - intros job H. cbn [Scraper.normalizeJob Job.postedAt].
    rewrite H. reflexivity.
Qed.

Lemma C3_witness :
  Date_parse Ref.engine (WWRItem.pubDate Sample.undated) = None
  /\ Job.postedAt (Scraper.normalizeJob Ref.engine 1700000000000
                     (Scraper.FromWWR Sample.undated)) = None.
Proof.
  split; [reflexivity|].
  apply (proj1 (C3_unparseable_date_is_kept_invalid
                  Ref.engine 1700000000000%Z) Sample.undated).
  reflexivity.
Defined.

(** The [id] of a normalised job is the tag of its source, a dash and a
    key. *)
Lemma normalizeJob_id (rt : Runtime) (now : Z) (rawJob : Scraper.RawJob) :
  Job.id (Scraper.normalizeJob rt now rawJob)
  = sourceTag (Scraper.sourceOf rawJob) ++ "-" ++ idKey rt now rawJob.
Proof.
  destruct rawJob as [job|job|job]; cbn; try reflexivity.
  destruct (Scraper.matchSlashDigits (WWRItem.link job)); reflexivity.
Qed.

Lemma normalizeJob_source (rt : Runtime) (now : Z)
      (rawJob : Scraper.RawJob) :
  Job.source (Scraper.normalizeJob rt now rawJob) = Scraper.sourceOf rawJob.
Proof. destruct rawJob; reflexivity. Qed.

(** The [id] of a normalised job starts with the tag of its source and a
    dash. *)
Lemma normalizeJob_id_prefix (rt : Runtime) (now : Z)
      (rawJob : Scraper.RawJob) :
  Str.startsWith (Job.id (Scraper.normalizeJob rt now rawJob))
                 (sourceTag (Job.source (Scraper.normalizeJob rt now rawJob))
                    ++ "-") = true.
Proof.
  unfold Str.startsWith. rewrite normalizeJob_id, normalizeJob_source.
  generalize (idKey rt now rawJob). intros key.
  destruct (Scraper.sourceOf rawJob); cbn [sourceTag append];
    match goal with
    | |- prefix ?p _ = true => exact (prefix_append p key)
    end.
Qed.

(** The [id] does not depend on the clock, except for a WeWorkRemotely
    item whose link has no numeric segment. *)
Lemma normalizeJob_id_stable (rt : Runtime) (now1 now2 : Z)
      (rawJob : Scraper.RawJob) :
  (forall job, rawJob = Scraper.FromWWR job ->
               Scraper.matchSlashDigits (WWRItem.link job) <> None) ->
  Job.id (Scraper.normalizeJob rt now1 rawJob)
  = Job.id (Scraper.normalizeJob rt now2 rawJob).
Proof.
  intros H. destruct rawJob as [job|job|job]; cbn; try reflexivity.
  specialize (H job eq_refl).
  destruct (Scraper.matchSlashDigits (WWRItem.link job));
    [reflexivity | contradiction].
Qed.

(** For a WeWorkRemotely item whose link has no numeric segment, the [id]
    is the tag followed by the reading of the clock. *)
Lemma wwr_id_follows_clock (rt : Runtime) (now : Z) (job : WWRItem.t) :
  Scraper.matchSlashDigits (WWRItem.link job) = None ->
  Job.id (Scraper.normalizeJob rt now (Scraper.FromWWR job))
  = "weworkremotely-" ++ NumberToString rt (Num.ofZ now).
Proof. intros H. cbn. rewrite H. reflexivity. Qed.

(** C4.  The design document wants the [id] to start with the tag of the
    source and to be the same on every call with the same record.  The
    prefix is there ([normalizeJob_id_prefix]); the [id] of a
    WeWorkRemotely item whose link has no numeric segment is built from the
    clock, so that two calls on the same record, one millisecond apart,
    return two different ids. *)
Theorem C4_wwr_id_depends_on_clock :
  Scraper.matchSlashDigits (WWRItem.link Sample.undated) = None
  /\ Job.id (Scraper.normalizeJob Ref.engine 1700000000000
               (Scraper.FromWWR Sample.undated))
     = "weworkremotely-1700000000000"
  /\ Job.id (Scraper.normalizeJob Ref.engine 1700000000001
               (Scraper.FromWWR Sample.undated))
     = "weworkremotely-1700000000001"
  /\ Job.id (Scraper.normalizeJob Ref.engine 1700000000000
               (Scraper.FromWWR Sample.undated))
     <> Job.id (Scraper.normalizeJob Ref.engine 1700000000001
                  (Scraper.FromWWR Sample.undated)).
Proof.
  assert (E1 : Job.id (Scraper.normalizeJob Ref.engine 1700000000000
                         (Scraper.FromWWR Sample.undated))
               = "weworkremotely-1700000000000")
    by (vm_compute; reflexivity).
  assert (E2 : Job.id (Scraper.normalizeJob Ref.engine 1700000000001
                         (Scraper.FromWWR Sample.undated))
               = "weworkremotely-1700000000001")
    by (vm_compute; reflexivity).
  split; [vm_compute; reflexivity|].
  split; [exact E1|]. split; [exact E2|].
  rewrite E1, E2. discriminate.
Qed.

(** Two different source tags never give the same [id], whatever follows
    the dash. *)
Lemma tags_separate (s1 s2 : Source) (x y : string) :
  s1 <> s2 -> sourceTag s1 ++ "-" ++ x <> sourceTag s2 ++ "-" ++ y.
Proof.
  intros N E. destruct s1, s2; cbn in E;
    solve [discriminate E | elim N; reflexivity].
Qed.

(** [hashString] is the 31-multiplier hash on 32 bits: two strings as
    short as these collide. *)
Example hashString_collision :
  Scraper.hashString "Aa" = "1mo" /\ Scraper.hashString "BB" = "1mo".
Proof. split; vm_compute; reflexivity. Qed.

(** C5 (amended).  Two records with different source tags never get the
    same id, because the tag is embedded in the id; this holds for the
    eight tags, whatever follows the dash.  Two records of the same
    source get different ids whenever the keys that the ids are built from
    differ: the native id for RemoteOK, the rendering of the native id for
    Web3.career, the first numeric segment of the link for WeWorkRemotely,
    the hash of the link for Jobicy.  Different links with the same first
    numeric segment, and different hash inputs with the same hash, share an
    id. *)
Theorem C5_ids_differ_when_keys_differ :
  forall (rt : Runtime),
    (forall now1 now2 raw1 raw2,
        Scraper.sourceOf raw1 <> Scraper.sourceOf raw2 ->
        Job.id (Scraper.normalizeJob rt now1 raw1)
        <> Job.id (Scraper.normalizeJob rt now2 raw2))
    /\ (forall now1 now2 job1 job2,
           RemoteOKJob.id job1 <> RemoteOKJob.id job2 ->
           Job.id (Scraper.normalizeJob rt now1 (Scraper.FromRemoteOK job1))
           <> Job.id (Scraper.normalizeJob rt now2
                        (Scraper.FromRemoteOK job2)))
    /\ (forall now1 now2 job1 job2,
           NumberToString rt (Web3CareerJob.id job1)
           <> NumberToString rt (Web3CareerJob.id job2) ->
           Job.id (Scraper.normalizeJob rt now1 (Scraper.FromWeb3Career job1))
           <> Job.id (Scraper.normalizeJob rt now2
                        (Scraper.FromWeb3Career job2)))
    /\ (forall now1 now2 job1 job2 digits1 digits2,
           Scraper.matchSlashDigits (WWRItem.link job1) = Some digits1 ->
           Scraper.matchSlashDigits (WWRItem.link job2) = Some digits2 ->
           digits1 <> digits2 ->
           Job.id (Scraper.normalizeJob rt now1 (Scraper.FromWWR job1))
           <> Job.id (Scraper.normalizeJob rt now2 (Scraper.FromWWR job2)))
    /\ (forall link1 link2,
           Scraper.hashString link1 <> Scraper.hashString link2 ->
           Scraper.jobicyId link1 <> Scraper.jobicyId link2)
    /\ (forall (source1 source2 : Source) (key1 key2 : string),
           source1 <> source2 ->
           sourceTag source1 ++ "-" ++ key1
           <> sourceTag source2 ++ "-" ++ key2).
Proof.
  intros rt. split; [|split; [|split; [|split; [|split]]]];
    [| | | | |intros s1 s2 k1 k2; apply tags_separate].
  - intros now1 now2 raw1 raw2 N. rewrite !normalizeJob_id.
    apply tags_separate. exact N.
  - intros now1 now2 job1 job2 N E. rewrite !normalizeJob_id in E.
    apply append_inj in E. cbn [idKey] in E.
    apply (append_inj "-") in E. contradiction.
  - intros now1 now2 job1 job2 N E. rewrite !normalizeJob_id in E.
    apply append_inj in E. apply (append_inj "-") in E. contradiction.
  - intros now1 now2 job1 job2 d1 d2 H1 H2 N E.
    rewrite !normalizeJob_id in E. apply append_inj in E.
    apply (append_inj "-") in E. cbn [idKey] in E.
    rewrite H1, H2 in E. contradiction.
  - intros link1 link2 N E. apply append_inj in E. contradiction.
Qed.

Lemma C5_witness :
  Scraper.sourceOf
    (Scraper.FromWWR
       (Sample.numbered "https://weworkremotely.com/remote-jobs/456"))
  <> Scraper.sourceOf (Scraper.FromRemoteOK Sample.remoteOK456)
  /\ Job.id (Scraper.normalizeJob Ref.engine 1700000000000
               (Scraper.FromWWR
                  (Sample.numbered
                     "https://weworkremotely.com/remote-jobs/456")))
     <> Job.id (Scraper.normalizeJob Ref.engine 1700000000000
                  (Scraper.FromRemoteOK Sample.remoteOK456)).
Proof.
  split; [discriminate|].
  apply (proj1 (C5_ids_differ_when_keys_differ Ref.engine)).
  discriminate.
Defined.

(** C5 as stated fails: two WeWorkRemotely items with different links get
    the same id, and so do two Jobicy items with different links. *)
Lemma C5_counterexample :
  ("https://weworkremotely.com/remote-jobs/456"
   <> "https://weworkremotely.com/listings/456/senior-developer"
   /\ Job.id (Scraper.normalizeJob Ref.engine 1700000000000
                (Scraper.FromWWR
                   (Sample.numbered
                      "https://weworkremotely.com/remote-jobs/456")))
      = Job.id (Scraper.normalizeJob Ref.engine 1700000000000
                  (Scraper.FromWWR
                     (Sample.numbered
                        "https://weworkremotely.com/listings/456/senior-developer"))))
  /\ ("Aa" <> "BB" /\ Scraper.jobicyId "Aa" = Scraper.jobicyId "BB").
Proof.
  split; split; try discriminate; vm_compute; reflexivity.
Qed.

(** ** scraper.ts: filterByTime *)

Lemma timeDiff_Fin (now t : Z) :
  Num.sub (DateOps.getTime (Some now)) (DateOps.getTime (Some t))
  = Fin (inject_Z now + - inject_Z t).
Proof. reflexivity. Qed.

Lemma diff_inject (now t : Z) :
  (inject_Z now + - inject_Z t == inject_Z (now - t))%Q.
Proof.
  unfold Z.sub. rewrite inject_Z_plus, inject_Z_opp. reflexivity.
Qed.

Lemma diff_nonneg (now t : Z) :
  (0 <= inject_Z now + - inject_Z t)%Q <-> (0 <= now - t)%Z.
Proof.
  rewrite diff_inject. change 0%Q with (inject_Z 0).
  rewrite <- Zle_Qle. reflexivity.
Qed.

Lemma threshold_Fin (q : Q) :
  Num.mul (Num.mul (Num.mul (Fin q) (Fin 60)) (Fin 60)) (Fin 1000)
  = Fin (q * 60 * 60 * 1000).
Proof. reflexivity. Qed.

Lemma threshold_millis (q : Q) :
  (q * 60 * 60 * 1000 == q * inject_Z 3600000)%Q.
Proof. unfold inject_Z. ring. Qed.

Lemma filterByTime_filter (now : Z) (jobs : list Job.t) (h : number) :
  Scraper.filterByTime now jobs h = filter (keeps now h) jobs.
Proof. reflexivity. Qed.

(** For a finite threshold the test is the window of the design
    document. *)
Lemma keeps_window (now : Z) (q : Q) (job : Job.t) :
  keeps now (Fin q) job = true <-> withinWindow now q job.
Proof.
  unfold keeps, withinWindow.
  destruct (Job.postedAt job) as [t|].
  - rewrite timeDiff_Fin, threshold_Fin. unfold Num.geb.
    rewrite andb_true_iff, !leb_Fin, diff_nonneg.
    rewrite diff_inject, threshold_millis.
    split.
    + intros [H1 H2]. exists t. auto.
    + intros (t' & E & H1 & H2). inversion E; subst t'. auto.
  - cbn. split; [discriminate|]. intros (t & E & _). discriminate.
Qed.

(** A job dated after [now] fails the test, whatever the threshold. *)
Lemma keeps_future (now : Z) (h : number) (job : Job.t) (t : Z) :
  Job.postedAt job = Some t -> (now < t)%Z -> keeps now h job = false.
Proof.
  intros E L. unfold keeps. rewrite E, timeDiff_Fin.
  apply andb_false_iff. left. unfold Num.geb.
  destruct (Num.leb (Fin 0) (Fin (inject_Z now + - inject_Z t))) eqn:B;
    [|reflexivity].
  apply leb_Fin, diff_nonneg in B. lia.
Qed.

(** With a threshold that is not a number nothing passes the test. *)
Lemma keeps_NaN (now : Z) (job : Job.t) : keeps now NaN job = false.
Proof.
  unfold keeps. destruct (Job.postedAt job); cbn; [|reflexivity].
  apply andb_false_r.
Qed.

(** A job without a valid date fails the test as well. *)
Lemma keeps_invalid (now : Z) (h : number) (job : Job.t) :
  Job.postedAt job = None -> keeps now h job = false.
Proof. intros E. unfold keeps. rewrite E. reflexivity. Qed.



(** The test of the repository: of a job 12 hours old and a job 48 hours
    old, the default threshold keeps the first only. *)
Example filterByTime_test :
  Scraper.filterByTime 1700000000000
    [Sample.job "1" "Recent Job" (1700000000000 - 12 * 3600000);
     Sample.job "2" "Old Job" (1700000000000 - 48 * 3600000)]
    Config.hoursThreshold
  = [Sample.job "1" "Recent Job" (1700000000000 - 12 * 3600000)].
Proof. vm_compute. reflexivity. Qed.

Lemma filter_Subsequence {A : Type} (p : A -> bool) (l : list A) :
  Subsequence (filter p l) l.
Proof.
  induction l as [|x l IH]; cbn.
  - constructor.
  - destruct (p x); constructor; exact IH.
Qed.

Lemma Subsequence_In {A : Type} (l1 l2 : list A) (x : A) :
  Subsequence l1 l2 -> In x l1 -> In x l2.
Proof.
  induction 1 as [|y l1 l2 _ IH|y l1 l2 _ IH]; cbn; intros H.
  - exact H.
  - destruct H as [H|H]; [left; exact H | right; apply IH; exact H].
  - right. apply IH. exact H.
Qed.

Lemma Subsequence_count {A : Type} (dec : forall a b : A, {a = b} + {a <> b})
      (l1 l2 : list A) (x : A) :
  Subsequence l1 l2 -> (count_occ dec l1 x <= count_occ dec l2 x)%nat.
Proof.
  induction 1 as [|y l1 l2 _ IH|y l1 l2 _ IH]; cbn.
  - lia.
  - destruct (dec y x); lia.
  - destruct (dec y x); lia.
Qed.

(** C10.  For every input list and threshold, the output of
    [filterByTime] is the input with some jobs left out: the jobs kept are
    jobs of the input, unmodified and in their order, and none occurs more
    often than in the input. *)
Theorem C10_filterByTime_subsequence :
  forall (now : Z) (jobs : list Job.t) (h : number),
    Subsequence (Scraper.filterByTime now jobs h) jobs
    /\ (forall job, In job (Scraper.filterByTime now jobs h) -> In job jobs)
    /\ (forall job,
           (count_occ Job_eq_dec (Scraper.filterByTime now jobs h) job
            <= count_occ Job_eq_dec jobs job)%nat).
Proof.
  intros now jobs h.
  assert (S : Subsequence (Scraper.filterByTime now jobs h) jobs)
    by (rewrite filterByTime_filter; apply filter_Subsequence).
  split; [exact S|]. split.
  - intros job. apply Subsequence_In. exact S.
  - intros job. apply Subsequence_count. exact S.
Qed.

(** ** storage.ts *)

Lemma includes_In (ids : list string) (jobId : string) :
  Storage.includes ids jobId = true <-> In jobId ids.
Proof.
  unfold Storage.includes. rewrite existsb_exists. split.
  - intros (x & Hx & E). apply String.eqb_eq in E. subst x. exact Hx.
  - intros H. exists jobId. split; [exact H | apply String.eqb_refl].
Qed.

(** [saveProcessedJob], case by case: the directory cannot be made; the id
    is already stored; the file is written; the file cannot be written. *)
Lemma saveProcessedJob_cases (rt : Runtime) (now : Z) (jobId : string)
      (fs : Storage.FS) :
  Storage.saveProcessedJob rt now jobId fs
  = if negb (Storage.dirExists fs) && negb (Storage.writable fs)
    then (Throw (ErrorObj "EACCES: permission denied, mkdir"), fs)
    else if Storage.includes (Storage.loadProcessedJobs fs) jobId
         then (Return tt, if Storage.dirExists fs then fs else withDir fs)
         else if Storage.writable fs
              then (Return tt, written rt now jobId fs)
              else (Throw (ErrorObj "EACCES: permission denied, open"), fs).
Proof.
  unfold Storage.saveProcessedJob, mbind, mtry, ret, raise,
    Storage.mkdirSync, Storage.writeFileSync, written, withDir,
    Storage.loadProcessedJobs.
  destruct fs as [d f w]. destruct d, w; cbn;
    repeat match goal with
           | |- context [existsb ?p ?l] => destruct (existsb p l)
           end; reflexivity.
Qed.

Lemma load_written (rt : Runtime) (now : Z) (jobId : string)
      (fs : Storage.FS) :
  Storage.loadProcessedJobs (written rt now jobId fs)
  = (Storage.loadProcessedJobs fs ++ [jobId])%list.
Proof. reflexivity. Qed.

(** On a disk that accepts writes, [saveProcessedJob] returns; the id is
    then stored, the ids stored before are still there, and the disk still
    accepts writes. *)
Lemma saveProcessedJob_writable (rt : Runtime) (now : Z) (jobId : string)
      (fs : Storage.FS) :
  Storage.writable fs = true ->
  exists fs',
    Storage.saveProcessedJob rt now jobId fs = (Return tt, fs')
    /\ In jobId (Storage.loadProcessedJobs fs')
    /\ Storage.writable fs' = true
    /\ (forall x, In x (Storage.loadProcessedJobs fs) ->
                  In x (Storage.loadProcessedJobs fs')).
Proof.
  intros W. rewrite saveProcessedJob_cases, W, andb_false_r.
  destruct (Storage.includes (Storage.loadProcessedJobs fs) jobId) eqn:I.
  - apply includes_In in I.
    exists (if Storage.dirExists fs then fs else withDir fs).
    split; [reflexivity|].
    destruct (Storage.dirExists fs); auto.
  - exists (written rt now jobId fs). split; [reflexivity|].
    rewrite load_written. split; [|split].
    + apply in_or_app. right. left. reflexivity.
    + exact W.
    + intros x Hx. apply in_or_app. left. exact Hx.
Qed.

(** Whenever [saveProcessedJob] returns, the id is stored. *)
Lemma saveProcessedJob_returned (rt : Runtime) (now : Z) (jobId : string)
      (fs fs' : Storage.FS) :
  Storage.saveProcessedJob rt now jobId fs = (Return tt, fs') ->
  In jobId (Storage.loadProcessedJobs fs').
Proof.
  rewrite saveProcessedJob_cases.
  destruct (negb (Storage.dirExists fs) && negb (Storage.writable fs));
    [discriminate|].
  destruct (Storage.includes (Storage.loadProcessedJobs fs) jobId) eqn:I.
  - apply includes_In in I. intros E. inversion E.
    destruct (Storage.dirExists fs); exact I.
  - destruct (Storage.writable fs); [|discriminate].
    intros E. inversion E. rewrite load_written.
    apply in_or_app. right. left. reflexivity.
Qed.

(** C8.  For every state of the store and every id: whenever
    [saveProcessedJob] returns, [loadProcessedJobs] contains the id, and on
    a disk that accepts writes it does return.  Saving the same id twice,
    starting from a store that loads as empty (no file, an unreadable file,
    or an empty list), leaves one id in the store: the second call changes
    nothing.  Saving an id that is already stored changes nothing. *)
Theorem C8_dedup_store_round_trip :
  forall (rt : Runtime),
    (forall now jobId fs fs',
        Storage.saveProcessedJob rt now jobId fs = (Return tt, fs') ->
        In jobId (Storage.loadProcessedJobs fs'))
    /\ (forall now jobId fs,
           Storage.writable fs = true ->
           exists fs',
             Storage.saveProcessedJob rt now jobId fs = (Return tt, fs')
             /\ In jobId (Storage.loadProcessedJobs fs'))
    /\ (forall now1 now2 jobId fs,
           Storage.loadProcessedJobs fs = [] ->
           Storage.writable fs = true ->
           exists fs1,
             Storage.saveProcessedJob rt now1 jobId fs = (Return tt, fs1)
             /\ Storage.saveProcessedJob rt now2 jobId fs1 = (Return tt, fs1)
             /\ Storage.loadProcessedJobs fs1 = [jobId]
             /\ List.length (Storage.loadProcessedJobs fs1) = 1%nat)
    /\ (forall now jobId fs,
           In jobId (Storage.loadProcessedJobs fs) ->
           Storage.dirExists fs = true ->
           Storage.saveProcessedJob rt now jobId fs = (Return tt, fs)).
Proof.
  intros rt. split; [|split; [|split]].
  - intros now jobId fs fs'. apply saveProcessedJob_returned.
  - intros now jobId fs W.
    destruct (saveProcessedJob_writable rt now jobId fs W)
      as (fs' & E & I & _).
    exists fs'. split; assumption.
  - intros now1 now2 jobId fs L W.
    exists (written rt now1 jobId fs).
    assert (L1 : Storage.loadProcessedJobs (written rt now1 jobId fs)
                 = [jobId]) by (rewrite load_written, L; reflexivity).
    split; [|split; [|split]].
    + rewrite saveProcessedJob_cases, W, andb_false_r, L. reflexivity.
    + rewrite saveProcessedJob_cases, L1.
      cbn [written Storage.dirExists Storage.writable negb andb].
      unfold Storage.includes. cbn [existsb]. rewrite String.eqb_refl.
      reflexivity.
    + exact L1.
    + rewrite L1. reflexivity.
  - intros now jobId fs I D. rewrite saveProcessedJob_cases, D.
    apply includes_In in I. rewrite I. reflexivity.
Qed.

Lemma C8_witness :
  Storage.writable Storage.emptyFS = true
  /\ exists fs',
      Storage.saveProcessedJob Ref.engine 1700000000000 "job1" Storage.emptyFS
      = (Return tt, fs')
      /\ In "job1" (Storage.loadProcessedJobs fs').
Proof.
  split; [reflexivity|].
  apply (proj1 (proj2 (C8_dedup_store_round_trip Ref.engine))
               1700000000000%Z "job1" Storage.emptyFS).
  reflexivity.
Defined.

(** The tests of the repository: [job1] saved twice into an empty store is
    stored once; [job1] then [job2] are both stored, in that order. *)
Example saveProcessedJob_twice :
  let first :=
    Storage.saveProcessedJob Ref.engine 1700000000000 "job1" Storage.emptyFS
  in
  let second :=
    Storage.saveProcessedJob Ref.engine 1700000000001 "job1" (snd first) in
  fst first = Return tt
  /\ fst second = Return tt
  /\ Storage.loadProcessedJobs (snd second) = ["job1"].
Proof. vm_compute. repeat split. Qed.

Example saveProcessedJob_appends :
  let first :=
    Storage.saveProcessedJob Ref.engine 1700000000000 "job1" Storage.emptyFS
  in
  let second :=
    Storage.saveProcessedJob Ref.engine 1700000000001 "job2" (snd first) in
  Storage.loadProcessedJobs (snd second) = ["job1"; "job2"].
Proof. vm_compute. reflexivity. Qed.

(** ** index.ts *)

Lemma attempts_app (l1 l2 : list Index.LogLine) :
  attempts (l1 ++ l2) = (attempts l1 ++ attempts l2)%list.
Proof.
  induction l1 as [|line l1 IH]; [reflexivity|].
  destruct line; cbn; rewrite IH; reflexivity.
Qed.

Section ScoreLoop.
Variable rt : Runtime.
Variable config : completion Agent.AIProvider.
Variable request : nat -> string -> string -> completion (option string).
Variable clock : nat -> Z.

(** One round of the loop on a disk that accepts writes: it returns, the
    id of the job is stored, nothing stored before is lost, and the
    console has one more [Analyzing] line. *)
Lemma scoreJob_writable (i n : nat) (job : Job.t) (w : Index.World) :
  Storage.writable (Index.fs w) = true ->
  exists w',
    Index.scoreJob rt config request clock i n job w = (Return tt, w')
    /\ In (Job.id job) (Storage.loadProcessedJobs (Index.fs w'))
    /\ Storage.writable (Index.fs w') = true
    /\ (forall x, In x (Storage.loadProcessedJobs (Index.fs w)) ->
                  In x (Storage.loadProcessedJobs (Index.fs w')))
    /\ attempts (Index.console w')
       = (attempts (Index.console w) ++ [Job.title job])%list.
Proof.
  intros W.
  destruct (saveProcessedJob_writable rt (clock i) (Job.id job)
                                      (Index.fs w) W)
    as (fs' & E & I & W' & Mono).
  unfold Index.scoreJob, mtry, mbind, Index.log, pure, Index.push,
    Index.onStore.
  cbn [Index.fs Index.console Index.analyzedJobs].
  destruct (Agent.analyzeJob rt config (request i) job Config.userBackground)
    as [analyzed|error];
    cbn [Index.fs Index.console Index.analyzedJobs]; rewrite E;
    eexists; (split; [reflexivity|]);
    cbn [Index.fs Index.console]; repeat split; try assumption.
  - rewrite attempts_app. reflexivity.
  - rewrite !attempts_app. cbn. rewrite app_nil_r. reflexivity.
Qed.

Lemma scoreLoop_writable (newJobs : list Job.t) :
  forall (i n : nat) (w : Index.World),
    Storage.writable (Index.fs w) = true ->
    exists w',
      Index.scoreLoop rt config request clock i n newJobs w
      = (Return tt, w')
      /\ (forall job, In job newJobs ->
                      In (Job.id job)
                         (Storage.loadProcessedJobs (Index.fs w')))
      /\ Storage.writable (Index.fs w') = true
      /\ (forall x, In x (Storage.loadProcessedJobs (Index.fs w)) ->
                    In x (Storage.loadProcessedJobs (Index.fs w')))
      /\ attempts (Index.console w')
         = (attempts (Index.console w) ++ map Job.title newJobs)%list.
Proof.
  induction newJobs as [|job rest IH]; intros i n w W.
  - exists w. cbn. rewrite app_nil_r. repeat split; auto. contradiction.
  - destruct (scoreJob_writable i n job w W)
      as (w1 & E1 & I1 & W1 & M1 & A1).
    destruct (IH (S i) n w1 W1) as (w2 & E2 & I2 & W2 & M2 & A2).
    exists w2. cbn [Index.scoreLoop]. unfold mbind at 1. rewrite E1, E2.
    split; [reflexivity|]. split; [|split; [|split]].
    + intros j [<-|Hj]; [apply M2, I1 | apply I2, Hj].
    + exact W2.
    + intros x Hx. apply M2, M1, Hx.
    + rewrite A2, A1, <- app_assoc. reflexivity.
Qed.

(** [mergeResults] returns the jobs of the fulfilled sources and leaves
    the storage file and [analyzedJobs] alone. *)
Lemma mergeResults_fulfilled
      (results : list (string * completion (list Job.t))) :
  forall w, exists w',
    Index.mergeResults results w = (Return (fulfilled results), w')
    /\ Index.fs w' = Index.fs w.
Proof.
  induction results as [|[name [value|e]] rest IH]; intros w.
  - exists w. split; reflexivity.
  - cbn [Index.mergeResults]. unfold mbind at 1. unfold Index.log at 1.
    match goal with
    | |- context [mbind (Index.mergeResults rest) ?k ?w1] =>
        destruct (IH w1) as (w' & E & F); exists w';
        unfold mbind; rewrite E
    end.
    split; [reflexivity | exact F].
  - cbn [Index.mergeResults]. unfold mbind at 1. unfold Index.log at 1.
    match goal with
    | |- context [Index.mergeResults rest ?w1] =>
        destruct (IH w1) as (w' & E & F); exists w'; rewrite E
    end.
    split; [reflexivity | exact F].
Qed.

Lemma deliver_returns (jobs : list AnalyzedJob.t) :
  forall w, exists w',
    Index.deliver jobs w = (Return tt, w') /\ Index.fs w' = Index.fs w.
Proof.
  induction jobs as [|job rest IH]; intros w.
  - exists w. split; reflexivity.
  - cbn [Index.deliver]. unfold mbind, Index.log.
    match goal with
    | |- context [Index.deliver rest ?w1] =>
        destruct (IH w1) as (w' & E & F); exists w'; rewrite E
    end.
    split; [reflexivity | exact F].
Qed.

(** The whole run on a store that accepts writes: whichever sources
    failed and whatever the provider answered, [processJobs] returns, and
    every recent job is in the store afterwards, be it from an earlier run
    or from this one. *)
Lemma processJobs_writable
      (results : list (string * completion (list Job.t))) (now : Z)
      (w : Index.World) :
  Storage.writable (Index.fs w) = true ->
  exists w',
    Index.processJobs rt config request clock results now w
    = (Return tt, w')
    /\ forall job,
         In job (Scraper.filterByTime now (fulfilled results)
                                      Config.hoursThreshold) ->
         In (Job.id job) (Storage.loadProcessedJobs (Index.fs w')).
Proof.
  intros W. unfold Index.processJobs.
  destruct (mergeResults_fulfilled results w) as (w0 & E0 & F0).
  unfold mtry. unfold mbind at 1. rewrite E0. unfold mbind at 1.
  set (recentJobs := Scraper.filterByTime now (fulfilled results)
                                          Config.hoursThreshold).
  remember (filter (fun job =>
                      negb (Storage.isJobProcessed (Job.id job)
                                                   (Index.fs w0)))
                   recentJobs) as newJobs eqn:N.
  assert (W0 : Storage.writable (Index.fs w0) = true) by (rewrite F0; exact W).
  assert (Old : forall job, In job recentJobs -> ~ In job newJobs ->
                            In (Job.id job)
                               (Storage.loadProcessedJobs (Index.fs w0))).
  { intros job Hj Hn. apply includes_In.
    destruct (Storage.includes (Storage.loadProcessedJobs (Index.fs w0))
                               (Job.id job)) eqn:I; [reflexivity|].
    elim Hn. rewrite N. apply filter_In. split; [exact Hj|].
    unfold Storage.isJobProcessed. rewrite I. reflexivity. }
  destruct (scoreLoop_writable newJobs 0 (List.length newJobs)
              {| Index.fs := Index.fs w0;
                 Index.console := Index.console w0;
                 Index.analyzedJobs := [] |} W0)
    as (w1 & E1 & I1 & _ & Mono & _).
  cbn [Index.fs] in Mono.
  assert (All : forall job, In job recentJobs ->
                  In (Job.id job)
                     (Storage.loadProcessedJobs (Index.fs w1))).
  { intros job Hj.
    destruct (in_dec Job_eq_dec job newJobs) as [Hn|Hn];
      [apply I1, Hn | apply Mono, Old; assumption]. }
  clear N. destruct newJobs as [|j rest].
  - exists w0. split; [reflexivity|].
    intros job Hj. apply Old; [exact Hj | intros []].
  - unfold mbind at 1. unfold Index.resetAnalyzed.
    unfold mbind at 1. rewrite E1. unfold mbind at 1.
    destruct (filter _ (Index.analyzedJobs w1)) as [|h hs].
    + exists w1. split; [reflexivity | exact All].
    + destruct (deliver_returns (Index.sortByScore (h :: hs)) w1)
        as (w2 & E2 & F2).
      exists w2. rewrite E2. split; [reflexivity|].
      intros job Hj. rewrite F2. apply All, Hj.
Qed.

End ScoreLoop.



(** A run of the loop on three jobs: the provider scores the first, fails
    on the second and answers the third with a score out of range.  The
    three analyses are started, the three ids are stored, and one job is
    analysed. *)
Example scoreLoop_run :
  let r := Index.scoreLoop Ref.engine (Return Agent.deepseek)
                           Sample.answers Sample.ticks
                           0 3 Sample.batch Sample.freshWorld in
  fst r = Return tt
  /\ Storage.loadProcessedJobs (Index.fs (snd r))
     = ["remoteok-1"; "remoteok-2"; "remoteok-3"]
  /\ map AnalyzedJob.id (Index.analyzedJobs (snd r)) = ["remoteok-1"]
  /\ attempts (Index.console (snd r))
     = ["Frontend Engineer"; "Backend Engineer"; "Designer"].
Proof. vm_compute. repeat split. Qed.

(** The end-to-end examples of the design document.  One source returns
    three jobs and the other fails: the run goes on with the three jobs.
    They are scored 8, 5 and 9 against the threshold 8: the three are
    marked processed, the job scored 5 is not delivered, and the job scored
    9 is delivered before the job scored 8. *)
Example processJobs_run :
  let r := Index.processJobs Ref.engine (Return Agent.deepseek)
                             Sample.scores Sample.ticks
                             Sample.settled 1700000003600
                             Sample.freshWorld in
  fst r = Return tt
  /\ fulfilled Sample.settled = Sample.batch
  /\ Storage.loadProcessedJobs (Index.fs (snd r))
     = ["remoteok-1"; "remoteok-2"; "remoteok-3"]
  /\ map AnalyzedJob.id (delivered (Index.console (snd r)))
     = ["remoteok-3"; "remoteok-1"]
  /\ map AnalyzedJob.score (delivered (Index.console (snd r)))
     = [Fin 9; Fin 8].
Proof. vm_compute. repeat split. Qed.

(** * Further properties of the code *)

(** ** scraper.ts: filterByTime, once more *)

Lemma filter_narrow {A : Type} (p q : A -> bool) (l : list A) :
  (forall x, p x = true -> q x = true) ->
  filter p (filter q l) = filter p l.
Proof.
  intros H. induction l as [|x l IH]; cbn; [reflexivity|].
  destruct (q x) eqn:Q; cbn.
  - rewrite IH. reflexivity.
  - destruct (p x) eqn:P; [|exact IH].
    apply H in P. congruence.
Qed.

(** X1.  Filtering twice with the same clock reading and the same
    threshold gives what filtering once gives, for every threshold, finite
    or not. *)
Theorem X1_filterByTime_idempotent :
  forall (now : Z) (jobs : list Job.t) (h : number),
    Scraper.filterByTime now (Scraper.filterByTime now jobs h) h
    = Scraper.filterByTime now jobs h.
Proof.
  intros now jobs h. rewrite !filterByTime_filter.
  apply filter_narrow. auto.
Qed.

Lemma withinWindow_wider (now : Z) (h1 h2 : Q) (job : Job.t) :
  (h1 <= h2)%Q -> withinWindow now h1 job -> withinWindow now h2 job.
Proof.
  intros L (t & E & H0 & H1). exists t. split; [exact E|].
  split; [exact H0|].
  apply (Qle_trans _ _ _ H1).
  apply Qmult_le_compat_r; [exact L|].
  unfold Qle. cbn. lia.
Qed.

(** X2.  A narrower window selects from a wider one: for finite
    thresholds [h1 <= h2], filtering with [h2] and then with [h1] gives
    what filtering with [h1] alone gives. *)
Theorem X2_filterByTime_narrower_window :
  forall (now : Z) (jobs : list Job.t) (h1 h2 : Q),
    (h1 <= h2)%Q ->
    Scraper.filterByTime now (Scraper.filterByTime now jobs (Fin h2)) (Fin h1)
    = Scraper.filterByTime now jobs (Fin h1).
Proof.
  intros now jobs h1 h2 L. rewrite !filterByTime_filter.
  apply filter_narrow. intros job K.
  apply keeps_window. apply keeps_window in K.
  apply (withinWindow_wider now h1 h2 job L K).
Qed.

Lemma X2_witness :
  (6 <= 24)%Q
  /\ Scraper.filterByTime 1700000000000
       (Scraper.filterByTime 1700000000000
          [Sample.job "1" "Recent Job" (1700000000000 - 2 * 3600000);
           Sample.job "2" "Older Job" (1700000000000 - 12 * 3600000)]
          (Fin 24))
       (Fin 6)
     = Scraper.filterByTime 1700000000000
         [Sample.job "1" "Recent Job" (1700000000000 - 2 * 3600000);
          Sample.job "2" "Older Job" (1700000000000 - 12 * 3600000)]
         (Fin 6).
Proof.
  split; [unfold Qle; cbn; lia|].
  apply (X2_filterByTime_narrower_window 1700000000000%Z).
  unfold Qle; cbn; lia.
Defined.

(** X3.  A job whose [postedAt] is the Invalid Date is never kept, whatever
    the clock and the threshold; in particular a WeWorkRemotely item whose
    [pubDate] does not parse is normalised and then dropped by the time
    filter. *)
Theorem X3_invalid_date_is_filtered_out :
  forall (rt : Runtime) (now : Z) (jobs : list Job.t) (h : number),
    (forall job, Job.postedAt job = None ->
                 ~ In job (Scraper.filterByTime now jobs h))
    /\ (forall clock item,
           Date_parse rt (WWRItem.pubDate item) = None ->
           ~ In (Scraper.normalizeJob rt clock (Scraper.FromWWR item))
                (Scraper.filterByTime now jobs h)).
Proof.
  intros rt now jobs h.
  assert (G : forall job, Job.postedAt job = None ->
                          ~ In job (Scraper.filterByTime now jobs h)).
  { intros job E H. rewrite filterByTime_filter in H.
    apply filter_In in H. destruct H as [_ H].
    rewrite (keeps_invalid now h job E) in H. discriminate. }
  split; [exact G|].
  intros clock item E. apply G.
  cbn [Scraper.normalizeJob Job.postedAt]. rewrite parseDate_is_parse.
  exact E.
Qed.

Lemma X3_witness :
  Date_parse Ref.engine (WWRItem.pubDate Sample.undated) = None
  /\ ~ In (Scraper.normalizeJob Ref.engine 1700000000000
             (Scraper.FromWWR Sample.undated))
          (Scraper.filterByTime 1700000000000
             [Scraper.normalizeJob Ref.engine 1700000000000
                (Scraper.FromWWR Sample.undated)]
             Config.hoursThreshold).
Proof.
  split; [reflexivity|].
  apply (proj2 (X3_invalid_date_is_filtered_out
                  Ref.engine 1700000000000%Z
                  [Scraper.normalizeJob Ref.engine 1700000000000
                     (Scraper.FromWWR Sample.undated)]
                  Config.hoursThreshold)
               1700000000000%Z Sample.undated).
  reflexivity.
Defined.

(** ** scraper.ts: normalizeJob, once more *)

Lemma orElse_nonEmpty (s fallback : string) :
  fallback <> EmptyString -> Scraper.orElse s fallback <> EmptyString.
Proof.
  intros F. unfold Scraper.orElse. destruct s; cbn; [exact F | discriminate].
Qed.

Lemma orDefault_nonEmpty (o : option string) (fallback : string) :
  fallback <> EmptyString -> Scraper.orDefault o fallback <> EmptyString.
Proof.
  intros F. destruct o as [s|]; cbn; [apply orElse_nonEmpty|]; exact F.
Qed.


(** ** scraper.ts: hashString *)

Lemma ToInt32_range (z : Z) :
  (- 2147483648 <= Scraper.ToInt32 z < 2147483648)%Z.
Proof.
  unfold Scraper.ToInt32.
  pose proof (Z.mod_pos_bound z 4294967296 eq_refl) as B.
  destruct (2147483648 <=? z mod 4294967296)%Z eqn:E;
    [apply Z.leb_le in E | apply Z.leb_gt in E]; lia.
Qed.

Lemma ToInt32_mod (z : Z) :
  (Scraper.ToInt32 z mod 4294967296 = z mod 4294967296)%Z.
Proof.
  unfold Scraper.ToInt32.
  destruct (2147483648 <=? z mod 4294967296)%Z.
  - replace (z mod 4294967296 - 4294967296)%Z
      with (z mod 4294967296 + (-1) * 4294967296)%Z by lia.
    rewrite Z.mod_add by lia. apply Z.mod_mod. lia.
  - apply Z.mod_mod. lia.
Qed.

Lemma ToInt32_congruent (a b : Z) :
  (a mod 4294967296 = b mod 4294967296)%Z ->
  Scraper.ToInt32 a = Scraper.ToInt32 b.
Proof. intros H. unfold Scraper.ToInt32. rewrite H. reflexivity. Qed.

Lemma ToInt32_small (z : Z) :
  (- 2147483648 <= z < 2147483648)%Z -> Scraper.ToInt32 z = z.
Proof.
  intros R. unfold Scraper.ToInt32.
  destruct (Z.neg_nonneg_cases z) as [N|N].
  - replace (z mod 4294967296)%Z with (z + 4294967296)%Z.
    + destruct (2147483648 <=? z + 4294967296)%Z eqn:E;
        [apply Z.leb_le in E | apply Z.leb_gt in E]; lia.
    + symmetry. replace (z + 4294967296)%Z with (z + 1 * 4294967296)%Z by lia.
      rewrite <- (Z.mod_add z 1 4294967296) by lia.
      apply Z.mod_small. lia.
  - rewrite Z.mod_small by lia.
    destruct (2147483648 <=? z)%Z eqn:E;
      [apply Z.leb_le in E | apply Z.leb_gt in E]; lia.
Qed.

Lemma ToInt32_shift (z : Z) :
  exists k, Scraper.ToInt32 z = (z + k * 4294967296)%Z.
Proof.
  unfold Scraper.ToInt32. rewrite Z.mod_eq by lia.
  destruct (2147483648 <=? z - 4294967296 * (z / 4294967296))%Z.
  - exists (- (z / 4294967296) - 1)%Z. lia.
  - exists (- (z / 4294967296))%Z. lia.
Qed.

(** One round of the loop multiplies by 31, adds the code unit and wraps
    to 32 bits. *)
Lemma hashStep_wraps (hash : Z) (c : ascii) :
  Scraper.hashStep hash c = Scraper.ToInt32 (31 * hash + Str.code c).
Proof.
  unfold Scraper.hashStep. rewrite Z.land_diag.
  apply ToInt32_congruent.
  rewrite Z.shiftl_mul_pow2 by lia.
  change (2 ^ 5)%Z with 32%Z.
  destruct (ToInt32_shift hash) as (k1 & ->).
  destruct (ToInt32_shift ((hash + k1 * 4294967296) * 32)) as (k2 & ->).
  replace ((hash + k1 * 4294967296) * 32 + k2 * 4294967296 - hash
           + Str.code c)%Z
    with (31 * hash + Str.code c + (32 * k1 + k2) * 4294967296)%Z by lia.
  apply Z.mod_add. lia.
Qed.

Lemma horner31_shift (str : string) :
  forall a k,
    Scraper.ToInt32 (horner31 (a + k * 4294967296) str)
    = Scraper.ToInt32 (horner31 a str).
Proof.
  induction str as [|c rest IH]; intros a k; cbn [horner31].
  - apply ToInt32_congruent, Z.mod_add. lia.
  - replace (31 * (a + k * 4294967296) + Str.code c)%Z
      with (31 * a + Str.code c + (31 * k) * 4294967296)%Z by lia.
    apply IH.
Qed.

Lemma hashLoop_wraps (str : string) :
  forall hash,
    Scraper.ToInt32 (Scraper.hashLoop hash str)
    = Scraper.ToInt32 (horner31 hash str).
Proof.
  induction str as [|c rest IH]; intros hash;
    cbn [horner31 Scraper.hashLoop]; [reflexivity|].
  rewrite IH, hashStep_wraps.
  destruct (ToInt32_shift (31 * hash + Str.code c)) as (k & ->).
  apply horner31_shift.
Qed.

Lemma hashLoop_range (str : string) :
  forall hash,
    (- 2147483648 <= hash < 2147483648)%Z ->
    (- 2147483648 <= Scraper.hashLoop hash str < 2147483648)%Z.
Proof.
  induction str as [|c rest IH]; intros hash R;
    cbn [Scraper.hashLoop]; [exact R|].
  apply IH. rewrite hashStep_wraps. apply ToInt32_range.
Qed.

(** X5.  The number behind [hashString] is the polynomial with multiplier
    31 over the code units of the string, wrapped to a signed 32-bit
    integer: it always lies between -2^31 and 2^31 - 1, and two strings
    whose polynomials agree modulo 2^32 get the same hash. *)
Theorem X5_hashString_is_wrapped_polynomial :
  forall (str : string),
    Scraper.hashLoop 0 str = Scraper.ToInt32 (horner31 0 str)
    /\ (- 2147483648 <= Scraper.hashLoop 0 str < 2147483648)%Z
    /\ (forall other,
           (horner31 0 str mod 4294967296
            = horner31 0 other mod 4294967296)%Z ->
           Scraper.hashString str = Scraper.hashString other).
Proof.
  intros str.
  assert (R : forall s, (- 2147483648 <= Scraper.hashLoop 0 s < 2147483648)%Z)
    by (intros s; apply hashLoop_range; lia).
  assert (E : forall s, Scraper.hashLoop 0 s
                        = Scraper.ToInt32 (horner31 0 s)).
  { intros s. rewrite <- hashLoop_wraps. symmetry.
    apply ToInt32_small, R. }
  split; [apply E|]. split; [apply R|].
  intros other H. unfold Scraper.hashString.
  rewrite (E str), (E other). rewrite (ToInt32_congruent _ _ H). reflexivity.
Qed.

Lemma X5_witness :
  (horner31 0 "Aa" mod 4294967296 = horner31 0 "BB" mod 4294967296)%Z
  /\ Scraper.hashString "Aa" = Scraper.hashString "BB".
Proof.
  split; [reflexivity|].
  apply (proj2 (proj2 (X5_hashString_is_wrapped_polynomial "Aa")) "BB").
  reflexivity.
Defined.

Lemma code_ascii_of_nat (n : nat) :
  (n < 256)%nat -> Str.code (ascii_of_nat n) = Z.of_nat n.
Proof.
  intros H. unfold Str.code. rewrite nat_ascii_embedding by exact H.
  reflexivity.
Qed.

Lemma digit36_code (d : Z) :
  (0 <= d < 36)%Z ->
  Str.code (Scraper.digit36 d)
  = if (d <? 10)%Z then (48 + d)%Z else (87 + d)%Z.
Proof.
  intros R. unfold Scraper.digit36.
  destruct (d <? 10)%Z eqn:E;
    [apply Z.ltb_lt in E | apply Z.ltb_ge in E];
    rewrite code_ascii_of_nat by lia; lia.
Qed.

Lemma digit36_value (d : Z) :
  (0 <= d < 36)%Z -> digitValue36 (Scraper.digit36 d) = d.
Proof.
  intros R. unfold digitValue36. rewrite digit36_code by exact R.
  destruct (d <? 10)%Z eqn:E;
    [apply Z.ltb_lt in E | apply Z.ltb_ge in E].
  - destruct (48 + d <=? 57)%Z eqn:F;
      [lia | apply Z.leb_gt in F; lia].
  - destruct (87 + d <=? 57)%Z eqn:F;
      [apply Z.leb_le in F; lia | lia].
Qed.

Lemma digit36_isDigit (d : Z) :
  (0 <= d < 36)%Z -> isRadix36Digit (Scraper.digit36 d) = true.
Proof.
  intros R. unfold isRadix36Digit. rewrite digit36_code by exact R.
  destruct (d <? 10)%Z eqn:E;
    [apply Z.ltb_lt in E | apply Z.ltb_ge in E];
    apply orb_true_iff; [left | right];
    apply andb_true_iff; split; apply Z.leb_le; lia.
Qed.

(** Reading back what [toRadix36] wrote in front of [acc]. *)
Lemma toRadix36_value (fuel : nat) :
  forall n acc,
    (0 <= n < 2 ^ Z.of_nat fuel)%Z ->
    fromRadix36 0 (Scraper.toRadix36 fuel n acc) = fromRadix36 n acc.
Proof.
  induction fuel as [|fuel IH]; intros n acc R.
  - cbn [Scraper.toRadix36]. change (2 ^ Z.of_nat 0)%Z with 1%Z in R.
    replace n with 0%Z by lia. reflexivity.
  - cbn [Scraper.toRadix36].
    pose proof (Z.mod_pos_bound n 36 eq_refl) as M.
    pose proof (Z.div_mod n 36 ltac:(lia)) as D.
    destruct (n / 36 =? 0)%Z eqn:E.
    + apply Z.eqb_eq in E. cbn [fromRadix36].
      rewrite digit36_value by exact M. f_equal. lia.
    + apply Z.eqb_neq in E. rewrite IH.
      * cbn [fromRadix36]. rewrite digit36_value by exact M. f_equal. lia.
      * rewrite Nat2Z.inj_succ, Z.pow_succ_r in R by lia.
        assert (0 <= n / 36)%Z by (apply Z.div_pos; lia).
        split; [assumption|].
        apply Z.div_lt_upper_bound; lia.
Qed.

Lemma toRadix36_digits (fuel : nat) :
  forall n acc,
    Str.all isRadix36Digit acc = true ->
    Str.all isRadix36Digit (Scraper.toRadix36 fuel n acc) = true.
Proof.
  induction fuel as [|fuel IH]; intros n acc A; cbn [Scraper.toRadix36];
    [exact A|].
  assert (A' : Str.all isRadix36Digit
                 (String (Scraper.digit36 (n mod 36)) acc) = true).
  { cbn [Str.all]. rewrite digit36_isDigit, A; [reflexivity|].
    apply Z.mod_pos_bound. lia. }
  destruct (n / 36 =? 0)%Z; [exact A' | apply IH, A'].
Qed.

Lemma toRadix36_length (fuel : nat) :
  forall (k : nat) n acc,
    (0 <= n < 36 ^ Z.of_nat (S k))%Z ->
    (String.length (Scraper.toRadix36 (S fuel) n acc)
     <= String.length acc + S k)%nat
    /\ (1 <= String.length (Scraper.toRadix36 (S fuel) n acc))%nat.
Proof.
  induction fuel as [|fuel IH]; intros k n acc R.
  - cbn [Scraper.toRadix36]. destruct (n / 36 =? 0)%Z; cbn; lia.
  - cbn [Scraper.toRadix36]. destruct (n / 36 =? 0)%Z eqn:E.
    + cbn. lia.
    + apply Z.eqb_neq in E.
      assert (0 <= n / 36)%Z by (apply Z.div_pos; lia).
      destruct k as [|k].
      * change (36 ^ Z.of_nat 1)%Z with 36%Z in R.
        rewrite Z.div_small in E by lia. contradiction.
      * destruct (IH k (n / 36)%Z
                     (String (Scraper.digit36 (n mod 36)) acc)) as [L1 L2].
        -- rewrite (Nat2Z.inj_succ (S k)), Z.pow_succ_r in R by lia.
           split; [assumption|]. apply Z.div_lt_upper_bound; lia.
        -- cbn [Scraper.toRadix36] in L1, L2. cbn [String.length] in L1.
           split; [lia | exact L2].
Qed.

(** X6.  [hashString] writes the absolute value of the hash in radix 36:
    the result is not empty, has at most six characters, all of them
    digits or lower-case letters, and reading it back in radix 36 gives the
    absolute value of the hash. *)
Theorem X6_hashString_is_radix36_of_abs :
  forall (str : string),
    fromRadix36 0 (Scraper.hashString str)
    = Z.abs (Scraper.hashLoop 0 str)
    /\ Str.all isRadix36Digit (Scraper.hashString str) = true
    /\ (1 <= String.length (Scraper.hashString str) <= 6)%nat.
Proof.
  intros str. unfold Scraper.hashString, Scraper.toString36.
  assert (R : (- 2147483648 <= Scraper.hashLoop 0 str < 2147483648)%Z)
    by (apply hashLoop_range; lia).
  set (n := Z.abs (Scraper.hashLoop 0 str)).
  assert (N : (0 <= n <= 2147483648)%Z) by (unfold n; lia).
  split; [|split].
  - rewrite toRadix36_value; [reflexivity|].
    split; [lia|].
    rewrite Nat2Z.inj_succ, Z2Nat.id by apply Z.log2_nonneg.
    destruct (Z.eq_dec n 0) as [->|Z0]; [reflexivity|].
    apply Z.log2_spec. lia.
  - apply toRadix36_digits. reflexivity.
  - destruct (toRadix36_length (Z.to_nat (Z.log2 n)) 5 n EmptyString)
      as [L1 L2].
    + change (36 ^ Z.of_nat 6)%Z with 2176782336%Z. lia.
    + cbn [String.length] in L1. lia.
Qed.

(** ** scraper.ts: the regular expressions of normalizeJob *)

Lemma includes_here (s sub : string) :
  prefix sub s = true -> Str.includes s sub = true.
Proof. intros H. destruct s; cbn [Str.includes]; rewrite H; reflexivity. Qed.

Lemma includes_later (c : ascii) (s sub : string) :
  Str.includes s sub = true -> Str.includes (String c s) sub = true.
Proof. intros H. cbn [Str.includes]. rewrite H. apply orb_true_r. Qed.

Lemma includes_append_l (a s sub : string) :
  Str.includes s sub = true -> Str.includes (a ++ s) sub = true.
Proof.
  intros H. induction a as [|c a IH]; [exact H|].
  apply includes_later, IH.
Qed.

Lemma includes_append (a sub b : string) :
  Str.includes (a ++ sub ++ b) sub = true.
Proof. apply includes_append_l, includes_here, prefix_append. Qed.

Lemma prefix_cons (c : ascii) (p s : string) :
  prefix (String c p) (String c s) = prefix p s.
Proof.
  cbn. destruct (ascii_dec c c) as [_|N]; [reflexivity | elim N; reflexivity].
Qed.

Lemma takeDigits_all (s : string) :
  Str.all Str.isDigit (Scraper.takeDigits s) = true.
Proof.
  induction s as [|c r IH]; cbn; [reflexivity|].
  destruct (Str.isDigit c) eqn:D; cbn; [|reflexivity].
  rewrite D, IH. reflexivity.
Qed.

Lemma takeDigits_prefix (s : string) :
  prefix (Scraper.takeDigits s) s = true.
Proof.
  induction s as [|c r IH]; cbn [Scraper.takeDigits]; [reflexivity|].
  destruct (Str.isDigit c).
  - rewrite prefix_cons. exact IH.
  - reflexivity.
Qed.

Lemma matchSlashDigits_some (link digits : string) :
  Scraper.matchSlashDigits link = Some digits ->
  digits <> EmptyString
  /\ Str.all Str.isDigit digits = true
  /\ Str.includes link ("/" ++ digits) = true.
Proof.
  induction link as [|c r IH]; cbn [Scraper.matchSlashDigits];
    [discriminate|].
  destruct (Ascii.eqb c "/") eqn:E.
  - apply Ascii.eqb_eq in E. subst c.
    destruct (Scraper.takeDigits r) as [|d ds] eqn:T.
    + intros H. destruct (IH H) as (H1 & H2 & H3).
      repeat split; try assumption. apply includes_later, H3.
    + intros H. inversion H; subst digits. split; [discriminate|].
      split; [rewrite <- T; apply takeDigits_all|].
      apply includes_here. cbn [append]. rewrite prefix_cons, <- T.
      apply takeDigits_prefix.
  - intros H. destruct (IH H) as (H1 & H2 & H3).
    repeat split; try assumption. apply includes_later, H3.
Qed.

Lemma matchSlashDigits_none (link : string) (d : ascii) :
  Scraper.matchSlashDigits link = None ->
  Str.isDigit d = true ->
  Str.includes link (String "/" (String d EmptyString)) = false.
Proof.
  intros H D. induction link as [|c r IH]; [reflexivity|].
  cbn [Scraper.matchSlashDigits] in H. cbn [Str.includes].
  apply orb_false_iff.
  destruct (Ascii.eqb c "/") eqn:E.
  - apply Ascii.eqb_eq in E. subst c.
    destruct (Scraper.takeDigits r) as [|x xs] eqn:T; [|discriminate].
    split; [|apply IH, H].
    rewrite prefix_cons. destruct r as [|c' r']; [reflexivity|].
    cbn [Scraper.takeDigits] in T. cbn [prefix].
    destruct (ascii_dec d c') as [<-|N]; [|reflexivity].
    rewrite D in T. discriminate.
  - split; [|apply IH, H].
    cbn [prefix]. destruct (ascii_dec "/" c) as [<-|N]; [|reflexivity].
    discriminate.
Qed.

(** X7.  The numeric segment that [normalizeJob] takes from a
    WeWorkRemotely link is a run of digits that stands in the link right
    after a slash, and the [id] is the tag followed by that run; no segment
    is found exactly when no slash of the link is followed by a digit. *)
Theorem X7_wwr_id_is_numeric_segment_of_link :
  forall (rt : Runtime) (now : Z) (item : WWRItem.t),
    (forall digits,
        Scraper.matchSlashDigits (WWRItem.link item) = Some digits ->
        digits <> EmptyString
        /\ Str.all Str.isDigit digits = true
        /\ Str.includes (WWRItem.link item) ("/" ++ digits) = true
        /\ Job.id (Scraper.normalizeJob rt now (Scraper.FromWWR item))
           = "weworkremotely-" ++ digits)
    /\ (Scraper.matchSlashDigits (WWRItem.link item) = None ->
        forall d, Str.isDigit d = true ->
                  Str.includes (WWRItem.link item)
                               (String "/" (String d EmptyString)) = false).
Proof.
  intros rt now item. split.
  - intros digits H. destruct (matchSlashDigits_some _ _ H) as (H1 & H2 & H3).
    repeat split; try assumption.
    cbn [Scraper.normalizeJob Job.id]. rewrite H. reflexivity.
  - intros H d D. apply matchSlashDigits_none; assumption.
Qed.

Lemma X7_witness :
  Scraper.matchSlashDigits
    (WWRItem.link
       (Sample.numbered "https://weworkremotely.com/remote-jobs/456-dev"))
  = Some "456"
  /\ "456" <> EmptyString
  /\ Str.all Str.isDigit "456" = true
  /\ Str.includes
       (WWRItem.link
          (Sample.numbered "https://weworkremotely.com/remote-jobs/456-dev"))
       ("/" ++ "456") = true
  /\ Job.id (Scraper.normalizeJob Ref.engine 1700000000000
               (Scraper.FromWWR
                  (Sample.numbered
                     "https://weworkremotely.com/remote-jobs/456-dev")))
     = "weworkremotely-" ++ "456".
Proof.
  split; [reflexivity|].
  apply (proj1 (X7_wwr_id_is_numeric_segment_of_link
                  Ref.engine 1700000000000%Z
                  (Sample.numbered
                     "https://weworkremotely.com/remote-jobs/456-dev"))).
  reflexivity.
Defined.

Lemma extractCompany_skips (position rest : string) :
  Str.all noAt position = true ->
  Scraper.extractCompanyFromTitle (position ++ rest)
  = Scraper.extractCompanyFromTitle rest.
Proof.
  induction position as [|c p IH]; intros H; [reflexivity|].
  cbn [Str.all] in H. apply andb_true_iff in H as [H1 H2].
  cbn [append Scraper.extractCompanyFromTitle].
  unfold noAt in H1. apply negb_true_iff in H1. rewrite H1.
  apply IH, H2.
Qed.

Lemma extractCompany_without_at (title : string) :
  Str.all noAt title = true ->
  Scraper.extractCompanyFromTitle title = None.
Proof.
  intros H. induction title as [|c t IH]; [reflexivity|].
  cbn [Str.all] in H. apply andb_true_iff in H as [H1 H2].
  cbn [Scraper.extractCompanyFromTitle].
  unfold noAt in H1. apply negb_true_iff in H1. rewrite H1.
  apply IH, H2.
Qed.

Lemma matchCompanyTail_after_space (ws : string) (c : ascii) (r : string) :
  Str.all Str.isWhiteSpace ws = true ->
  Str.isWhiteSpace c = false ->
  Str.all noLineTerminator (String c r) = true ->
  Scraper.matchCompanyTail (ws ++ String c r) = Some (String c r).
Proof.
  intros W C L. induction ws as [|w ws IH].
  - cbn [append Scraper.matchCompanyTail]. rewrite C.
    fold noLineTerminator. rewrite L. reflexivity.
  - cbn [Str.all] in W. apply andb_true_iff in W as [W1 W2].
    cbn [append Scraper.matchCompanyTail]. rewrite W1, (IH W2). reflexivity.
Qed.

(** X8.  A title without [@] gives no company, and the normalised job is
    then of company "Unknown".  A title of the form "position @ company",
    with no [@] in the position, any white space after the [@] and a
    company on one line, gives the company, trimmed. *)
Theorem X8_company_from_wwr_title :
  forall (rt : Runtime) (now : Z),
    (forall item,
        Str.all noAt (WWRItem.title item) = true ->
        Job.company (Scraper.normalizeJob rt now (Scraper.FromWWR item))
        = "Unknown")
    /\ (forall position ws c r,
           Str.all noAt position = true ->
           Str.all Str.isWhiteSpace ws = true ->
           Str.isWhiteSpace c = false ->
           Str.all noLineTerminator (String c r) = true ->
           Scraper.extractCompanyFromTitle
             (position ++ "@" ++ ws ++ String c r)
           = Some (Str.trim (String c r))).
Proof.
  intros rt now. split.
  - intros item H. cbn [Scraper.normalizeJob Job.company].
    rewrite (extractCompany_without_at _ H). reflexivity.
  - intros position ws c r P W C L.
    rewrite (extractCompany_skips position _ P).
    cbn [append Scraper.extractCompanyFromTitle].
    change (Ascii.eqb "@" "@") with true. cbn iota.
    rewrite (matchCompanyTail_after_space ws c r W C L). reflexivity.
Qed.

Lemma X8_witness :
  (Str.all noAt "Senior Developer " = true
   /\ Str.all Str.isWhiteSpace " " = true
   /\ Str.isWhiteSpace "A" = false
   /\ Str.all noLineTerminator "Acme Corp " = true)
  /\ Scraper.extractCompanyFromTitle
       ("Senior Developer " ++ "@" ++ " " ++ "Acme Corp ")
     = Some (Str.trim "Acme Corp ").
Proof.
  split; [repeat split|].
  apply (proj2 (X8_company_from_wwr_title Ref.engine 0%Z)
               "Senior Developer " " " "A"%char "cme Corp ");
    reflexivity.
Defined.

(** ** agent.ts: fences, prompt and failures *)

Lemma removeFence_passes (pat body tail : string) :
  Str.all noBacktick body = true ->
  Str.removeFence (String "`" pat) 0 false (body ++ tail)
  = body ++ Str.removeFence (String "`" pat) 0 false tail.
Proof.
  induction body as [|c b IH]; intros H; [reflexivity|].
  cbn [Str.all] in H. apply andb_true_iff in H as [H1 H2].
  unfold noBacktick in H1. apply negb_true_iff in H1.
  cbn [append Str.removeFence andb prefix].
  destruct (ascii_dec "`" c) as [<-|N]; [discriminate|].
  rewrite (IH H2). reflexivity.
Qed.

Lemma trimEnd_keeps (a b : string) :
  Str.trimEnd b = b -> b <> EmptyString -> Str.trimEnd (a ++ b) = a ++ b.
Proof.
  intros T N. induction a as [|c a IH]; [exact T|].
  cbn [append Str.trimEnd]. rewrite IH.
  destruct (a ++ b) eqn:E; [|reflexivity].
  destruct a; [elim N; exact E | discriminate].
Qed.

Lemma fence_tail_nonempty (body : string) :
  body ++ lineFeed ++ "```" <> EmptyString.
Proof. destruct body; discriminate. Qed.

Lemma trimEnd_fence_tail (body : string) :
  Str.trimEnd (body ++ lineFeed ++ "```") = body ++ lineFeed ++ "```".
Proof. apply trimEnd_keeps; [reflexivity | discriminate]. Qed.

(** X9.  A Markdown code block around a body without backticks, opened by
    the fence with or without the [json] tag and closed by a fence on a line
    of its own, is unwrapped by [stripFences] to the body followed by the
    line feed that stood before the closing fence; nothing of the body is
    lost. *)
Theorem X9_stripFences_unwraps_code_block :
  forall body : string,
    Str.all noBacktick body = true ->
    Agent.stripFences ("```json" ++ lineFeed ++ body ++ lineFeed ++ "```")
    = body ++ lineFeed
    /\ Agent.stripFences ("```" ++ lineFeed ++ body ++ lineFeed ++ "```")
       = body ++ lineFeed.
Proof.
  intros body H. unfold Agent.stripFences, Str.trim, Str.startsWith,
    Str.replaceAllOptNl. split.
  - replace (Str.trimEnd
               (Str.trimStart
                  ("```json" ++ lineFeed ++ body ++ lineFeed ++ "```")))
      with ("```json" ++ lineFeed ++ body ++ lineFeed ++ "```").
    2:{ symmetry.
        apply (trimEnd_keeps ("```json" ++ lineFeed)
                             (body ++ lineFeed ++ "```")
                             (trimEnd_fence_tail body)
                             (fence_tail_nonempty body)). }
    rewrite prefix_append.
    change (Str.removeFence "```json" 0 false
              ("```json" ++ lineFeed ++ body ++ lineFeed ++ "```"))
      with (Str.removeFence "```json" 0 false (body ++ lineFeed ++ "```")).
    rewrite (removeFence_passes _ _ _ H).
    change (Str.removeFence "```json" 0 false (lineFeed ++ "```"))
      with (lineFeed ++ "```").
    rewrite (removeFence_passes _ _ _ H). reflexivity.
  - replace (Str.trimEnd
               (Str.trimStart
                  ("```" ++ lineFeed ++ body ++ lineFeed ++ "```")))
      with ("```" ++ lineFeed ++ body ++ lineFeed ++ "```").
    2:{ symmetry.
        apply (trimEnd_keeps ("```" ++ lineFeed)
                             (body ++ lineFeed ++ "```")
                             (trimEnd_fence_tail body)
                             (fence_tail_nonempty body)). }
    change (prefix "```json"
              ("```" ++ lineFeed ++ body ++ lineFeed ++ "```"))
      with false.
    rewrite prefix_append.
    change (Str.removeFence "```" 0 false
              ("```" ++ lineFeed ++ body ++ lineFeed ++ "```"))
      with (Str.removeFence "```" 0 false (body ++ lineFeed ++ "```")).
    rewrite (removeFence_passes _ _ _ H). reflexivity.
Qed.

Lemma X9_witness :
  Str.all noBacktick (Sample.answer "9" "Great match") = true
  /\ Agent.stripFences
       ("```json" ++ lineFeed ++ Sample.answer "9" "Great match"
                  ++ lineFeed ++ "```")
     = Sample.answer "9" "Great match" ++ lineFeed.
Proof.
  split; [reflexivity|].
  apply (proj1 (X9_stripFences_unwraps_code_block
                  (Sample.answer "9" "Great match") eq_refl)).
Defined.

(** X10.  [analyzeJob] fails loudly.  A failure of the configuration or of
    the provider call reaches the caller as the same error; an absent or
    empty content makes it throw; and when the provider gives a content, the
    outcome is that of [parseAIResponse] on it, whatever the provider. *)
Theorem X10_analyzeJob_outcomes :
  forall (rt : Runtime)
         (request : string -> string -> completion (option string))
         (job : Job.t) (background : UserBackground.t),
    (forall e,
        Agent.analyzeJob rt (Throw e) request job background = Throw e)
    /\ (forall provider e,
           (forall systemPrompt,
               request systemPrompt (Agent.buildPrompt job background)
               = Throw e) ->
           Agent.analyzeJob rt (Return provider) request job background
           = Throw e)
    /\ (forall provider choice,
           (forall systemPrompt,
               request systemPrompt (Agent.buildPrompt job background)
               = Return choice) ->
           choice = None \/ choice = Some EmptyString ->
           throws (Agent.analyzeJob rt (Return provider) request job
                                    background) = true)
    /\ (forall provider content,
           (forall systemPrompt,
               request systemPrompt (Agent.buildPrompt job background)
               = Return (Some content)) ->
           content <> EmptyString ->
           Agent.analyzeJob rt (Return provider) request job background
           = match Agent.parseAIResponse rt content with
             | Return r =>
                 Return (AnalyzedJob.spread job (Agent.score r)
                                            (Agent.reason r))
             | Throw e => Throw e
             end).
Proof.
  intros rt request job background. split; [|split; [|split]].
  - reflexivity.
  - intros provider e H. unfold Agent.analyzeJob, Agent.callClaudeAPI.
    cbn [bind]. destruct provider; rewrite H; reflexivity.
  - intros provider choice H C. unfold Agent.analyzeJob, Agent.callClaudeAPI.
    cbn [bind]. destruct provider; rewrite H; destruct C; subst choice;
      reflexivity.
  - intros provider content H N. unfold Agent.analyzeJob, Agent.callClaudeAPI.
    cbn [bind].
    assert (E : Str.nonEmpty content = true)
      by (destruct content; [elim N; reflexivity | reflexivity]).
    destruct provider; rewrite H; cbn [bind try_catch negb]; rewrite E;
      cbn [bind try_catch negb];
      destruct (Agent.parseAIResponse rt content); reflexivity.
Qed.

Lemma X10_witness :
  ((forall systemPrompt,
       Sample.replying (Sample.answer "9" "Great match") systemPrompt
         (Agent.buildPrompt Sample.frontend Config.userBackground)
       = Return (Some (Sample.answer "9" "Great match")))
   /\ Sample.answer "9" "Great match" <> EmptyString)
  /\ Agent.analyzeJob Ref.engine (Return Agent.deepseek)
       (Sample.replying (Sample.answer "9" "Great match"))
       Sample.frontend Config.userBackground
     = match Agent.parseAIResponse Ref.engine
               (Sample.answer "9" "Great match") with
       | Return r =>
           Return (AnalyzedJob.spread Sample.frontend (Agent.score r)
                                      (Agent.reason r))
       | Throw e => Throw e
       end.
Proof.
  split; [split; [reflexivity|discriminate]|].
  apply (proj2 (proj2 (proj2 (X10_analyzeJob_outcomes
                                Ref.engine
                                (Sample.replying
                                   (Sample.answer "9" "Great match"))
                                Sample.frontend Config.userBackground)))
               Agent.deepseek (Sample.answer "9" "Great match")).
  - reflexivity.
  - discriminate.
Defined.

Lemma substring_whole (s : string) (n : nat) :
  (String.length s <= n)%nat -> substring 0 n s = s.
Proof.
  revert n. induction s as [|c s IH]; intros n H.
  - destruct n; reflexivity.
  - destruct n as [|n]; [cbn in H; lia|].
    cbn [substring]. rewrite IH; [reflexivity | cbn in H; lia].
Qed.

Lemma includes_append2 (a b rest : string) :
  Str.includes (a ++ b ++ rest) (a ++ b) = true.
Proof.
  apply includes_here. induction a as [|x a IH].
  - cbn [append]. apply prefix_append.
  - cbn [append]. rewrite prefix_cons. exact IH.
Qed.

Ltac find_in_prompt :=
  repeat first [ apply includes_here; apply prefix_append
               | apply includes_append_l ].

(** X11.  The prompt of [buildPrompt] carries the title and the company of
    the job, the experience and the location of the candidate, and the
    description: whole when it has at most 2000 characters, else its first
    2000 characters followed by an ellipsis.  What lies beyond, and the
    other fields of the job, do not reach the prompt: two jobs that agree
    on title, company and the first 2000 characters of descriptions that
    are both longer get the same prompt. *)
Theorem X11_buildPrompt_contents :
  forall (job : Job.t) (background : UserBackground.t),
    Str.includes (Agent.buildPrompt job background) (Job.title job) = true
    /\ Str.includes (Agent.buildPrompt job background) (Job.company job)
       = true
    /\ Str.includes (Agent.buildPrompt job background)
                    (UserBackground.experience background) = true
    /\ Str.includes (Agent.buildPrompt job background)
                    (UserBackground.location background) = true
    /\ ((String.length (Job.description job) <= 2000)%nat ->
        Str.includes (Agent.buildPrompt job background)
                     (Job.description job) = true)
    /\ ((2000 < String.length (Job.description job))%nat ->
        Str.includes (Agent.buildPrompt job background)
                     (substring 0 2000 (Job.description job) ++ "...")
        = true)
    /\ (forall other : Job.t,
           Job.title other = Job.title job ->
           Job.company other = Job.company job ->
           (2000 < String.length (Job.description job))%nat ->
           (2000 < String.length (Job.description other))%nat ->
           substring 0 2000 (Job.description other)
           = substring 0 2000 (Job.description job) ->
           Agent.buildPrompt other background
           = Agent.buildPrompt job background).
Proof.
  intros job background. unfold Agent.buildPrompt.
  split; [|split; [|split; [|split; [|split; [|split]]]]].
  - find_in_prompt.
  - find_in_prompt.
  - find_in_prompt.
  - find_in_prompt.
  - intros H. rewrite (substring_whole _ _ H). find_in_prompt.
  - intros H. apply Nat.ltb_lt in H. rewrite H.
    repeat match goal with
           | |- Str.includes (substring 0 2000 ?d ++ "..." ++ ?rest) _ = true =>
               exact (includes_append2 (substring 0 2000 d) "..." rest)
           | |- Str.includes (?a ++ ?s) _ = true =>
               apply (includes_append_l a s)
           end.
  - intros other T C L1 L2 S. apply Nat.ltb_lt in L1, L2.
    rewrite T, C, S, L1, L2. reflexivity.
Qed.

Lemma X11_witness :
  (String.length (Job.description Sample.frontend) <= 2000)%nat
  /\ Str.includes (Agent.buildPrompt Sample.frontend Config.userBackground)
                  (Job.description Sample.frontend) = true.
Proof.
  split; [apply Nat.leb_le; reflexivity|].
  apply (proj1 (proj2 (proj2 (proj2 (proj2
           (X11_buildPrompt_contents Sample.frontend
                                     Config.userBackground)))))).
  apply Nat.leb_le. reflexivity.
Defined.

(** ** storage.ts: order, frame, duplicates, reset *)

Lemma load_withDir (fs : Storage.FS) :
  Storage.loadProcessedJobs (withDir fs) = Storage.loadProcessedJobs fs.
Proof. reflexivity. Qed.

Lemma saveProcessedJob_load (rt : Runtime) (now : Z) (jobId : string)
      (fs : Storage.FS) :
  Storage.loadProcessedJobs (snd (Storage.saveProcessedJob rt now jobId fs))
  = if Storage.includes (Storage.loadProcessedJobs fs) jobId
    then Storage.loadProcessedJobs fs
    else if Storage.writable fs
         then (Storage.loadProcessedJobs fs ++ [jobId])%list
         else Storage.loadProcessedJobs fs.
Proof.
  rewrite saveProcessedJob_cases.
  destruct (negb (Storage.dirExists fs) && negb (Storage.writable fs)) eqn:E.
  - apply andb_true_iff in E as [_ W]. apply negb_true_iff in W. rewrite W.
    destruct (Storage.includes _ _); reflexivity.
  - destruct (Storage.includes _ _).
    + destruct (Storage.dirExists fs); reflexivity.
    + destruct (Storage.writable fs); reflexivity.
Qed.

Lemma saveProcessedJob_keeps_writable (rt : Runtime) (now : Z)
      (jobId : string) (fs : Storage.FS) :
  Storage.writable (snd (Storage.saveProcessedJob rt now jobId fs))
  = Storage.writable fs.
Proof.
  rewrite saveProcessedJob_cases.
  destruct (negb (Storage.dirExists fs) && negb (Storage.writable fs));
    [reflexivity|].
  destruct (Storage.includes _ _).
  - destruct (Storage.dirExists fs); reflexivity.
  - destruct (Storage.writable fs) eqn:W; exact W.
Qed.

Lemma includes_app (l1 l2 : list string) (x : string) :
  Storage.includes (l1 ++ l2) x
  = Storage.includes l1 x || Storage.includes l2 x.
Proof. unfold Storage.includes. apply existsb_app. Qed.

(** X12.  [saveProcessedJob] on a disk that accepts writes appends a new id
    at the end of the list and keeps the ids stored before in their order;
    a stored id leaves the list as it is.  Whatever the disk does, the
    answer of [isJobProcessed] for every other id is unchanged, and on a
    disk that refuses writes the stored list is unchanged. *)
Theorem X12_saveProcessedJob_appends_in_order :
  forall (rt : Runtime) (now : Z) (jobId : string) (fs : Storage.FS),
    (Storage.writable fs = true ->
     Storage.loadProcessedJobs
       (snd (Storage.saveProcessedJob rt now jobId fs))
     = if Storage.isJobProcessed jobId fs
       then Storage.loadProcessedJobs fs
       else (Storage.loadProcessedJobs fs ++ [jobId])%list)
    /\ (forall other,
           other <> jobId ->
           Storage.isJobProcessed
             other (snd (Storage.saveProcessedJob rt now jobId fs))
           = Storage.isJobProcessed other fs)
    /\ (Storage.writable fs = false ->
        Storage.loadProcessedJobs
          (snd (Storage.saveProcessedJob rt now jobId fs))
        = Storage.loadProcessedJobs fs).
Proof.
  intros rt now jobId fs. unfold Storage.isJobProcessed.
  rewrite saveProcessedJob_load. split; [|split].
  - intros W. rewrite W. reflexivity.
  - intros other N.
    destruct (Storage.includes (Storage.loadProcessedJobs fs) jobId);
      [reflexivity|].
    destruct (Storage.writable fs); [|reflexivity].
    rewrite includes_app. unfold Storage.includes at 2. cbn [existsb].
    apply String.eqb_neq in N. rewrite N, !orb_false_r. reflexivity.
  - intros W. rewrite W.
    destruct (Storage.includes _ _); reflexivity.
Qed.

Lemma X12_witness :
  Storage.writable Storage.emptyFS = true
  /\ Storage.loadProcessedJobs
       (snd (Storage.saveProcessedJob Ref.engine 1700000000000 "job1"
                                      Storage.emptyFS))
     = if Storage.isJobProcessed "job1" Storage.emptyFS
       then Storage.loadProcessedJobs Storage.emptyFS
       else (Storage.loadProcessedJobs Storage.emptyFS ++ ["job1"])%list.
Proof.
  split; [reflexivity|].
  apply (proj1 (X12_saveProcessedJob_appends_in_order
                  Ref.engine 1700000000000%Z "job1" Storage.emptyFS)).
  reflexivity.
Defined.

Lemma saveProcessedJob_NoDup (rt : Runtime) (now : Z) (jobId : string)
      (fs : Storage.FS) :
  NoDup (Storage.loadProcessedJobs fs) ->
  NoDup (Storage.loadProcessedJobs
           (snd (Storage.saveProcessedJob rt now jobId fs))).
Proof.
  intros H. rewrite saveProcessedJob_load.
  destruct (Storage.includes (Storage.loadProcessedJobs fs) jobId) eqn:I;
    [exact H|].
  destruct (Storage.writable fs); [|exact H].
  apply NoDup_app; [exact H | constructor; [intros [] | constructor] | ].
  intros x Hx [<-|[]]. apply includes_In in Hx. congruence.
Qed.

Lemma saveProcessedJob_In (rt : Runtime) (now : Z) (jobId : string)
      (fs : Storage.FS) (x : string) :
  Storage.writable fs = true ->
  In x (Storage.loadProcessedJobs
          (snd (Storage.saveProcessedJob rt now jobId fs)))
  <-> x = jobId \/ In x (Storage.loadProcessedJobs fs).
Proof.
  intros W. rewrite saveProcessedJob_load, W.
  destruct (Storage.includes (Storage.loadProcessedJobs fs) jobId) eqn:I.
  - apply includes_In in I. split; [auto|].
    intros [->|H]; assumption.
  - rewrite in_app_iff. cbn [In]. intuition congruence.
Qed.

(** X13.  The store never lists an id twice: a list without duplicates
    stays so through every [saveProcessedJob], hence through any series of
    calls, whatever ids are saved and whatever the disk does.  On a disk
    that accepts writes, the ids stored after a series of calls are those
    saved and those stored before. *)
Theorem X13_store_has_no_duplicates :
  forall (rt : Runtime) (clock : nat -> Z) (ids : list string) (i : nat)
         (fs : Storage.FS),
    NoDup (Storage.loadProcessedJobs fs) ->
    NoDup (Storage.loadProcessedJobs (saveEach rt clock i ids fs))
    /\ (Storage.writable fs = true ->
        forall x,
          In x (Storage.loadProcessedJobs (saveEach rt clock i ids fs))
          <-> In x ids \/ In x (Storage.loadProcessedJobs fs)).
Proof.
  intros rt clock ids. induction ids as [|jobId rest IH]; intros i fs H.
  - split; [exact H|]. intros _ x. cbn. tauto.
  - cbn [saveEach].
    destruct (IH (S i) _ (saveProcessedJob_NoDup rt (clock i) jobId fs H))
      as [N M].
    split; [exact N|]. intros W x.
    rewrite M by (rewrite saveProcessedJob_keeps_writable; exact W).
    rewrite (saveProcessedJob_In rt (clock i) jobId fs x W).
    cbn [In]. intuition congruence.
Qed.

Lemma X13_witness :
  NoDup (Storage.loadProcessedJobs Storage.emptyFS)
  /\ NoDup (Storage.loadProcessedJobs
              (saveEach Ref.engine Sample.ticks 0 ["job1"; "job2"; "job1"]
                        Storage.emptyFS)).
Proof.
  split; [constructor|].
  apply (proj1 (X13_store_has_no_duplicates
                  Ref.engine Sample.ticks ["job1"; "job2"; "job1"] 0%nat
                  Storage.emptyFS (NoDup_nil string))).
Defined.

(** X14.  [clearProcessedJobs] on a disk that accepts writes returns and
    leaves a store in which no id is processed, whatever the file held
    before, unreadable text included; on a disk that refuses writes it
    throws and the stored list is the one found. *)
Theorem X14_clearProcessedJobs_resets :
  forall (rt : Runtime) (now : Z) (fs : Storage.FS),
    (Storage.writable fs = true ->
     fst (Storage.clearProcessedJobs rt now fs) = Return tt
     /\ Storage.loadProcessedJobs
          (snd (Storage.clearProcessedJobs rt now fs)) = []
     /\ forall jobId,
         Storage.isJobProcessed
           jobId (snd (Storage.clearProcessedJobs rt now fs)) = false)
    /\ (Storage.writable fs = false ->
        throws (fst (Storage.clearProcessedJobs rt now fs)) = true
        /\ Storage.loadProcessedJobs
             (snd (Storage.clearProcessedJobs rt now fs))
           = Storage.loadProcessedJobs fs).
Proof.
  intros rt now [d f w]. cbn [Storage.writable]. split; intros ->.
  - destruct d; repeat split.
  - destruct d; repeat split.
Qed.

Lemma X14_witness :
  Storage.writable
    {| Storage.dirExists := true; Storage.file := Some Storage.Garbage;
       Storage.writable := true |} = true
  /\ Storage.loadProcessedJobs
       (snd (Storage.clearProcessedJobs
               Ref.engine 1700000000000
               {| Storage.dirExists := true;
                  Storage.file := Some Storage.Garbage;
                  Storage.writable := true |})) = [].
Proof.
  split; [reflexivity|].
  apply (proj1 (X14_clearProcessedJobs_resets
                  Ref.engine 1700000000000%Z
                  {| Storage.dirExists := true;
                     Storage.file := Some Storage.Garbage;
                     Storage.writable := true |})).
  reflexivity.
Defined.

(** ** index.ts: the order of delivery *)

Lemma insertByScore_Permutation (job : AnalyzedJob.t)
      (sorted : list AnalyzedJob.t) :
  Permutation (job :: sorted) (Index.insertByScore job sorted).
Proof.
  induction sorted as [|other rest IH]; cbn [Index.insertByScore].
  - apply Permutation_refl.
  - destruct (Num.gtb _ _); [|apply Permutation_refl].
    eapply Permutation_trans; [apply perm_swap|].
    apply perm_skip, IH.
Qed.

Lemma sortByScore_Permutation (jobs : list AnalyzedJob.t) :
  Permutation jobs (Index.sortByScore jobs).
Proof.
  induction jobs as [|job rest IH]; [apply Permutation_refl|].
  cbn [Index.sortByScore fold_right].
  eapply Permutation_trans; [apply perm_skip, IH|].
  apply insertByScore_Permutation.
Qed.

Lemma scoreIs_not_greater (q : Q) (a b : AnalyzedJob.t) :
  scoreIs q a = true -> scoreIs q b = true ->
  Num.gtb (AnalyzedJob.score a) (AnalyzedJob.score b) = false.
Proof.
  unfold scoreIs, Num.gtb.
  destruct (AnalyzedJob.score a) as [| | |x]; try discriminate.
  destruct (AnalyzedJob.score b) as [| | |y]; try discriminate.
  intros A B. apply Qeq_bool_iff in A, B. apply ltb_Fin.
  apply Qle_trans with q; apply (proj2 (Qle_lteq _ _)); right;
    [exact A | apply Qeq_sym; exact B].
Qed.

Lemma insertByScore_filter (q : Q) (job : AnalyzedJob.t)
      (sorted : list AnalyzedJob.t) :
  filter (scoreIs q) (Index.insertByScore job sorted)
  = filter (scoreIs q) (job :: sorted).
Proof.
  induction sorted as [|other rest IH]; [reflexivity|].
  cbn [Index.insertByScore].
  destruct (Num.gtb _ _) eqn:G; [|reflexivity].
  cbn [filter] in *. rewrite IH.
  destruct (scoreIs q other) eqn:O, (scoreIs q job) eqn:J; try reflexivity.
  rewrite (scoreIs_not_greater q other job O J) in G. discriminate.
Qed.

Lemma scoreGe_trans (a b c : AnalyzedJob.t) :
  finiteScore a -> finiteScore b -> finiteScore c ->
  scoreGe a b -> scoreGe b c -> scoreGe a c.
Proof.
  unfold scoreGe, Num.geb. intros [x ->] [y ->] [z ->] H1 H2.
  apply leb_Fin in H1, H2. apply leb_Fin. eapply Qle_trans; eassumption.
Qed.

Lemma not_greater_scoreGe (a b : AnalyzedJob.t) :
  finiteScore a -> finiteScore b ->
  Num.gtb (AnalyzedJob.score a) (AnalyzedJob.score b) = false ->
  scoreGe b a.
Proof.
  unfold scoreGe, Num.geb, Num.gtb. intros [x ->] [y ->] H.
  apply ltb_Fin in H. apply leb_Fin. exact H.
Qed.

Lemma greater_scoreGe (a b : AnalyzedJob.t) :
  finiteScore a -> finiteScore b ->
  Num.gtb (AnalyzedJob.score a) (AnalyzedJob.score b) = true ->
  scoreGe a b.
Proof.
  unfold scoreGe, Num.geb, Num.gtb. intros [x ->] [y ->] H.
  apply leb_Fin. cbn in H. apply negb_true_iff in H.
  destruct (Qlt_le_dec x y) as [L|L]; [|exact L].
  apply Qlt_le_weak in L. apply Qle_bool_iff in L. congruence.
Qed.

Lemma insertByScore_sorted (job : AnalyzedJob.t)
      (sorted : list AnalyzedJob.t) :
  finiteScore job -> Forall finiteScore sorted ->
  StronglySorted scoreGe sorted ->
  StronglySorted scoreGe (Index.insertByScore job sorted).
Proof.
  intros J F S. induction S as [|other rest S IH R];
    cbn [Index.insertByScore].
  - constructor; constructor.
  - inversion F as [|? ? Fo Fr]; subst.
    destruct (Num.gtb _ _) eqn:G.
    + constructor; [apply IH, Fr|].
      eapply Permutation_Forall; [apply insertByScore_Permutation|].
      constructor; [apply greater_scoreGe; assumption | exact R].
    + assert (Jo : scoreGe job other)
        by (apply not_greater_scoreGe; assumption).
      constructor; [constructor; assumption|].
      constructor; [exact Jo|].
      rewrite Forall_forall in *. intros x Hx.
      apply (scoreGe_trans job other x); auto.
Qed.

(** X15.  The order in which [processJobs] sorts the jobs to deliver: the
    sorted list holds the same jobs as the list given, the filter for any
    one score finds the same jobs in the same order before and after (the
    sort is stable), and when every score is a finite number each job of
    the sorted list scores at least as much as every job after it. *)
Theorem X15_sortByScore_sorts :
  forall jobs : list AnalyzedJob.t,
    Permutation jobs (Index.sortByScore jobs)
    /\ (forall q, filter (scoreIs q) (Index.sortByScore jobs)
                  = filter (scoreIs q) jobs)
    /\ (Forall finiteScore jobs ->
        StronglySorted scoreGe (Index.sortByScore jobs)).
Proof.
  intros jobs. split; [apply sortByScore_Permutation|]. split.
  - intros q. induction jobs as [|job rest IH]; [reflexivity|].
    cbn [Index.sortByScore fold_right]. rewrite insertByScore_filter.
    cbn [filter]. fold (Index.sortByScore rest). rewrite IH. reflexivity.
  - intros F. induction F as [|job rest J F IH]; [constructor|].
    cbn [Index.sortByScore fold_right]. apply insertByScore_sorted.
    + exact J.
    + eapply Permutation_Forall; [apply sortByScore_Permutation | exact F].
    + exact IH.
Qed.

Lemma X15_witness :
  Forall finiteScore
         [AnalyzedJob.spread Sample.frontend (Fin 8) "Good match";
          AnalyzedJob.spread Sample.frontend (Fin 9) "Great match"]
  /\ StronglySorted scoreGe
       (Index.sortByScore
          [AnalyzedJob.spread Sample.frontend (Fin 8) "Good match";
           AnalyzedJob.spread Sample.frontend (Fin 9) "Great match"]).
Proof.
  assert (F : Forall finiteScore
                [AnalyzedJob.spread Sample.frontend (Fin 8) "Good match";
                 AnalyzedJob.spread Sample.frontend (Fin 9) "Great match"]).
  { repeat constructor; eexists; reflexivity. }
  split; [exact F|].
  apply (proj2 (proj2 (X15_sortByScore_sorts
           [AnalyzedJob.spread Sample.frontend (Fin 8) "Good match";
            AnalyzedJob.spread Sample.frontend (Fin 9) "Great match"]))).
  exact F.
Defined.

(** ** index.ts: what a run delivers, and what it leaves for the next *)

Lemma delivered_app (l1 l2 : list Index.LogLine) :
  delivered (l1 ++ l2) = (delivered l1 ++ delivered l2)%list.
Proof.
  induction l1 as [|line l1 IH]; [reflexivity|].
  destruct line; cbn; rewrite IH; reflexivity.
Qed.

(** [mergeResults] starts no analysis and delivers nothing. *)
Lemma mergeResults_quiet
      (results : list (string * completion (list Job.t))) :
  forall w, exists w',
    Index.mergeResults results w = (Return (fulfilled results), w')
    /\ Index.fs w' = Index.fs w
    /\ Index.analyzedJobs w' = Index.analyzedJobs w
    /\ attempts (Index.console w') = attempts (Index.console w)
    /\ delivered (Index.console w') = delivered (Index.console w).
Proof.
  induction results as [|[name [value|e]] rest IH]; intros w.
  - exists w. repeat split.
  - cbn [Index.mergeResults]. unfold mbind at 1. unfold Index.log at 1.
    match goal with
    | |- context [mbind (Index.mergeResults rest) ?k ?w1] =>
        destruct (IH w1) as (w' & E & F & J & A & D); exists w';
        unfold mbind; rewrite E
    end.
    cbn [Index.fs Index.console Index.analyzedJobs] in *.
    rewrite attempts_app in A. rewrite delivered_app in D.
    cbn in A, D. rewrite app_nil_r in A, D.
    repeat split; assumption.
  - cbn [Index.mergeResults]. unfold mbind at 1. unfold Index.log at 1.
    match goal with
    | |- context [Index.mergeResults rest ?w1] =>
        destruct (IH w1) as (w' & E & F & J & A & D); exists w'; rewrite E
    end.
    cbn [Index.fs Index.console Index.analyzedJobs] in *.
    rewrite attempts_app in A. rewrite delivered_app in D.
    cbn in A, D. rewrite app_nil_r in A, D.
    repeat split; assumption.
Qed.

Lemma deliver_effect (jobs : list AnalyzedJob.t) :
  forall w, exists w',
    Index.deliver jobs w = (Return tt, w')
    /\ Index.fs w' = Index.fs w
    /\ delivered (Index.console w')
       = (delivered (Index.console w) ++ jobs)%list.
Proof.
  induction jobs as [|job rest IH]; intros w.
  - exists w. rewrite app_nil_r. repeat split.
  - cbn [Index.deliver]. unfold mbind, Index.log.
    match goal with
    | |- context [Index.deliver rest ?w1] =>
        destruct (IH w1) as (w' & E & F & D); exists w'; rewrite E
    end.
    cbn [Index.fs Index.console] in *.
    rewrite !delivered_app in D. cbn in D. rewrite app_nil_r in D.
    rewrite D, <- app_assoc. repeat split. exact F.
Qed.

Lemma filter_none {A : Type} (p : A -> bool) (l : list A) :
  (forall x, In x l -> p x = false) -> filter p l = [].
Proof.
  induction l as [|x l IH]; intros H; [reflexivity|].
  cbn [filter]. rewrite (H x (or_introl eq_refl)).
  apply IH. intros y Hy. apply H. right. exact Hy.
Qed.

Section Delivery.
Variable rt : Runtime.
Variable config : completion Agent.AIProvider.
Variable request : nat -> string -> string -> completion (option string).
Variable clock : nat -> Z.

Lemma scoreJob_effect (i n : nat) (job : Job.t) (w : Index.World) :
  Storage.writable (Index.fs w) = true ->
  exists w',
    Index.scoreJob rt config request clock i n job w = (Return tt, w')
    /\ Storage.writable (Index.fs w') = true
    /\ Index.analyzedJobs w'
       = (Index.analyzedJobs w
            ++ match Agent.analyzeJob rt config (request i) job
                                      Config.userBackground with
               | Return a => [a]
               | Throw _ => []
               end)%list
    /\ delivered (Index.console w') = delivered (Index.console w).
Proof.
  intros W.
  destruct (saveProcessedJob_writable rt (clock i) (Job.id job)
                                      (Index.fs w) W)
    as (fs' & E & I & W' & Mono).
  unfold Index.scoreJob, mtry, mbind, Index.log, pure, Index.push,
    Index.onStore.
  cbn [Index.fs Index.console Index.analyzedJobs].
  destruct (Agent.analyzeJob rt config (request i) job Config.userBackground)
    as [analyzed|error];
    cbn [Index.fs Index.console Index.analyzedJobs]; rewrite E;
    eexists; (split; [reflexivity|]);
    cbn [Index.fs Index.console Index.analyzedJobs];
    rewrite ?app_nil_r, ?delivered_app; cbn [delivered];
    rewrite ?app_nil_r; repeat split; assumption.
Qed.

Lemma scoreLoop_effect (newJobs : list Job.t) :
  forall (i n : nat) (w : Index.World),
    Storage.writable (Index.fs w) = true ->
    exists w',
      Index.scoreLoop rt config request clock i n newJobs w
      = (Return tt, w')
      /\ Index.analyzedJobs w'
         = (Index.analyzedJobs w ++ analysed rt config request i newJobs)%list
      /\ delivered (Index.console w') = delivered (Index.console w).
Proof.
  induction newJobs as [|job rest IH]; intros i n w W.
  - exists w. cbn. rewrite app_nil_r. repeat split.
  - destruct (scoreJob_effect i n job w W) as (w1 & E1 & W1 & A1 & D1).
    destruct (IH (S i) n w1 W1) as (w2 & E2 & A2 & D2).
    exists w2. cbn [Index.scoreLoop analysed]. unfold mbind at 1.
    rewrite E1, E2. split; [reflexivity|]. split.
    + rewrite A2, A1, <- app_assoc. reflexivity.
    + rewrite D2, D1. reflexivity.
Qed.

Lemma analysed_In (jobs : list Job.t) :
  forall (i : nat) (a : AnalyzedJob.t),
    In a (analysed rt config request i jobs) ->
    exists job k,
      In job jobs
      /\ Agent.analyzeJob rt config (request k) job Config.userBackground
         = Return a.
Proof.
  induction jobs as [|job rest IH]; intros i a H; [contradiction|].
  cbn [analysed] in H. apply in_app_or in H as [H|H].
  - destruct (Agent.analyzeJob rt config (request i) job
                               Config.userBackground) as [r|e] eqn:E;
      [|contradiction].
    destruct H as [<-|[]]. exists job, i. split; [left; reflexivity|exact E].
  - destruct (IH _ _ H) as (j & k & Hj & E).
    exists j, k. split; [right; exact Hj | exact E].
Qed.

Lemma processJobs_delivered
      (results : list (string * completion (list Job.t))) (now : Z)
      (w : Index.World) :
  Storage.writable (Index.fs w) = true ->
  delivered
    (Index.console
       (snd (Index.processJobs rt config request clock results now w)))
  = (delivered (Index.console w)
       ++ Index.sortByScore
            (filter highScore
               (analysed rt config request 0
                  (filter (unprocessed (Index.fs w))
                     (Scraper.filterByTime now (fulfilled results)
                                           Config.hoursThreshold)))))%list.
Proof.
  intros W. unfold Index.processJobs.
  destruct (mergeResults_quiet results w) as (w0 & E0 & F0 & _ & _ & D0).
  unfold mtry. unfold mbind at 1. rewrite E0. unfold mbind at 1.
  unfold unprocessed. rewrite <- F0, <- D0.
  remember (filter (fun job =>
                      negb (Storage.isJobProcessed (Job.id job)
                                                   (Index.fs w0)))
                   (Scraper.filterByTime now (fulfilled results)
                                         Config.hoursThreshold))
    as newJobs eqn:N.
  assert (W0 : Storage.writable (Index.fs w0) = true) by (rewrite F0; exact W).
  destruct (scoreLoop_effect newJobs 0 (List.length newJobs)
              {| Index.fs := Index.fs w0;
                 Index.console := Index.console w0;
                 Index.analyzedJobs := [] |} W0)
    as (w1 & E1 & A1 & D1).
  cbn [Index.console Index.analyzedJobs app] in A1, D1.
  clear N. destruct newJobs as [|j rest].
  - cbn. rewrite app_nil_r. reflexivity.
  - unfold mbind at 1. unfold Index.resetAnalyzed.
    unfold mbind at 1. rewrite E1. unfold mbind at 1.
    rewrite A1. fold highScore.
    change (fun job : AnalyzedJob.t =>
              Num.geb (AnalyzedJob.score job) Config.minScore)
      with highScore.
    destruct (filter highScore (analysed rt config request 0 (j :: rest)))
      as [|h hs] eqn:Hf.
    + cbn [snd Index.sortByScore fold_right]. rewrite app_nil_r. exact D1.
    + destruct (deliver_effect (Index.sortByScore (h :: hs)) w1)
        as (w2 & E2 & F2 & D2).
      rewrite E2. cbn [snd]. rewrite D2, D1. reflexivity.
Qed.

Lemma processJobs_nothing_new
      (results : list (string * completion (list Job.t))) (now : Z)
      (w : Index.World) :
  (forall job,
      In job (Scraper.filterByTime now (fulfilled results)
                                   Config.hoursThreshold) ->
      Storage.isJobProcessed (Job.id job) (Index.fs w) = true) ->
  exists w',
    Index.processJobs rt config request clock results now w
    = (Return tt, w')
    /\ Index.fs w' = Index.fs w
    /\ Index.analyzedJobs w' = Index.analyzedJobs w
    /\ attempts (Index.console w') = attempts (Index.console w)
    /\ delivered (Index.console w') = delivered (Index.console w).
Proof.
  intros H. unfold Index.processJobs.
  destruct (mergeResults_quiet results w) as (w0 & E0 & F0 & J0 & A0 & D0).
  unfold mtry. unfold mbind at 1. rewrite E0. unfold mbind at 1.
  rewrite filter_none.
  - exists w0. repeat split; assumption.
  - intros job Hj. rewrite F0, (H job Hj). reflexivity.
Qed.

End Delivery.

(** X16.  What a run of [processJobs] hands to the notifier, on a store
    that accepts writes: the analyses that returned for the recent jobs not
    yet in the store, those of score at least [minScore] only, sorted by
    [sortByScore].  Each job delivered has a score between 8 and 10 and the
    fields of a recent job that was not in the store. *)
Theorem X16_processJobs_delivers_sorted_high_scores :
  forall (rt : Runtime) (config : completion Agent.AIProvider)
         (request : nat -> string -> string -> completion (option string))
         (clock : nat -> Z)
         (results : list (string * completion (list Job.t))) (now : Z)
         (w : Index.World),
    Storage.writable (Index.fs w) = true ->
    let newJobs :=
      filter (unprocessed (Index.fs w))
             (Scraper.filterByTime now (fulfilled results)
                                   Config.hoursThreshold) in
    let sent :=
      Index.sortByScore
        (filter highScore (analysed rt config request 0 newJobs)) in
    delivered
      (Index.console
         (snd (Index.processJobs rt config request clock results now w)))
    = (delivered (Index.console w) ++ sent)%list
    /\ forall a,
        In a sent ->
        (exists q, AnalyzedJob.score a = Fin q /\ (8 <= q)%Q /\ (q <= 10)%Q)
        /\ exists job, In job newJobs /\ AgentSpec.extends a job.
Proof.
  intros rt config request clock results now w W newJobs sent. split.
  - apply processJobs_delivered, W.
  - intros a Ha. subst sent.
    apply (Permutation_in a (Permutation_sym (sortByScore_Permutation _)))
      in Ha.
    apply filter_In in Ha as [Ha Hs].
    apply analysed_In in Ha as (job & k & Hj & E).
    apply analyzeJob_returns in E as (content & [s re] & Hp & ->).
    apply parseAIResponse_returns_iff in Hp.
    destruct Hp as (parsed & _ & rs & rr & _ & _ & _ & (q & Hq & Q1 & Q2)
                    & _ & _).
    cbn [Agent.score Agent.reason] in *. subst s. split.
    + exists q. split; [reflexivity|]. split; [|exact Q2].
      unfold highScore, Config.minScore, Num.geb in Hs. cbn in Hs.
      apply Qle_bool_iff in Hs. exact Hs.
    + exists job. split; [exact Hj|]. unfold AgentSpec.extends. cbn.
      repeat split.
Qed.

Lemma X16_witness :
  Storage.writable (Index.fs Sample.freshWorld) = true
  /\ delivered
       (Index.console
          (snd (Index.processJobs Ref.engine (Return Agent.deepseek)
                                  Sample.scores Sample.ticks
                                  Sample.settled 1700000003600
                                  Sample.freshWorld)))
     = (delivered (Index.console Sample.freshWorld)
          ++ Index.sortByScore
               (filter highScore
                  (analysed Ref.engine (Return Agent.deepseek)
                     Sample.scores 0
                     (filter (unprocessed (Index.fs Sample.freshWorld))
                        (Scraper.filterByTime
                           1700000003600 (fulfilled Sample.settled)
                           Config.hoursThreshold)))))%list.
Proof.
  split; [reflexivity|].
  apply (proj1 (X16_processJobs_delivers_sorted_high_scores
                  Ref.engine (Return Agent.deepseek)
                  Sample.scores Sample.ticks
                  Sample.settled 1700000003600%Z
                  Sample.freshWorld eq_refl)).
Defined.

(** X17.  A job is not analysed twice.  A run in which every recent job is
    already in the store returns without starting an analysis, delivering a
    job or touching the store; and after a run on a store that accepts
    writes, a second run on the same listings is such a run, whatever the
    configuration, the provider and the clock are by then. *)
Theorem X17_processed_jobs_are_not_analysed_again :
  forall (rt : Runtime)
         (results : list (string * completion (list Job.t))) (now : Z),
    (forall config request clock w,
        (forall job,
            In job (Scraper.filterByTime now (fulfilled results)
                                         Config.hoursThreshold) ->
            Storage.isJobProcessed (Job.id job) (Index.fs w) = true) ->
        exists w',
          Index.processJobs rt config request clock results now w
          = (Return tt, w')
          /\ Index.fs w' = Index.fs w
          /\ attempts (Index.console w') = attempts (Index.console w)
          /\ delivered (Index.console w') = delivered (Index.console w))
    /\ (forall config request clock config' request' clock' w,
           Storage.writable (Index.fs w) = true ->
           exists w1 w2,
             Index.processJobs rt config request clock results now w
             = (Return tt, w1)
             /\ Index.processJobs rt config' request' clock' results now w1
                = (Return tt, w2)
             /\ Index.fs w2 = Index.fs w1
             /\ attempts (Index.console w2) = attempts (Index.console w1)
             /\ delivered (Index.console w2) = delivered (Index.console w1)).
Proof.
  intros rt results now. split.
  - intros config request clock w H.
    destruct (processJobs_nothing_new rt config request clock results now w H)
      as (w' & E & F & _ & A & D).
    exists w'. repeat split; assumption.
  - intros config request clock config' request' clock' w W.
    destruct (processJobs_writable rt config request clock results now w W)
      as (w1 & E1 & I1).
    assert (H : forall job,
               In job (Scraper.filterByTime now (fulfilled results)
                                            Config.hoursThreshold) ->
               Storage.isJobProcessed (Job.id job) (Index.fs w1) = true).
    { intros job Hj. apply includes_In, I1, Hj. }
    destruct (processJobs_nothing_new rt config' request' clock' results now
                                      w1 H)
      as (w2 & E2 & F & _ & A & D).
    exists w1, w2. repeat split; assumption.
Qed.

Lemma X17_witness :
  Storage.writable (Index.fs Sample.freshWorld) = true
  /\ exists w1 w2,
      Index.processJobs Ref.engine (Return Agent.deepseek)
                        Sample.scores Sample.ticks
                        Sample.settled 1700000003600 Sample.freshWorld
      = (Return tt, w1)
      /\ Index.processJobs Ref.engine (Return Agent.openai)
                           Sample.answers Sample.ticks
                           Sample.settled 1700000003600 w1
         = (Return tt, w2)
      /\ Index.fs w2 = Index.fs w1
      /\ attempts (Index.console w2) = attempts (Index.console w1)
      /\ delivered (Index.console w2) = delivered (Index.console w1).
Proof.
  split; [reflexivity|].
  apply (proj2 (X17_processed_jobs_are_not_analysed_again
                  Ref.engine Sample.settled 1700000003600%Z)
               (Return Agent.deepseek) Sample.scores Sample.ticks
               (Return Agent.openai) Sample.answers Sample.ticks
               Sample.freshWorld).
  reflexivity.
Defined.

(** X18.  A source that failed is passed over: [mergeResults] never throws,
    and the jobs it returns are those it returns when the failed source is
    left out of the results. *)
Theorem X18_failed_source_is_passed_over :
  forall (before after : list (string * completion (list Job.t)))
         (name : string) (e : exn) (w : Index.World),
    fst (Index.mergeResults (before ++ (name, Throw e) :: after) w)
    = fst (Index.mergeResults (before ++ after) w)
    /\ returns (fst (Index.mergeResults
                       (before ++ (name, Throw e) :: after) w)) = true
    /\ Index.fs (snd (Index.mergeResults
                        (before ++ (name, Throw e) :: after) w))
       = Index.fs w.
Proof.
  intros before after name e w.
  destruct (mergeResults_quiet (before ++ (name, Throw e) :: after) w)
    as (w1 & E1 & F1 & _).
  destruct (mergeResults_quiet (before ++ after) w) as (w2 & E2 & _).
  rewrite E1, E2. cbn [fst snd returns]. split; [|split; [reflexivity|exact F1]].
  f_equal. unfold fulfilled. rewrite !flat_map_app. reflexivity.
Qed.

(** ** scraper.ts: the adapters *)

Lemma NoDup_map_prefix {A : Type} (p : string) (f : A -> string)
      (l : list A) :
  NoDup (map f l) -> NoDup (map (fun x => p ++ f x) l).
Proof.
  induction l as [|x l IH]; intros H; [constructor|].
  cbn [map] in *. inversion H as [|? ? N D]; subst.
  constructor; [|apply IH, D].
  intros I. apply N. apply in_map_iff in I as (y & E & Hy).
  apply append_inj in E. rewrite <- E. apply in_map, Hy.
Qed.

Lemma collectRemoteOK_usable (rt : Runtime) (clock : nat -> Z)
      (data : list (option RemoteOKJob.t)) :
  forall i,
    Scraper.collectRemoteOK rt clock i data
    = map (fun item => Scraper.normalizeJob rt 0 (Scraper.FromRemoteOK item))
          (usableRemoteOK data).
Proof.
  induction data as [|[item|] rest IH]; intros i;
    cbn [Scraper.collectRemoteOK usableRemoteOK flat_map];
    [reflexivity| |apply IH].
  fold (usableRemoteOK rest).
  destruct (Str.nonEmpty (RemoteOKJob.id item)),
    (Str.nonEmpty (RemoteOKJob.position item));
    cbn [negb orb andb app map]; rewrite IH; reflexivity.
Qed.

Lemma usableRemoteOK_length (data : list (option RemoteOKJob.t)) :
  (List.length (usableRemoteOK data) <= List.length data)%nat.
Proof.
  induction data as [|[item|] rest IH]; cbn [usableRemoteOK flat_map];
    [apply le_n| |fold (usableRemoteOK rest); cbn; lia].
  fold (usableRemoteOK rest). destruct (_ && _); cbn; lia.
Qed.

Lemma usableRemoteOK_In (data : list (option RemoteOKJob.t))
      (item : RemoteOKJob.t) :
  In item (usableRemoteOK data) ->
  In (Some item) data
  /\ RemoteOKJob.id item <> EmptyString
  /\ RemoteOKJob.position item <> EmptyString.
Proof.
  unfold usableRemoteOK. rewrite in_flat_map.
  intros ([x|] & Hx & H); [|contradiction].
  destruct (Str.nonEmpty (RemoteOKJob.id x)) eqn:I; [|contradiction].
  destruct (Str.nonEmpty (RemoteOKJob.position x)) eqn:P; [|contradiction].
  destruct H as [<-|[]]. split; [exact Hx|].
  split; intros E; rewrite E in *; discriminate.
Qed.

(** X19.  [fetchRemoteOKJobs] rethrows every failure of the transport,
    those whose message mentions XML included.  On a response it returns one
    job for each entry that is not [null] and has an [id] and a [position],
    in the order of the response, whatever the clock reads: the job has the
    source [remoteok], the [position] as title and the [id] behind the tag
    as id; so entries with different ids give jobs with different ids. *)
Theorem X19_fetchRemoteOKJobs_keeps_usable_entries :
  forall (rt : Runtime) (clock : nat -> Z),
    (forall e, Scraper.fetchRemoteOKJobs rt clock (Throw e) = Throw e)
    /\ (forall data,
           exists jobs,
             Scraper.fetchRemoteOKJobs rt clock (Return data) = Return jobs
             /\ (List.length jobs <= List.length data)%nat
             /\ map Job.id jobs
                = map (fun item => "remoteok-" ++ RemoteOKJob.id item)
                      (usableRemoteOK data)
             /\ map Job.title jobs
                = map RemoteOKJob.position (usableRemoteOK data)
             /\ Forall (fun job => Job.source job = remoteok) jobs
             /\ (NoDup (map RemoteOKJob.id (usableRemoteOK data)) ->
                 NoDup (map Job.id jobs))).
Proof.
  intros rt clock. split; [reflexivity|].
  intros data. eexists. split; [reflexivity|].
  rewrite collectRemoteOK_usable.
  assert (Ids : map Job.id
                    (map (fun item => Scraper.normalizeJob
                                        rt 0 (Scraper.FromRemoteOK item))
                         (usableRemoteOK data))
                = map (fun item => "remoteok-" ++ RemoteOKJob.id item)
                      (usableRemoteOK data))
    by (rewrite map_map; reflexivity).
  split; [rewrite length_map; apply usableRemoteOK_length|].
  split; [exact Ids|]. split; [|split].
  - rewrite map_map. apply map_ext_in. intros item Hi.
    apply usableRemoteOK_In in Hi as (_ & _ & P).
    cbn [Scraper.normalizeJob Job.title]. unfold Scraper.orElse.
    destruct (RemoteOKJob.position item); [elim P|]; reflexivity.
  - apply Forall_forall. intros job Hj.
    apply in_map_iff in Hj as (item & <- & _). reflexivity.
  - intros N. rewrite Ids. apply NoDup_map_prefix, N.
Qed.

Lemma X19_witness :
  NoDup (map RemoteOKJob.id
             (usableRemoteOK [Some Sample.remoteOK456; None]))
  /\ exists jobs,
      Scraper.fetchRemoteOKJobs Ref.engine Sample.ticks
        (Return [Some Sample.remoteOK456; None]) = Return jobs
      /\ (List.length jobs <= List.length [Some Sample.remoteOK456; None])%nat
      /\ map Job.id jobs
         = map (fun item => "remoteok-" ++ RemoteOKJob.id item)
               (usableRemoteOK [Some Sample.remoteOK456; None])
      /\ map Job.title jobs
         = map RemoteOKJob.position
               (usableRemoteOK [Some Sample.remoteOK456; None])
      /\ Forall (fun job => Job.source job = remoteok) jobs
      /\ (NoDup (map RemoteOKJob.id
                     (usableRemoteOK [Some Sample.remoteOK456; None])) ->
          NoDup (map Job.id jobs)).
Proof.
  split; [repeat constructor; intros []|].
  apply (proj2 (X19_fetchRemoteOKJobs_keeps_usable_entries
                  Ref.engine Sample.ticks)
               [Some Sample.remoteOK456; None]).
Defined.

Lemma collectWWR_usable (rt : Runtime) (clock : nat -> Z)
      (items : list (option WWRItem.t)) :
  forall i,
    map Job.url (Scraper.collectWWR rt clock i items)
    = map WWRItem.link (usableWWR items)
    /\ map Job.title (Scraper.collectWWR rt clock i items)
       = map WWRItem.title (usableWWR items)
    /\ map Job.postedAt (Scraper.collectWWR rt clock i items)
       = map (fun item => Date_parse rt (WWRItem.pubDate item))
             (usableWWR items)
    /\ Forall (fun job => Job.source job = weworkremotely)
              (Scraper.collectWWR rt clock i items)
    /\ (List.length (Scraper.collectWWR rt clock i items)
        <= List.length items)%nat.
Proof.
  induction items as [|[item|] rest IH]; intros i;
    cbn [Scraper.collectWWR usableWWR flat_map].
  - repeat split; constructor.
  - fold (usableWWR rest).
    destruct (IH (S i)) as (U & T & P & S & L).
    destruct (Str.nonEmpty (WWRItem.title item)) eqn:Et,
      (Str.nonEmpty (WWRItem.link item)) eqn:El;
      cbn [negb orb andb app map List.length];
      try (repeat split; [assumption ..| lia]).
    rewrite U, T, P. repeat split.
    + cbn [Scraper.normalizeJob Job.title]. unfold Scraper.orElse.
      rewrite Et. reflexivity.
    + constructor; [reflexivity | exact S].
    + lia.
  - fold (usableWWR rest).
    destruct (IH (S i)) as (U & T & P & S & L).
    repeat split; try assumption. cbn [List.length]. lia.
Qed.



(** ** config.ts: getAIConfig *)

Lemma aiConfigs_preset (provider : string) (p : Config.Preset) :
  Config.aiConfigs provider = Some p ->
  (Config.presetTemperature p = Some (Fin (7 # 10))
   \/ Config.presetTemperature p = None)
  /\ Config.presetModel p <> Some EmptyString.
Proof.
  unfold Config.aiConfigs.
  repeat match goal with
         | |- context [if ?b then _ else _] => destruct b
         end;
    intros H; inversion H; subst p; cbn; split; auto; discriminate.
Qed.

(** X21.  [getAIConfig] throws exactly when none of the four key variables
    holds a non-empty string.  Otherwise the key of the configuration is
    the value of the first of [AI_API_KEY], [DEEPSEEK_API_KEY],
    [OPENAI_API_KEY], [ANTHROPIC_API_KEY] that is set and not empty, and the
    provider is [AI_PROVIDER], or [deepseek] when that is unset or empty. *)
Theorem X21_getAIConfig_key_precedence :
  forall (rt : Runtime) (env : Env),
    (firstSet env keyNames = None ->
     Config.getAIConfig rt env = Throw Config.missingKey)
    /\ (forall key,
           firstSet env keyNames = Some key ->
           exists c,
             Config.getAIConfig rt env = Return c
             /\ Config.AIConfig.apiKey c = key
             /\ key <> EmptyString
             /\ Config.AIConfig.provider c
                = match env "AI_PROVIDER" with
                  | Some (String a p) => String a p
                  | _ => "deepseek"
                  end).
Proof.
  intros rt env.
  unfold Config.getAIConfig, firstSet, keyNames, Scraper.orOpt,
    Scraper.truthy, Scraper.orDefault, Scraper.orElse.
  destruct (env "AI_API_KEY") as [[|a1 k1]|];
    destruct (env "DEEPSEEK_API_KEY") as [[|a2 k2]|];
    destruct (env "OPENAI_API_KEY") as [[|a3 k3]|];
    destruct (env "ANTHROPIC_API_KEY") as [[|a4 k4]|];
    cbn [Str.nonEmpty negb];
    (split; [try discriminate; reflexivity|]);
    intros key H; try discriminate; inversion H; subst key;
    eexists; (split; [reflexivity|]);
    (split; [reflexivity|]); (split; [discriminate|]);
    cbn [Config.AIConfig.provider];
    destruct (env "AI_PROVIDER") as [[|a p]|]; reflexivity.
Qed.

Lemma X21_witness :
  firstSet (envOf [("OPENAI_API_KEY", "sk-test"); ("AI_API_KEY", EmptyString)])
           keyNames = Some "sk-test"
  /\ exists c,
      Config.getAIConfig
        Ref.engine (envOf [("OPENAI_API_KEY", "sk-test"); ("AI_API_KEY", EmptyString)])
      = Return c
      /\ Config.AIConfig.apiKey c = "sk-test"
      /\ "sk-test" <> EmptyString
      /\ Config.AIConfig.provider c
         = match envOf [("OPENAI_API_KEY", "sk-test"); ("AI_API_KEY", EmptyString)]
                       "AI_PROVIDER" with
           | Some (String a p) => String a p
           | _ => "deepseek"
           end.
Proof.
  split; [reflexivity|].
  apply (proj2 (X21_getAIConfig_key_precedence
                  Ref.engine
                  (envOf [("OPENAI_API_KEY", "sk-test"); ("AI_API_KEY", EmptyString)]))
               "sk-test").
  reflexivity.
Defined.

(** X22.  In every configuration that [getAIConfig] returns, the model is
    not empty and the temperature is a number other than zero and [NaN].
    [AI_MODEL] and [AI_BASE_URL], when set and not empty, are taken as they
    are.  The temperature is the number that [AI_TEMPERATURE] holds when
    that is neither zero nor [NaN], and 0.7 otherwise, whatever the
    provider: a temperature of zero cannot be configured. *)
Theorem X22_getAIConfig_fields :
  forall (rt : Runtime) (env : Env) (c : Config.AIConfig.t),
    Config.getAIConfig rt env = Return c ->
    Config.AIConfig.model c <> EmptyString
    /\ Num.truthy (Config.AIConfig.temperature c) = true
    /\ Config.AIConfig.temperature c
       = (if Num.truthy (Config.temperatureSetting rt env)
          then Config.temperatureSetting rt env else Fin (7 # 10))
    /\ (forall a m, env "AI_MODEL" = Some (String a m) ->
                    Config.AIConfig.model c = String a m)
    /\ (forall a u, env "AI_BASE_URL" = Some (String a u) ->
                    Config.AIConfig.baseURL c = Some (String a u)).
Proof.
  intros rt env c. unfold Config.getAIConfig.
  destruct (Scraper.orOpt _ (env "ANTHROPIC_API_KEY")) as [key|];
    [|discriminate].
  destruct (negb (Str.nonEmpty key)); [discriminate|].
  set (provider := Scraper.orDefault (env "AI_PROVIDER") "deepseek").
  assert (P : exists p,
             match Config.aiConfigs provider with
             | Some p => p
             | None => Config.preset (Some "https://api.deepseek.com")
                                     (Some "deepseek-chat")
             end = p
             /\ (Config.presetTemperature p = Some (Fin (7 # 10))
                 \/ Config.presetTemperature p = None)
             /\ Config.presetModel p <> Some EmptyString).
  { destruct (Config.aiConfigs provider) as [p|] eqn:E.
    - exists p. split; [reflexivity|]. apply (aiConfigs_preset provider p E).
    - eexists. split; [reflexivity|]. cbn. split; [auto | discriminate]. }
  destruct P as (p & -> & T & M).
  intros H. inversion H; subst c; clear H.
  cbn [Config.AIConfig.model Config.AIConfig.temperature
       Config.AIConfig.baseURL].
  assert (Temp : match Config.presetTemperature p with
                 | Some t => Config.orNumber t (Fin (7 # 10))
                 | None => Fin (7 # 10)
                 end = Fin (7 # 10))
    by (destruct T as [-> | ->]; reflexivity).
  rewrite Temp. unfold Config.orNumber.
  split; [|split; [|split; [|split]]].
  - unfold Scraper.orDefault, Scraper.orOpt, Scraper.truthy, Scraper.orElse.
    destruct (env "AI_MODEL") as [[|a m]|]; cbn [Str.nonEmpty];
      try discriminate;
      destruct (Config.presetModel p) as [[|b n]|]; cbn [Str.nonEmpty];
      try discriminate; elim M; reflexivity.
  - destruct (Num.truthy (Config.temperatureSetting rt env)) eqn:E;
      [exact E | reflexivity].
  - reflexivity.
  - intros a m E. rewrite E. reflexivity.
  - intros a u E. rewrite E. reflexivity.
Qed.

Lemma X22_witness :
  Config.getAIConfig
    Ref.engine (envOf [("AI_API_KEY", "sk-test"); ("AI_TEMPERATURE", "0")])
  = Return
      {| Config.AIConfig.provider := "deepseek";
         Config.AIConfig.apiKey := "sk-test";
         Config.AIConfig.baseURL := Some "https://api.deepseek.com";
         Config.AIConfig.model := "deepseek-chat";
         Config.AIConfig.temperature := Fin (7 # 10) |}
  /\ Config.AIConfig.temperature
       {| Config.AIConfig.provider := "deepseek";
          Config.AIConfig.apiKey := "sk-test";
          Config.AIConfig.baseURL := Some "https://api.deepseek.com";
          Config.AIConfig.model := "deepseek-chat";
          Config.AIConfig.temperature := Fin (7 # 10) |}
     = (if Num.truthy
             (Config.temperatureSetting
                Ref.engine
                (envOf [("AI_API_KEY", "sk-test"); ("AI_TEMPERATURE", "0")]))
        then Config.temperatureSetting
               Ref.engine
               (envOf [("AI_API_KEY", "sk-test"); ("AI_TEMPERATURE", "0")])
        else Fin (7 # 10)).
Proof.
  assert (E : Config.getAIConfig
                Ref.engine
                (envOf [("AI_API_KEY", "sk-test"); ("AI_TEMPERATURE", "0")])
              = Return
                  {| Config.AIConfig.provider := "deepseek";
                     Config.AIConfig.apiKey := "sk-test";
                     Config.AIConfig.baseURL := Some "https://api.deepseek.com";
                     Config.AIConfig.model := "deepseek-chat";
                     Config.AIConfig.temperature := Fin (7 # 10) |})
    by (vm_compute; reflexivity).
  split; [exact E|].
  apply (proj1 (proj2 (proj2 (X22_getAIConfig_fields Ref.engine _ _ E)))).
Defined.

(** ** notification.ts *)

Section Notify.
Variable rt : Runtime.
Variable env : Env.
Variable post : nat -> Notification.Request -> completion unit.

(** [sendTelegramMessage] makes one request and returns, whatever the
    transport answers. *)
Lemma sendTelegramMessage_effect (config : Notification.TelegramConfig)
      (message : string) (w : Notification.World) :
  exists ok w',
    Notification.sendTelegramMessage post config message w = (Return ok, w')
    /\ Notification.outbox w'
       = (Notification.outbox w ++ [telegramRequest config message])%list
    /\ ok = returns (post (List.length (Notification.outbox w))
                          (telegramRequest config message)).
Proof.
  unfold Notification.sendTelegramMessage, Notification.axios_post, mtry,
    mbind, ret, Notification.log.
  fold (telegramRequest config message).
  destruct (post (List.length (Notification.outbox w))
                 (telegramRequest config message)) as [[]|e];
    do 2 eexists; (split; [reflexivity|]); split; reflexivity.
Qed.

Lemma sendNotification_effect (job : AnalyzedJob.t)
      (w : Notification.World) :
  exists w',
    Notification.sendNotification rt env post job w = (Return tt, w')
    /\ Notification.outbox w'
       = (Notification.outbox w
            ++ match Notification.getTelegramConfig env with
               | Some config =>
                   [telegramRequest
                      config (Notification.formatJobMessage rt job)]
               | None => []
               end)%list.
Proof.
  unfold Notification.sendNotification, mbind.
  unfold Notification.log at 1.
  destruct (Notification.getTelegramConfig env) as [config|].
  - match goal with
    | |- context [Notification.sendTelegramMessage post config ?m ?w0] =>
        destruct (sendTelegramMessage_effect config m w0)
          as (ok & w1 & E & O & _)
    end.
    rewrite E. cbn [Notification.outbox] in O.
    destruct ok; eexists; (split; [reflexivity|]); exact O.
  - eexists. split; [reflexivity|]. cbn. rewrite app_nil_r. reflexivity.
Qed.

Lemma sendEach_effect (jobs : list AnalyzedJob.t) :
  forall w, exists w',
    Notification.sendEach rt env post jobs w = (Return tt, w')
    /\ Notification.outbox w'
       = (Notification.outbox w
            ++ match Notification.getTelegramConfig env with
               | Some config =>
                   map (fun job =>
                          telegramRequest
                            config (Notification.formatJobMessage rt job))
                       jobs
               | None => []
               end)%list.
Proof.
  induction jobs as [|job rest IH]; intros w.
  - exists w. split; [reflexivity|].
    destruct (Notification.getTelegramConfig env); cbn;
      rewrite app_nil_r; reflexivity.
  - cbn [Notification.sendEach]. unfold mbind.
    destruct (sendNotification_effect job w) as (w1 & E1 & O1).
    destruct (IH w1) as (w2 & E2 & O2).
    rewrite E1, E2. exists w2. split; [reflexivity|].
    rewrite O2, O1.
    destruct (Notification.getTelegramConfig env); cbn [map];
      rewrite <- app_assoc; reflexivity.
Qed.

End Notify.

(** X23.  [sendNotification] never throws, whatever the transport does.  It
    makes no request unless both [TELEGRAM_BOT_TOKEN] and
    [TELEGRAM_CHAT_ID] are set and not empty; when they are, it makes one
    request, to the address of that bot, for that chat, with the message of
    [formatJobMessage]. *)
Theorem X23_sendNotification_never_throws :
  forall (rt : Runtime) (env : Env)
         (post : nat -> Notification.Request -> completion unit)
         (job : AnalyzedJob.t) (w : Notification.World),
    exists w',
      Notification.sendNotification rt env post job w = (Return tt, w')
      /\ (forall token chat,
             env "TELEGRAM_BOT_TOKEN" = Some token ->
             env "TELEGRAM_CHAT_ID" = Some chat ->
             token <> EmptyString -> chat <> EmptyString ->
             Notification.outbox w'
             = (Notification.outbox w
                  ++ [{| Notification.url :=
                           "https://api.telegram.org/bot" ++ token
                             ++ "/sendMessage";
                         Notification.chat_id := chat;
                         Notification.text :=
                           Notification.formatJobMessage rt job |}])%list)
      /\ (env "TELEGRAM_BOT_TOKEN" = None
          \/ env "TELEGRAM_BOT_TOKEN" = Some EmptyString
          \/ env "TELEGRAM_CHAT_ID" = None
          \/ env "TELEGRAM_CHAT_ID" = Some EmptyString ->
          Notification.outbox w' = Notification.outbox w).
Proof.
  intros rt env post job w.
  destruct (sendNotification_effect rt env post job w) as (w' & E & O).
  exists w'. split; [exact E|]. rewrite O.
  unfold Notification.getTelegramConfig. split.
  - intros token chat -> -> T C.
    destruct token; [elim T; reflexivity|].
    destruct chat; [elim C; reflexivity|]. reflexivity.
  - intros [H|[H|[H|H]]]; rewrite H;
      destruct (env "TELEGRAM_BOT_TOKEN") as [[|a t]|]; cbn;
      rewrite ?app_nil_r; try reflexivity;
      destruct (env "TELEGRAM_CHAT_ID") as [[|b c]|]; cbn;
      rewrite ?app_nil_r; try reflexivity; discriminate.
Qed.

Lemma X23_witness :
  exists w',
    Notification.sendNotification
      Ref.engine
      (envOf [("TELEGRAM_BOT_TOKEN", "123:abc"); ("TELEGRAM_CHAT_ID", "42")])
      (fun _ _ => Throw (ErrorObj "timeout of 10000ms exceeded"))
      (AnalyzedJob.spread Sample.frontend (Fin 9) "Great match")
      {| Notification.console := []; Notification.outbox := [] |}
    = (Return tt, w')
    /\ Notification.outbox w'
       = [{| Notification.url :=
               "https://api.telegram.org/bot" ++ "123:abc" ++ "/sendMessage";
             Notification.chat_id := "42";
             Notification.text :=
               Notification.formatJobMessage
                 Ref.engine
                 (AnalyzedJob.spread Sample.frontend (Fin 9)
                                     "Great match") |}].
Proof.
  destruct (X23_sendNotification_never_throws
              Ref.engine
              (envOf [("TELEGRAM_BOT_TOKEN", "123:abc");
                      ("TELEGRAM_CHAT_ID", "42")])
              (fun _ _ => Throw (ErrorObj "timeout of 10000ms exceeded"))
              (AnalyzedJob.spread Sample.frontend (Fin 9) "Great match")
              {| Notification.console := []; Notification.outbox := [] |})
    as (w' & E & O & _).
  exists w'. split; [exact E|].
  apply (O "123:abc" "42"); [reflexivity | reflexivity | |]; discriminate.
Defined.

(** X24.  [sendNotifications] never throws.  Without a Telegram
    configuration, or on an empty list, it makes no request; otherwise it
    makes one request for the summary and then one for each job, in the
    order of the list, each with the message of that job. *)
Theorem X24_sendNotifications_requests :
  forall (rt : Runtime) (env : Env)
         (post : nat -> Notification.Request -> completion unit)
         (jobs : list AnalyzedJob.t) (w : Notification.World),
    exists w',
      Notification.sendNotifications rt env post jobs w = (Return tt, w')
      /\ map Notification.text (Notification.outbox w')
         = (map Notification.text (Notification.outbox w)
              ++ match Notification.getTelegramConfig env, jobs with
                 | Some _, _ :: _ =>
                     Notification.summaryMessage rt jobs
                       :: map (Notification.formatJobMessage rt) jobs
                 | _, _ => []
                 end)%list.
Proof.
  intros rt env post jobs w. unfold Notification.sendNotifications.
  unfold mbind at 1.
  destruct (Notification.getTelegramConfig env) as [config|] eqn:G.
  - destruct jobs as [|job rest].
    + exists w. split; [reflexivity|]. cbn. rewrite app_nil_r. reflexivity.
    + cbn [List.length Nat.ltb Nat.leb]. unfold mbind at 1.
      destruct (sendTelegramMessage_effect
                  post config
                  (Notification.summaryMessage rt (job :: rest)) w)
        as (ok & w1 & E1 & O1 & _).
      rewrite E1. unfold ret at 1.
      destruct (sendEach_effect rt env post (job :: rest) w1)
        as (w2 & E2 & O2).
      rewrite E2. exists w2. split; [reflexivity|].
      rewrite O2, O1, G, !map_app, map_map, <- app_assoc. reflexivity.
  - unfold ret at 1.
    destruct (sendEach_effect rt env post jobs w) as (w2 & E2 & O2).
    rewrite E2. exists w2. split; [reflexivity|].
    rewrite O2, G, app_nil_r. destruct jobs; cbn; rewrite app_nil_r;
      reflexivity.
Qed.

(** ** index.ts: formatTimeAgo *)

(** X25.  [formatTimeAgo] shows "just now" for the Invalid Date, for a date
    in the future and for a date less than a minute old; whole minutes,
    rounded down, for a date less than an hour old; and whole hours, rounded
    down, from one hour on. *)
Theorem X25_formatTimeAgo_units :
  forall (rt : Runtime) (now : Z),
    Index.formatTimeAgo rt now None = "刚刚"
    /\ (forall t, (now - t < 60000)%Z ->
                  Index.formatTimeAgo rt now (Some t) = "刚刚")
    /\ (forall t, (60000 <= now - t < 3600000)%Z ->
                  Index.formatTimeAgo rt now (Some t)
                  = NumberToString rt (Num.ofZ ((now - t) / 60000))
                      ++ " 分钟前")
    /\ (forall t, (3600000 <= now - t)%Z ->
                  Index.formatTimeAgo rt now (Some t)
                  = NumberToString rt (Num.ofZ ((now - t) / 3600000))
                      ++ " 小时前").
Proof.
  intros rt now. unfold Index.formatTimeAgo.
  change (1000 * 60 * 60)%Z with 3600000%Z.
  change (1000 * 60)%Z with 60000%Z.
  split; [reflexivity|]. split; [|split].
  - intros t H. set (d := (now - t)%Z) in *.
    assert (Hh : (d / 3600000 <= 0)%Z).
    { destruct (Z_lt_le_dec d 0) as [N|N].
      - assert (d / 3600000 < 0)%Z by (apply Z.div_lt_upper_bound; lia). lia.
      - rewrite Z.div_small by lia. lia. }
    assert (Hm : (Z.rem d 3600000 / 60000 <= 0)%Z).
    { destruct (Z_lt_le_dec d 0) as [N|N].
      - assert (Z.rem d 3600000 <= 0)%Z by (apply Z.rem_nonpos; lia).
        destruct (Z.eq_dec (Z.rem d 3600000) 0) as [->|Ne]; [cbn; lia|].
        assert (Z.rem d 3600000 / 60000 < 0)%Z
          by (apply Z.div_lt_upper_bound; lia). lia.
      - rewrite Z.rem_small by lia. rewrite Z.div_small by lia. lia. }
    destruct (Z.ltb_spec 0 (d / 3600000)); [lia|].
    destruct (Z.ltb_spec 0 (Z.rem d 3600000 / 60000)); [lia|]. reflexivity.
  - intros t H. set (d := (now - t)%Z) in *.
    rewrite (Z.div_small d 3600000) by lia. cbn [Z.ltb Z.compare].
    rewrite Z.rem_small by lia.
    assert (1 <= d / 60000)%Z by (apply Z.div_le_lower_bound; lia).
    destruct (Z.ltb_spec 0 (d / 60000)); [reflexivity | lia].
  - intros t H. set (d := (now - t)%Z) in *.
    assert (1 <= d / 3600000)%Z by (apply Z.div_le_lower_bound; lia).
    destruct (Z.ltb_spec 0 (d / 3600000)); [reflexivity | lia].
Qed.

Lemma X25_witness :
  (60000 <= 1700000000000 - 1699999100000 < 3600000)%Z
  /\ Index.formatTimeAgo Ref.engine 1700000000000%Z
                         (Some 1699999100000%Z)
     = NumberToString
         Ref.engine
         (Num.ofZ ((1700000000000 - 1699999100000) / 60000)%Z)
         ++ " 分钟前".
Proof.
  split; [lia|].
  apply (proj1 (proj2 (proj2 (X25_formatTimeAgo_units
                                Ref.engine 1700000000000%Z)))
               1699999100000%Z).
  lia.
Defined.

(** ** scraper.ts: links and dates of the normalised jobs *)

(** X26.  The link of a normalised Web3.career job is built from the slug
    and never from the [url] of the record: when the record has a [url] or
    a [slug], the link is the address of the site followed by the slug
    (rendered as "undefined" when the record has none), and two records
    that differ only in a non-empty [url] get the same link. *)
Theorem X26_web3career_link_comes_from_slug :
  forall (rt : Runtime) (now : Z) (job : Web3CareerJob.t),
    (Scraper.truthy (Web3CareerJob.url job) = true
     \/ Scraper.truthy (Web3CareerJob.slug job) = true ->
     Job.url (Scraper.normalizeJob rt now (Scraper.FromWeb3Career job))
     = "https://web3.career/" ++ Scraper.render (Web3CareerJob.slug job))
    /\ (Scraper.truthy (Web3CareerJob.url job) = false ->
        Scraper.truthy (Web3CareerJob.slug job) = false ->
        Job.url (Scraper.normalizeJob rt now (Scraper.FromWeb3Career job))
        = "https://web3.career")
    /\ (forall other,
           Scraper.truthy (Web3CareerJob.url job) = true ->
           Scraper.truthy (Web3CareerJob.url other) = true ->
           Web3CareerJob.slug other = Web3CareerJob.slug job ->
           Job.url (Scraper.normalizeJob rt now (Scraper.FromWeb3Career other))
           = Job.url (Scraper.normalizeJob rt now
                                           (Scraper.FromWeb3Career job))).
Proof.
  intros rt now job. cbn [Scraper.normalizeJob Job.url].
  unfold Scraper.orOpt. split; [|split].
  - intros [H|H].
    + rewrite H, H. reflexivity.
    + destruct (Scraper.truthy (Web3CareerJob.url job)) eqn:U;
        [rewrite U | rewrite H]; reflexivity.
  - intros U S. rewrite U, S. reflexivity.
  - intros other U V S. rewrite U, U, V, V, S. reflexivity.
Qed.

Lemma X26_witness :
  (Scraper.truthy
     (Web3CareerJob.url
        {| Web3CareerJob.id := Fin 7;
           Web3CareerJob.title := "Solidity Engineer";
           Web3CareerJob.company := "Acme";
           Web3CareerJob.description := None;
           Web3CareerJob.location := None;
           Web3CareerJob.remote := None;
           Web3CareerJob.url := Some "https://web3.career/solidity-acme/7";
           Web3CareerJob.slug := None;
           Web3CareerJob.created_at := None;
           Web3CareerJob.published_at := None |}) = true
   \/ Scraper.truthy
        (Web3CareerJob.slug
           {| Web3CareerJob.id := Fin 7;
              Web3CareerJob.title := "Solidity Engineer";
              Web3CareerJob.company := "Acme";
              Web3CareerJob.description := None;
              Web3CareerJob.location := None;
              Web3CareerJob.remote := None;
              Web3CareerJob.url := Some "https://web3.career/solidity-acme/7";
              Web3CareerJob.slug := None;
              Web3CareerJob.created_at := None;
              Web3CareerJob.published_at := None |}) = true)
  /\ Job.url
       (Scraper.normalizeJob
          Ref.engine 1700000000000
          (Scraper.FromWeb3Career
             {| Web3CareerJob.id := Fin 7;
                Web3CareerJob.title := "Solidity Engineer";
                Web3CareerJob.company := "Acme";
                Web3CareerJob.description := None;
                Web3CareerJob.location := None;
                Web3CareerJob.remote := None;
                Web3CareerJob.url :=
                  Some "https://web3.career/solidity-acme/7";
                Web3CareerJob.slug := None;
                Web3CareerJob.created_at := None;
                Web3CareerJob.published_at := None |}))
     = "https://web3.career/undefined".
Proof.
  split; [left; reflexivity|].
  apply (proj1 (X26_web3career_link_comes_from_slug
                  Ref.engine 1700000000000%Z
                  {| Web3CareerJob.id := Fin 7;
                     Web3CareerJob.title := "Solidity Engineer";
                     Web3CareerJob.company := "Acme";
                     Web3CareerJob.description := None;
                     Web3CareerJob.location := None;
                     Web3CareerJob.remote := None;
                     Web3CareerJob.url :=
                       Some "https://web3.career/solidity-acme/7";
                     Web3CareerJob.slug := None;
                     Web3CareerJob.created_at := None;
                     Web3CareerJob.published_at := None |})).
  left. reflexivity.
Defined.

Lemma remoteok_postedAt (rt : Runtime) (now : Z) (job : RemoteOKJob.t)
      (e : Z) :
  RemoteOKJob.epoch job = Num.ofZ e ->
  (- 8640000000000 <= e <= 8640000000000)%Z ->
  Job.postedAt (Scraper.normalizeJob rt now (Scraper.FromRemoteOK job))
  = Some (e * 1000)%Z.
Proof.
  intros E R. cbn [Scraper.normalizeJob Job.postedAt]. rewrite E.
  unfold Num.ofZ, Num.mul, DateOps.ofNumber, DateOps.maxTime.
  match goal with
  | |- context [Qle_bool ?a ?b && Qle_bool ?c ?d] =>
      assert (L : Qle_bool a b = true)
        by (apply Qle_bool_iff; unfold Qle;
            cbn [Qnum Qden inject_Z Qmult]; lia);
      assert (U : Qle_bool c d = true)
        by (apply Qle_bool_iff; unfold Qle;
            cbn [Qnum Qden inject_Z Qmult]; lia)
  end.
  rewrite L, U. cbn [andb]. unfold DateOps.truncate. cbn.
  rewrite Z.quot_1_r. reflexivity.
Qed.

(** X27.  A RemoteOK record dated [e] seconds after the epoch gives a job
    posted at [1000 e] milliseconds, and the filter of [processJobs], with
    its threshold of 24 hours, keeps that job exactly when [1000 e] lies in
    the 86 400 000 milliseconds that end at the reading of the clock. *)
Theorem X27_remoteok_epoch_window :
  forall (rt : Runtime) (now' now : Z) (job : RemoteOKJob.t) (e : Z)
         (jobs : list Job.t),
    RemoteOKJob.epoch job = Num.ofZ e ->
    (- 8640000000000 <= e <= 8640000000000)%Z ->
    Job.postedAt (Scraper.normalizeJob rt now' (Scraper.FromRemoteOK job))
    = Some (e * 1000)%Z
    /\ (In (Scraper.normalizeJob rt now' (Scraper.FromRemoteOK job)) jobs ->
        (In (Scraper.normalizeJob rt now' (Scraper.FromRemoteOK job))
            (Scraper.filterByTime now jobs Config.hoursThreshold)
         <-> (now - 86400000 <= e * 1000 <= now)%Z)).
Proof.
  intros rt now' now job e jobs E R.
  pose proof (remoteok_postedAt rt now' job e E R) as P.
  split; [exact P|]. intros I.
  rewrite filterByTime_filter, filter_In. unfold Config.hoursThreshold.
  rewrite keeps_window. unfold withinWindow. rewrite P. split.
  - intros (_ & t & Et & H0 & H1). inversion Et; subst t.
    assert (Q24 : (24 * inject_Z 3600000 == inject_Z 86400000)%Q)
      by reflexivity.
    apply (fun H => Qle_trans _ _ _ H (proj2 (Qle_lteq _ _)
                                         (or_intror Q24))) in H1.
    rewrite <- Zle_Qle in H1. lia.
  - intros H. split; [exact I|]. exists (e * 1000)%Z.
    split; [reflexivity|]. split; [lia|].
    apply Qle_trans with (inject_Z 86400000).
    + rewrite <- Zle_Qle. lia.
    + apply (proj2 (Qle_lteq _ _)). right. reflexivity.
Qed.

Lemma X27_witness :
  (RemoteOKJob.epoch Sample.remoteOK456 = Num.ofZ 1700000000
   /\ (- 8640000000000 <= 1700000000 <= 8640000000000)%Z)
  /\ Job.postedAt
       (Scraper.normalizeJob Ref.engine 0
                             (Scraper.FromRemoteOK Sample.remoteOK456))
     = Some (1700000000 * 1000)%Z.
Proof.
  split; [split; [reflexivity | lia]|].
  refine (proj1 (X27_remoteok_epoch_window
                   Ref.engine 0%Z 1700003600000%Z Sample.remoteOK456
                   1700000000%Z [] eq_refl _)).
  lia.
Defined.

(** ** scraper.ts: the Jobicy adapter *)

Lemma removeTags_closing (s : string) :
  forall inTag,
    Scraper.hasClosing (Scraper.removeTags inTag s) = true ->
    Scraper.hasClosing s = true.
Proof.
  induction s as [|c r IH]; intros inTag H; [destruct inTag; exact H|].
  cbn [Scraper.removeTags Scraper.hasClosing] in *.
  destruct inTag.
  - destruct (Ascii.eqb c ">"); [reflexivity|]. cbn. apply (IH true), H.
  - destruct (Ascii.eqb c "<" && Scraper.hasClosing r) eqn:E.
    + apply (IH true) in H. rewrite H. apply orb_true_r.
    + cbn [Scraper.hasClosing] in H. apply orb_true_iff in H as [H|H].
      * rewrite H. reflexivity.
      * apply (IH false) in H. rewrite H. apply orb_true_r.
Qed.

Lemma removeTags_no_tag (s : string) :
  forall inTag, hasTag (Scraper.removeTags inTag s) = false.
Proof.
  induction s as [|c r IH]; intros inTag; [destruct inTag; reflexivity|].
  cbn [Scraper.removeTags]. destruct inTag.
  - destruct (Ascii.eqb c ">"); apply IH.
  - destruct (Ascii.eqb c "<" && Scraper.hasClosing r) eqn:E; [apply IH|].
    cbn [hasTag]. rewrite IH, orb_false_r.
    apply andb_false_iff in E as [E|E]; [rewrite E; reflexivity|].
    apply andb_false_iff. right.
    destruct (Scraper.hasClosing (Scraper.removeTags false r)) eqn:C;
      [|reflexivity].
    apply removeTags_closing in C. congruence.
Qed.

Lemma hasClosing_substring (s : string) :
  forall n, Scraper.hasClosing (substring 0 n s) = true ->
            Scraper.hasClosing s = true.
Proof.
  induction s as [|c r IH]; intros [|n] H; cbn in H; try discriminate.
  cbn [Scraper.hasClosing]. apply orb_true_iff in H as [H|H].
  - rewrite H. reflexivity.
  - rewrite (IH n H). apply orb_true_r.
Qed.

Lemma hasTag_substring (s : string) :
  forall n, hasTag s = false -> hasTag (substring 0 n s) = false.
Proof.
  induction s as [|c r IH]; intros [|n] H; try reflexivity.
  cbn [substring hasTag] in *. apply orb_false_iff in H as [H1 H2].
  rewrite (IH n H2), orb_false_r.
  apply andb_false_iff in H1 as [H1|H1]; [rewrite H1; reflexivity|].
  apply andb_false_iff. right.
  destruct (Scraper.hasClosing (substring 0 n r)) eqn:C; [|reflexivity].
  apply hasClosing_substring in C. congruence.
Qed.

Lemma substring_length_le (s : string) :
  forall n, (String.length (substring 0 n s) <= n)%nat.
Proof.
  induction s as [|c r IH]; intros [|n]; cbn; try lia.
  specialize (IH n). lia.
Qed.

Section Jobicy.
Variable rt : Runtime.
Variable parse : string -> completion Scraper.JobicyItems.
Variable extract : string -> option string.

Lemma collectJobicy_usable (clock : nat -> Z)
      (items : list (option Scraper.JobicyItem.t)) :
  forall i,
    map Job.id (Scraper.collectJobicy rt extract clock i items)
    = map (fun item => Scraper.jobicyId (Scraper.JobicyItem.link item))
          (usableJobicy items)
    /\ map Job.url (Scraper.collectJobicy rt extract clock i items)
       = map Scraper.JobicyItem.link (usableJobicy items)
    /\ map Job.title (Scraper.collectJobicy rt extract clock i items)
       = map Scraper.JobicyItem.title (usableJobicy items)
    /\ Forall (fun job =>
                 Job.source job = jobicy
                 /\ Job.company job <> EmptyString
                 /\ hasTag (Job.description job) = false
                 /\ (String.length (Job.description job) <= 500)%nat)
              (Scraper.collectJobicy rt extract clock i items).
Proof.
  induction items as [|[item|] rest IH]; intros i;
    cbn [Scraper.collectJobicy usableJobicy flat_map].
  - repeat split; constructor.
  - fold (usableJobicy rest). destruct (IH (S i)) as (I & U & T & F).
    destruct (Str.nonEmpty (Scraper.JobicyItem.title item)),
      (Str.nonEmpty (Scraper.JobicyItem.link item));
      cbn [negb orb andb app map]; try (repeat split; assumption).
    rewrite I, U, T. repeat split. constructor; [|exact F].
    cbn [Job.source Job.company Job.description]. repeat split.
    + apply orDefault_nonEmpty. discriminate.
    + apply hasTag_substring. apply removeTags_no_tag.
    + apply substring_length_le.
  - fold (usableJobicy rest). apply IH.
Qed.

End Jobicy.


